(** * A shallow embedding of the YouTube analyzer pipeline

    The development follows the layout of the Python sources:
    [utils.py], [converter.py], [transcriber.py], [summarizer.py],
    [downloader.py] and [main.py] each get a module.  External
    collaborators (the file system, ffmpeg, the video platform and the
    generative backend) are oracles collected in an environment record;
    everything the Python code itself decides is translated as written. *)

From Stdlib Require Import NArith ZArith QArith Lia List String Ascii DecimalString.
From stdpp Require Import gmap list.

Open Scope N_scope.

(** ** Python strings

    A Python [str] is a sequence of Unicode code points; [len] counts
    code points.  Code points are kept as [N]. *)

Abbreviation char := N (only parsing).
Abbreviation str := (list N) (only parsing).

(** String literals of the sources are written as Rocq strings, whose
    bytes are the UTF-8 encoding of the literal. *)
Fixpoint utf8_decode (bytes : list N) : str :=
  match bytes with
  | [] => []
  | b :: rest =>
      if b <? 128 then b :: utf8_decode rest
      else if b <? 224 then
        match rest with
        | b1 :: rest1 => ((b - 192) * 64 + (b1 - 128)) :: utf8_decode rest1
        | _ => [b]
        end
      else if b <? 240 then
        match rest with
        | b1 :: b2 :: rest2 =>
            ((b - 224) * 4096 + (b1 - 128) * 64 + (b2 - 128))
              :: utf8_decode rest2
        | _ => [b]
        end
      else
        match rest with
        | b1 :: b2 :: b3 :: rest3 =>
            ((b - 240) * 262144 + (b1 - 128) * 4096 + (b2 - 128) * 64
             + (b3 - 128)) :: utf8_decode rest3
        | _ => [b]
        end
  end.

Definition py (s : string) : str :=
  utf8_decode (List.map N_of_ascii (list_ascii_of_string s)).

Definition len (s : str) : N := N.of_nat (length s).

(** [b.decode('utf-8')] succeeds exactly on well-formed UTF-8: no
    stray or missing continuation byte, no overlong form, no surrogate,
    nothing above U+10FFFF.  [expect] lists the ranges the next bytes
    must fall in to finish the character under way. *)
Definition continuation : N * N := (128, 191).

Definition utf8_lead (b : N) : option (list (N * N)) :=
  if b <=? 127 then Some []
  else if b <? 194 then None
  else if b <=? 223 then Some [continuation]
  else if b =? 224 then Some [(160, 191); continuation]
  else if b =? 237 then Some [(128, 159); continuation]
  else if b <=? 239 then Some [continuation; continuation]
  else if b =? 240 then Some [(144, 191); continuation; continuation]
  else if b <=? 243 then Some [continuation; continuation; continuation]
  else if b =? 244 then Some [(128, 143); continuation; continuation]
  else None.

Fixpoint utf8_scan (expect : list (N * N)) (bytes : list N) : bool :=
  match bytes with
  | [] => match expect with [] => true | _ => false end
  | b :: rest =>
      match expect with
      | (lo, hi) :: expect' =>
          (lo <=? b) && (b <=? hi) && utf8_scan expect' rest
      | [] =>
          match utf8_lead b with
          | Some expect' => utf8_scan expect' rest
          | None => false
          end
      end
  end.

Definition utf8_valid (bytes : list N) : bool := utf8_scan [] bytes.

(** The number of bytes of the UTF-8 encoding of a string. *)
Definition utf8_size (s : str) : N :=
  fold_right
    (fun c n =>
       (if c <? 128 then 1 else if c <? 2048 then 2
        else if c <? 65536 then 3 else 4) + n)
    0 s.

(** [s[:n]] for a non-negative bound. *)
Definition slice_to (n : N) (s : str) : str := take (N.to_nat n) s.

(** [str.isspace] on one code point (CPython's [Py_UNICODE_ISSPACE]);
    the same predicate decides [\s] in [re] and what [str.strip]
    removes. *)
Definition isspace (c : char) : bool :=
  ((9 <=? c) && (c <=? 13)) || ((28 <=? c) && (c <=? 32))
  || (c =? 133) || (c =? 160) || (c =? 5760)
  || ((8192 <=? c) && (c <=? 8202))
  || (c =? 8232) || (c =? 8233) || (c =? 8239) || (c =? 8287)
  || (c =? 12288).

Fixpoint lstrip (s : str) : str :=
  match s with
  | [] => []
  | c :: s' => if isspace c then lstrip s' else s
  end.

Definition rstrip (s : str) : str := reverse (lstrip (reverse s)).

(** [s.strip()] *)
Definition strip (s : str) : str := rstrip (lstrip s).

(** [s.lower()] restricted to what the sources compare against: the
    ASCII letters.  Outside ASCII only U+0130 and U+212A lower to
    something that contains an ASCII letter (an i followed by U+0307,
    and k); neither result occurs in [.mp3], [.wav], [.flac] or
    [gemini], so equality with those constants is decided alike. *)
Definition lower_char (c : char) : char :=
  if (65 <=? c) && (c <=? 90) then c + 32 else c.

Definition lower (s : str) : str := List.map lower_char s.

Fixpoint starts_with (p s : str) : bool :=
  match p, s with
  | [], _ => true
  | _ :: _, [] => false
  | a :: p', b :: s' => (a =? b) && starts_with p' s'
  end.

(** ** Paths

    [pathlib] on POSIX: a path string is split on the slash, empty and
    single-dot components are dropped, and [name], [suffix] and [stem]
    read the last component. *)
Fixpoint split_slash (s cur : str) : list str :=
  match s with
  | [] => [rev cur]
  | c :: s' =>
      if c =? 47 then rev cur :: split_slash s' []
      else split_slash s' (c :: cur)
  end.

Definition is_dot_or_empty (part : str) : bool :=
  match part with
  | [] => true
  | [46] => true
  | _ => false
  end.

Definition parts (p : str) : list str :=
  List.filter (fun part => negb (is_dot_or_empty part)) (split_slash p []).

Definition path_name (p : str) : str := List.last (parts p) [].

(** [name.rfind('.')]: index of the last dot, scanning from offset [i]. *)
Fixpoint rfind_dot (name : str) (i : N) (found : option N) : option N :=
  match name with
  | [] => found
  | c :: name' =>
      rfind_dot name' (i + 1) (if c =? 46 then Some i else found)
  end.

(** The index at which [suffix] starts, when [0 < i < len(name) - 1]. *)
Definition suffix_index (name : str) : option N :=
  match rfind_dot name 0 None with
  | Some i => if (0 <? i) && (i + 1 <? len name) then Some i else None
  | None => None
  end.

Definition path_suffix (p : str) : str :=
  let name := path_name p in
  match suffix_index name with
  | Some i => drop (N.to_nat i) name
  | None => []
  end.

Definition path_stem (p : str) : str :=
  let name := path_name p in
  match suffix_index name with
  | Some i => take (N.to_nat i) name
  | None => name
  end.

(** [dir / name] followed by [str]. *)
Definition path_join (dir name : str) : str := dir ++ 47 :: name.

(** The limits of Linux on a path: 255 bytes for one component, 4095
    for the whole.  [stat] on a path beyond them fails with
    [ENAMETOOLONG], whatever the file system holds. *)
Definition name_too_long (p : str) : bool :=
  existsb (fun part => 255 <? utf8_size part) (split_slash p [])
  || (4095 <? utf8_size p).

(** The directories on the way to [p]: every prefix that ends before a
    slash (the root for an absolute path). *)
Fixpoint ancestors_from (seen rest : str) : list str :=
  match rest with
  | [] => []
  | c :: rest' =>
      (if c =? 47
       then [match seen with [] => [47] | _ => reverse seen end]
       else [])
      ++ ancestors_from (c :: seen) rest'
  end.

Definition ancestors (p : str) : list str := ancestors_from [] p.

(** ** Exceptions, the world and the monad of the stages *)

(** Only the distinction made by [except Exception] matters: an
    instance of [Exception] is caught there, anything else derived from
    [BaseException] alone (KeyboardInterrupt, SystemExit) is not. *)
Inductive exn := Exception | BaseException.

Inductive res (A : Type) :=
| Ret (a : A)
| Raise (e : exn).
Arguments Ret {A} a.
Arguments Raise {A} e.

(** A file-system entry: a regular file or a directory, with the size
    [stat] reports. *)
Inductive kind := Regular | Directory.

Record node := Node { node_kind : kind; st_size : N }.

(** What a run does to the outside, in order. *)
Inductive event :=
| EStep (n : N)                              (* a PASSO n banner *)
| EInvalidUrl                                (* URL rejected *)
| EFfmpeg (input output : str)               (* ffmpeg.run *)
| EUpload (path : str)                       (* genai.upload_file *)
| EGenerate (prompt : str) (audio : option N) (* generate_content *)
| EDeleteFile (handle : N)                   (* genai.delete_file *)
| EWrite (path : str)                        (* open(path, 'w') *)
| ECleanup                                   (* the cleanup banner *)
| EUnlink (path : str)                       (* entry removed *)
| EUnlinkError (path : str).                 (* removal failed, warned *)

(** The file system maps a path string to its entry; every file is
    named by one relative POSIX path. *)
Record world := World { fs : gmap (list N) node; trace : list event }.

Definition M (A : Type) : Type := world -> res A * world.

Definition ret {A} (a : A) : M A := fun w => (Ret a, w).

Definition raise {A} (e : exn) : M A := fun w => (Raise e, w).

Definition bind {A B} (m : M A) (k : A -> M B) : M B :=
  fun w =>
    match m w with
    | (Ret a, w') => k a w'
    | (Raise e, w') => (Raise e, w')
    end.

Notation "'let!' x ':=' m 'in' k" := (bind m (fun x => k))
  (at level 10, x name, m at level 100, k at level 200,
   format "'[v' 'let!'  x  ':='  m  'in' '/' k ']'").

(** [try: body except Exception: handler] *)
Definition try_except {A} (body handler : M A) : M A :=
  fun w =>
    match body w with
    | (Raise Exception, w') => handler w'
    | r => r
    end.

(** [try: body finally: final]: the outcome of [body] is kept unless
    [final] itself raises. *)
Definition try_finally {A} (body : M A) (final : M unit) : M A :=
  fun w =>
    let (r, w') := body w in
    match final w' with
    | (Ret _, w'') => (r, w'')
    | (Raise e, w'') => (Raise e, w'')
    end.

(** An oracle's answer becomes a return value or a raised exception. *)
Definition lift {A} (r : res A) : M A := fun w => (r, w).

Definition emit (ev : event) : M unit :=
  fun w => (Ret tt, World (fs w) (trace w ++ [ev])).

(** [Path(p).stat().st_size] *)
Definition stat_size (p : str) : M N :=
  fun w =>
    match fs w !! p with
    | Some n => (Ret (st_size n), w)
    | None => (Raise Exception, w)
    end.

Definition write_node (p : str) (n : node) : M unit :=
  fun w => (Ret tt, World (<[p := n]> (fs w)) (trace w)).

(** [size / 1024 / 1024].  Python computes it in binary floating
    point; a size below 2^53 bytes converts exactly and dividing by a
    power of two is exact, so the comparisons with 18 and 20 below are
    those of the exact quotient (a larger size rounds to a value far
    above both bounds). *)
Definition megabytes (size : N) : Q :=
  (inject_Z (Z.of_N size) / 1024 / 1024)%Q.


(** [o or default] *)
Definition or_default (o : option (list N)) (default : str) : str :=
  match o with
  | Some (c :: s) => c :: s
  | _ => default
  end.

(** Decimal rendering of an integer, as [str(n)]. *)
Definition digits (n : N) : str :=
  py (NilEmpty.string_of_uint (N.to_uint n)).

(** ** The external collaborators *)

Record stream := Stream {
  subtype : str;
  mime_type : str;
  filesize : N;
  download_result : res unit
}.

(** What [YouTube(url)] exposes: the metadata and the first audio-only
    stream, if any. *)
Record video := Video {
  yt_title : str;
  yt_length : N;
  yt_author : str;
  yt_views : N;
  yt_description : str;
  yt_first_audio : option stream
}.

Inductive ffmpeg_outcome :=
| Encoded (size : N)          (* the output file is written *)
| NoOutput                    (* returns without writing anything *)
| FfmpegError (stderr : list N)
                              (* raises ffmpeg.Error, which carries the
                                 bytes ffmpeg wrote to stderr *)
| Failed (e : exn).           (* raises anything else *)

Record ffmpeg_args := FfmpegArgs {
  acodec : str;
  audio_bitrate : option (list N);
  ac : N;
  ar : N
}.

(** A backend response; reading [.text] may raise. *)
Record response := Response { response_text : res (list N) }.

(** What [with open(path, 'w', encoding='utf-8') as f:] and the writes
    in its body come to.  The text written is not modelled, so the size
    of the file is the environment's to give. *)
Inductive write_outcome :=
| Written (size : N)              (* every write went through *)
| NotOpened (e : exn)             (* open raises: no file is made *)
| Interrupted (size : N) (e : exn).
                                  (* a write raises after the file was
                                     created; what was written stays *)

(** [unlink_denied p] tells that the operating system refuses to
    remove the regular file [p] (held open by another process, missing
    permission): [Path.unlink] then raises an [OSError].
    [unsearchable d] tells that the process may not search the
    directory [d]: [stat] on a path through it fails with [EACCES].
    The working directory itself is taken to be searchable. *)
Record env := Env {
  YouTube : str -> res video;
  ffmpeg_run : ffmpeg_args -> str -> str -> gmap (list N) node
               -> ffmpeg_outcome;
  upload_file : str -> res N;
  generate_content : str -> option N -> res response;
  delete_file : N -> res unit;
  strftime : str -> str;
  open_w : str -> write_outcome;
  unlink_denied : str -> bool;
  unsearchable : str -> bool
}.

(** [stat] on a path the file system does not hold answers not-found,
    unless it fails otherwise: the name is beyond the limits, or a
    directory on the way may not be searched. *)
Definition stat_fails (e : env) (p : str) : bool :=
  name_too_long p || existsb (unsearchable e) (ancestors p).

(** [Path(p).exists()]: [True] for an entry, [False] when [stat]
    answers not-found; any other failure of [stat] is raised again, as
    the [OSError] it is.  The file system holds the entries the process
    reaches, so an entry that is found is reported. *)
Definition path_exists (e : env) (p : str) : M bool :=
  fun w =>
    match fs w !! p with
    | Some _ => (Ret true, w)
    | None =>
        if stat_fails e p then (Raise Exception, w) else (Ret false, w)
    end.

(** ** utils.py *)
Module Utils.

(** The character class of the first substitution, by code point:
    less-than, greater-than, colon, double quote, slash, backslash,
    bar, question mark, star. *)
Definition invalid_chars : list char :=
  [60; 62; 58; 34; 47; 92; 124; 63; 42].

Definition is_invalid (c : char) : bool :=
  existsb (N.eqb c) invalid_chars.

(** First [re.sub]: each character of the class becomes an
    underscore. *)
Definition sub_invalid (filename : str) : str :=
  List.map (fun c => if is_invalid c then 95 else c) filename.

(** [re.sub(r'\s+', ' ', s)]: every maximal run of whitespace becomes
    one space.  [in_run] records that the previous character was part
    of the run being replaced. *)
Fixpoint collapse (in_run : bool) (s : str) : str :=
  match s with
  | [] => []
  | c :: s' =>
      if isspace c
      then (if in_run then collapse true s' else 32 :: collapse true s')
      else c :: collapse false s'
  end.

Definition sub_spaces (s : str) : str := collapse false s.

Definition sanitize_filename (filename : str) : str :=
  let sanitized := sub_invalid filename in
  let sanitized := slice_to 100 (strip (sub_spaces sanitized)) in
  sanitized.

(** The raw patterns of [validate_youtube_url], as written. *)
Definition youtube_patterns : list string :=
  [ "youtube\.com/watch\?v=";
    "youtu\.be/";
    "youtube\.com/embed/";
    "youtube\.com/v/" ]%string.

(** The patterns only use literal characters and backslash-escaped
    punctuation, which [re] reads as the escaped character itself. *)
Fixpoint compile (pattern : str) : str :=
  match pattern with
  | [] => []
  | 92 :: c :: rest => c :: compile rest
  | c :: rest => c :: compile rest
  end.

(** [re.search(pattern, url)] for such a pattern: the literal occurs
    at some offset. *)
Fixpoint search_lit (lit url : str) : bool :=
  starts_with lit url ||
  match url with
  | [] => false
  | _ :: url' => search_lit lit url'
  end.

Definition re_search (pattern : string) (url : str) : bool :=
  search_lit (compile (py pattern)) url.

Definition validate_youtube_url (url : str) : bool :=
  existsb (fun pattern => re_search pattern url) youtube_patterns.

(** [seconds // 3600], [(seconds % 3600) // 60], [seconds % 60] with
    the format [02d]. *)
Definition fmt02d (n : N) : str :=
  if n <? 10 then 48 :: digits n else digits n.

Definition format_duration (seconds : N) : str :=
  let hours := seconds / 3600 in
  let minutes := (seconds mod 3600) / 60 in
  let seconds := seconds mod 60 in
  if 0 <? hours
  then fmt02d hours ++ 58 :: fmt02d minutes ++ 58 :: fmt02d seconds
  else fmt02d minutes ++ 58 :: fmt02d seconds.

Definition temp_dir : str := py "temp_files".

(** An entry directly inside [temp_files]: what [temp_dir.glob('*')]
    yields. *)
Definition in_temp_dir (p : str) : bool :=
  starts_with (path_join temp_dir []) p
  && match drop (length temp_dir + 1) p with
     | [] => false
     | name => negb (existsb (N.eqb 47) name)
     end.

Definition glob_temp (files : gmap (list N) node) : list (list N) :=
  List.filter in_temp_dir (List.map fst (map_to_list files)).

(** [unlink] removes a regular file unless the system refuses; on a
    directory it always raises. *)
Definition can_unlink (e : env) (p : str) (n : node) : bool :=
  match node_kind n with
  | Regular => negb (unlink_denied e p)
  | Directory => false
  end.

(** [file.unlink()] *)
Definition unlink (e : env) (p : str) : M unit :=
  fun w =>
    match fs w !! p with
    | Some n =>
        if can_unlink e p n
        then (Ret tt, World (delete p (fs w)) (trace w))
        else (Raise Exception, w)
    | None => (Raise Exception, w)
    end.

(** The body of the loop of [cleanup_temp_files]. *)
Definition unlink_or_warn (e : env) (p : str) : M unit :=
  try_except
    (let! _ := unlink e p in emit (EUnlink p))
    (emit (EUnlinkError p)).

Fixpoint for_each {A} (l : list A) (body : A -> M unit) : M unit :=
  match l with
  | [] => ret tt
  | x :: l' => let! _ := body x in for_each l' body
  end.

Definition cleanup_temp_files (e : env) : M unit :=
  let! dir_exists := path_exists e temp_dir in
  if dir_exists
  then fun w => for_each (glob_temp (fs w)) (unlink_or_warn e) w
  else ret tt.

End Utils.



(** ** downloader.py *)
Module Downloader.

Definition output_dir : str := py "temp_files".

Record video_info := VideoInfo {
  title : str;
  duration : N;
  duration_formatted : str;
  author : str;
  views : N;
  description : str
}.

Definition get_video_info (e : env) (url : str) : M (option video_info) :=
  try_except
    (let! yt := lift (YouTube e url) in
     let info :=
       {| title := yt_title yt;
          duration := yt_length yt;
          duration_formatted := Utils.format_duration (yt_length yt);
          author := yt_author yt;
          views := yt_views yt;
          description :=
            if 200 <? len (yt_description yt)
            then slice_to 200 (yt_description yt) ++ py "..."
            else yt_description yt |} in
     ret (Some info))
    (ret None).

(** Modelled from the spec: [Stream.download] of the pytubefix
    library, which is not part of the sources.  The spec has the
    download write the binary asset to transient storage under the file
    name it is given and hand back the asset; here the file appears
    under the directory with the size of the stream, and the path
    returned is that file's, written relative to the working directory
    as every path of [fs] is (the library spells the same path out from
    the working directory).  A failed download writes nothing. *)
Definition stream_download (s : stream) (dir filename : str) : M (list N) :=
  let! _ := lift (download_result s) in
  let path := path_join dir filename in
  let! _ := write_node path (Node Regular (filesize s)) in
  ret path.

(** The file name handed to [download] by both download methods. *)
Definition audio_filename (video_title : str) (s : stream) : str :=
  Utils.sanitize_filename video_title ++ py "." ++ subtype s.

Definition download_audio (e : env) (url : str) : M (option (list N)) :=
  try_except
    (let! yt := lift (YouTube e url) in
     match yt_first_audio yt with
     | None => ret None
     | Some audio_stream =>
         let! output_path :=
           stream_download audio_stream output_dir
             (audio_filename (yt_title yt) audio_stream) in
         ret (Some output_path)
     end)
    (ret None).

End Downloader.

(** ** converter.py *)
Module Converter.

Definition output_dir : str := py "temp_files".

(** [ffmpeg.run] on the stream built from input, output and options;
    [ffmpeg.Error] is an [Exception] like any other to a caller that
    has no handler for it alone. *)
Definition ffmpeg (e : env) (args : ffmpeg_args) (input output : str)
  : M unit :=
  let! _ := emit (EFfmpeg input output) in
  fun w =>
    match ffmpeg_run e args input output (fs w) with
    | Encoded size =>
        write_node output (Node Regular size) w
    | NoOutput => (Ret tt, w)
    | FfmpegError _ => (Raise Exception, w)
    | Failed ex => (Raise ex, w)
    end.

Definition wav_args (target_sample_rate : N) : ffmpeg_args :=
  {| acodec := py "pcm_s16le"; audio_bitrate := None;
     ac := 1; ar := target_sample_rate |}.

Definition gemini_args : ffmpeg_args :=
  {| acodec := py "mp3"; audio_bitrate := Some (py "128k");
     ac := 1; ar := 22050 |}.

(** [ffmpeg.run] under a [try] that has a handler for [ffmpeg.Error]
    alone: that error leaves the body for its handler, with the bytes of
    stderr it carries ([inr]); everything else is as in [ffmpeg]. *)
Definition ffmpeg_checked (e : env) (args : ffmpeg_args)
    (input output : str) : M (unit + list N) :=
  let! _ := emit (EFfmpeg input output) in
  fun w =>
    match ffmpeg_run e args input output (fs w) with
    | Encoded size =>
        (Ret (inl tt),
         World (<[output := Node Regular size]> (fs w)) (trace w))
    | NoOutput => (Ret (inl tt), w)
    | FfmpegError stderr => (Ret (inr stderr), w)
    | Failed ex => (Raise ex, w)
    end.

(** The handler [except ffmpeg.Error as e] of [convert_to_wav]: it
    prints the error, decodes a non-empty [e.stderr] as UTF-8 to print
    it, and returns [None].  Decoding raises [UnicodeDecodeError] on
    bytes that are not UTF-8, and no handler is left to catch it. *)
Definition on_ffmpeg_error (stderr : list N) : M (option (list N)) :=
  match stderr with
  | [] => ret None
  | _ :: _ => if utf8_valid stderr then ret None else raise Exception
  end.

(** The two handlers are siblings: [except Exception] covers the body
    of the [try], not the handler of [ffmpeg.Error]. *)
Definition convert_to_wav (e : env) (input_path : str)
    (target_sample_rate : N) : M (option (list N)) :=
  let! outcome :=
    try_except
      (let! found := path_exists e input_path in
       if negb found then ret (inl None)
       else
         let output_filename :=
           path_stem input_path ++ py "_converted.wav" in
         let output_path := path_join output_dir output_filename in
         let! ran := ffmpeg_checked e (wav_args target_sample_rate)
                       input_path output_path in
         match ran with
         | inr stderr => ret (inr stderr)
         | inl _ =>
             let! written := path_exists e output_path in
             if written
             then (let! _ := stat_size output_path in
                   ret (inl (Some output_path)))
             else ret (inl None)
         end)
      (ret (inl None)) in
  match outcome with
  | inl result => ret result
  | inr stderr => on_ffmpeg_error stderr
  end.

Definition _optimize_for_whisper_internal (e : env)
    (input_path input_file : str) : M (option (list N)) :=
  convert_to_wav e input_path 16000.

Definition accepted_suffixes : list (list N) :=
  [py ".mp3"; py ".wav"; py ".flac"].

(** Float division; dividing by [0.0] raises [ZeroDivisionError]. *)
Definition float_div (a b : Q) : M Q :=
  if Qeq_bool b 0 then raise Exception else ret (a / b)%Q.

Definition _optimize_for_gemini_internal (e : env)
    (input_path input_file : str) (file_size_mb : Q)
  : M (option (list N)) :=
  if bool_decide (lower (path_suffix input_file) ∈ accepted_suffixes)
     && Qle_bool file_size_mb 18
  then ret (Some input_path)
  else
    let output_filename :=
      path_stem input_file ++ py "_gemini_optimized.mp3" in
    let output_path := path_join output_dir output_filename in
    try_except
      (let! _ := ffmpeg e gemini_args input_file output_path in
       let! written := path_exists e output_path in
       if written
       then
         let! new_size := stat_size output_path in
         let new_size_mb := megabytes new_size in
         (* the reduction percentage printed after a conversion *)
         let! _ := float_div (file_size_mb - new_size_mb) file_size_mb in
         ret (Some output_path)
       else ret (Some input_path))
      (ret (Some input_path)).

Definition optimize_for_whisper (e : env) (input_path target_ai : str)
  : M (option (list N)) :=
  try_except
    (let input_file := input_path in
     let! found := path_exists e input_file in
     if negb found then ret None
     else
       let! size := stat_size input_file in
       let file_size_mb := megabytes size in
       if bool_decide (lower target_ai = py "gemini")
       then _optimize_for_gemini_internal e input_path input_file
              file_size_mb
       else _optimize_for_whisper_internal e input_path input_file)
    (ret (Some input_path)).

Definition optimize_for_gemini (e : env) (input_path : str)
  : M (option (list N)) :=
  optimize_for_whisper e input_path (py "gemini").

End Converter.

(** The language table shared by the transcriber and the summarizer:
    [lang_names.get(code, code)]. *)
Definition lang_names : list (string * string) :=
  [ ("pt", "português brasileiro"); ("en", "inglês");
    ("es", "espanhol"); ("fr", "francês") ]%string.

Fixpoint dict_get (d : list (string * string)) (key default : str) : str :=
  match d with
  | [] => default
  | (k, v) :: d' =>
      if bool_decide (py k = key) then py v else dict_get d' key default
  end.

(** A multi-line literal, one Rocq string per source line. *)
Fixpoint text_of (lines : list string) : str :=
  match lines with
  | [] => []
  | [l] => py l
  | l :: rest => py l ++ 10 :: text_of rest
  end.

(** [genai.upload_file], [model.generate_content], [genai.delete_file]:
    each call is a request to the backend. *)
Definition genai_upload (e : env) (path : str) : M N :=
  let! _ := emit (EUpload path) in lift (upload_file e path).

Definition genai_generate (e : env) (prompt : str) (audio : option N)
  : M response :=
  let! _ := emit (EGenerate prompt audio) in
  lift (generate_content e prompt audio).

Definition genai_delete (e : env) (handle : N) : M unit :=
  let! _ := emit (EDeleteFile handle) in lift (delete_file e handle).

(** [open(output_path, 'w')] and the writes that follow.  Opening
    creates the file, or empties the one that is there; a directory of
    that name makes it raise [IsADirectoryError].  Whether the open
    goes through otherwise (the parent directory, the permissions) and
    whether the writes do is the environment's answer. *)
Definition write_text_file (e : env) (output_path : str) : M unit :=
  let! _ := emit (EWrite output_path) in
  fun w =>
    match option_map node_kind (fs w !! output_path) with
    | Some Directory => (Raise Exception, w)
    | _ =>
        match open_w e output_path with
        | Written size => write_node output_path (Node Regular size) w
        | NotOpened ex => (Raise ex, w)
        | Interrupted size ex =>
            (Raise ex,
             World (<[output_path := Node Regular size]> (fs w)) (trace w))
        end
    end.

(** ** transcriber.py *)
Module Transcriber.

Record transcript := Transcript {
  text : str;
  file_path : str;
  file_size_mb : Q;
  language : str;
  source_language : option (list N);
  model_used : str
}.

Definition prompt_original : str :=
  text_of [EmptyString;
      "            Transcreva este áudio de forma completa e precisa no idioma original.";
      "            ";
      "            Instruções:";
      "            - Mantenha o idioma original do áudio";
      "            - Inclua toda a fala de forma literal";
      "            - Use pontuação natural";
      "            - Não adicione comentários ou interpretações";
      "            ";
      "            Retorne apenas o texto transcrito:";
      "            "]%string.

Definition prompt_translate (language_context target_lang_name : str)
  : str :=
  text_of [EmptyString;
      "        "]%string
    ++ language_context
    ++ text_of [EmptyString;
      "        ";
      "        Instruções importantes:";
      "        1. Primeiro, transcreva completamente o que está sendo dito";
      "        2. Se o áudio não estiver em "]%string
    ++ target_lang_name
    ++ text_of [", traduza o conteúdo fiel e naturalmente";
      "        3. Mantenha o sentido e contexto original";
      "        4. Use linguagem natural em "]%string
    ++ target_lang_name
    ++ text_of [EmptyString;
      "        5. Preserve nomes próprios, termos técnicos quando apropriado";
      "        6. Não adicione comentários ou interpretações próprias";
      "        ";
      "        Retorne apenas o texto final em "]%string
    ++ target_lang_name
    ++ text_of [":";
      "        "]%string.

Definition _build_transcription_prompt
    (target_language source_language : option (list N)) : str :=
  match target_language with
  | Some (c :: l) =>
      let target_language := c :: l in
      let target_lang_name :=
        dict_get lang_names target_language target_language in
      let language_context :=
        match source_language with
        | Some (c' :: l') =>
            let source_language := c' :: l' in
            let source_lang_name :=
              dict_get lang_names source_language source_language in
            py "O áudio está em " ++ source_lang_name
            ++ py " e deve ser traduzido para " ++ target_lang_name
            ++ py "."
        | _ =>
            py "Transcreva e traduza o conteúdo para "
            ++ target_lang_name ++ py "."
        end in
      prompt_translate language_context target_lang_name
  | _ => prompt_original
  end.

Definition transcribe_audio (e : env) (audio_path : str)
    (language source_language : option (list N))
  : M (option transcript) :=
  try_except
    (let audio_file := audio_path in
     let! found := path_exists e audio_file in
     if negb found then ret None
     else
       let! size := stat_size audio_file in
       let file_size_mb := megabytes size in
       if negb (Qle_bool file_size_mb 20) then ret None
       else
         let! audio_file_obj := genai_upload e audio_path in
         let prompt :=
           _build_transcription_prompt language source_language in
         let! response := genai_generate e prompt (Some audio_file_obj) in
         let! _ := genai_delete e audio_file_obj in
         let! transcript_text := lift (response_text response) in
         let result :=
           {| text := transcript_text;
              file_path := audio_path;
              file_size_mb := file_size_mb;
              language := or_default language (py "auto-detectado");
              source_language := source_language;
              model_used := py "gemini-1.5-flash" |} in
         ret (Some result))
    (ret None).

Definition save_transcript (e : env) (transcript_data : transcript)
    (output_path : str) : M bool :=
  try_except
    (let! _ := write_text_file e output_path in ret true)
    (ret false).

End Transcriber.

(** ** summarizer.py *)
Module Summarizer.

Record summary := Summary {
  summary_text : str;
  original_length : N;
  summary_length : N;
  compression_ratio : Q;
  model_used : str;
  summary_type : str;
  target_language : str
}.

Record analysis := Analysis {
  analysis_text : str;
  analysis_model_used : str;
  analysis_target_language : str
}.

Definition default_model : str := py "gemini-1.5-flash".

Definition structured_prompt (lang_instruction : str) : str :=
  text_of [EmptyString;
      "Você é um especialista em análise de conteúdo. Crie um resumo estruturado e organizado do texto fornecido."]%string
    ++ lang_instruction
    ++ text_of [EmptyString;
      EmptyString;
      "Formato desejado:";
      "## 🎯 Resumo Executivo";
      "[Resumo em 2-3 frases do conteúdo principal]";
      EmptyString;
      "## 📋 Principais Tópicos";
      "- [Tópico 1 com breve descrição]";
      "- [Tópico 2 com breve descrição]";
      "- [Tópico 3 com breve descrição]";
      EmptyString;
      "## 💡 Insights Importantes";
      "- [Insight ou informação relevante 1]";
      "- [Insight ou informação relevante 2]";
      EmptyString;
      "## 🎯 Conclusões";
      "[Principais conclusões do conteúdo]";
      EmptyString;
      "Seja conciso, objetivo e mantenha as informações mais importantes.";
      "            "]%string.

Definition bullet_points_prompt (lang_instruction : str) : str :=
  text_of [EmptyString;
      "Crie um resumo em tópicos do texto fornecido. Use bullet points claros e concisos."]%string
    ++ lang_instruction
    ++ text_of [EmptyString;
      "Organize as informações em ordem de importância.";
      "Máximo de 10 bullet points.";
      "Cada ponto deve ser autocontido e informativo.";
      "            "]%string.

Definition paragraph_prompt (lang_instruction : str) : str :=
  text_of [EmptyString;
      "Crie um resumo em formato de parágrafo do texto fornecido."]%string
    ++ lang_instruction
    ++ text_of [EmptyString;
      "O resumo deve ter entre 150-300 palavras.";
      "Mantenha as informações mais importantes e preserve o contexto.";
      "Use linguagem clara e objetiva.";
      "            "]%string.

Definition summary_lang_instruction (target_language : option (list N))
  : str :=
  match target_language with
  | Some (c :: l) =>
      let lang_name := dict_get lang_names (c :: l) (c :: l) in
      10 :: 10 :: py "**IMPORTANTE: Gere todo o resumo em " ++ lang_name
      ++ py ", independente do idioma do texto original.**"
  | _ => []
  end.

(** [prompts.get(summary_type, prompts['structured'])] *)
Definition _get_system_prompt (summary_type : str)
    (target_language : option (list N)) : str :=
  let lang_instruction := summary_lang_instruction target_language in
  if bool_decide (summary_type = py "structured")
  then structured_prompt lang_instruction
  else if bool_decide (summary_type = py "bullet_points")
  then bullet_points_prompt lang_instruction
  else if bool_decide (summary_type = py "paragraph")
  then paragraph_prompt lang_instruction
  else structured_prompt lang_instruction.

Definition max_chars : N := 30000.

Definition truncation_marker : str :=
  10 :: 10 :: py "[...texto truncado...]".

(** The text after the size limit of [create_summary]. *)
Definition limit_text (text : str) : str :=
  if max_chars <? len text
  then slice_to max_chars text ++ truncation_marker
  else text.

Definition summary_prompt (system_prompt text : str) : str :=
  system_prompt ++ 10 :: 10 :: py "Texto para resumir:" ++ 10 :: 10 :: text.

(** [len(a) / len(b)]: true division of two integers, kept as the
    exact quotient; a zero divisor raises [ZeroDivisionError]. *)
Definition truediv (a b : N) : M Q :=
  if b =? 0 then raise Exception
  else ret (inject_Z (Z.of_N a) / inject_Z (Z.of_N b))%Q.

Definition create_summary (e : env) (model_name : str) (text : str)
    (summary_type : str) (target_language : option (list N))
  : M (option summary) :=
  try_except
    (if len (strip text) <? 50 then ret None
     else
       let system_prompt :=
         _get_system_prompt summary_type target_language in
       let text := limit_text text in
       let full_prompt := summary_prompt system_prompt text in
       let! response := genai_generate e full_prompt None in
       let! summary := lift (response_text response) in
       let! ratio := truediv (len summary) (len text) in
       let result :=
         {| summary_text := summary;
            original_length := len text;
            summary_length := len summary;
            compression_ratio := ratio;
            model_used := model_name;
            summary_type := summary_type;
            target_language := or_default target_language (py "original")
         |} in
       ret (Some result))
    (ret None).

Definition analysis_lang_instruction (target_language : option (list N))
  : str :=
  match target_language with
  | Some (c :: l) =>
      let lang_name := dict_get lang_names (c :: l) (c :: l) in
      10 :: 10 :: py "**IMPORTANTE: Gere toda a análise em " ++ lang_name
      ++ py ".**"
  | _ => []
  end.

Definition analysis_system_prompt (lang_instruction : str) : str :=
  text_of [EmptyString;
      "Analise o conteúdo fornecido e retorne uma análise estruturada:"]%string
    ++ lang_instruction
    ++ text_of [EmptyString;
      EmptyString;
      "## 📂 Categoria";
      "[Categoria do conteúdo: educacional, entretenimento, negócios, tecnologia, etc.]";
      EmptyString;
      "## 🎯 Público-Alvo";
      "[Para quem o conteúdo é direcionado]";
      EmptyString;
      "## 📊 Tom/Sentimento";
      "[Tom do conteúdo: formal, informal, técnico, didático, etc.]";
      EmptyString;
      "## ⏱️ Tempo Estimado de Leitura";
      "[Estimativa de tempo para ler o conteúdo original]";
      EmptyString;
      "## 🔍 Palavras-Chave";
      "[5-7 palavras-chave principais]";
      EmptyString;
      "## 📈 Nível de Complexidade";
      "[Básico, Intermediário ou Avançado]";
      "            "]%string.

Definition analysis_prompt (system_prompt text : str) : str :=
  system_prompt ++ 10 :: 10 :: py "Conteúdo para analisar:"
  ++ 10 :: 10 :: slice_to 5000 text.

Definition analyze_content (e : env) (model_name : str) (text : str)
    (target_language : option (list N)) : M (option analysis) :=
  try_except
    (let lang_instruction := analysis_lang_instruction target_language in
     let system_prompt := analysis_system_prompt lang_instruction in
     let prompt := analysis_prompt system_prompt text in
     let! response := genai_generate e prompt None in
     let! analysis := lift (response_text response) in
     ret (Some {| analysis_text := analysis;
                  analysis_model_used := model_name;
                  analysis_target_language :=
                    or_default target_language (py "original") |}))
    (ret None).

(** The summary dictionary handed to [save_summary], which may carry
    the analysis text under an extra key. *)
Record summary_file := SummaryFile {
  summary_data : summary;
  extra_analysis : option (list N)
}.

Definition save_summary (e : env) (data : summary_file)
    (output_path : str) (include_analysis : bool) : M bool :=
  try_except
    (let! _ := write_text_file e output_path in ret true)
    (ret false).

End Summarizer.

(** ** main.py *)
Module Main.

Record language_settings := LanguageSettings {
  source_language : option (list N);
  target_language : option (list N)
}.

Record files_processed := FilesProcessed {
  original_audio : str;
  converted_audio : str
}.

Record final_result := FinalResult {
  video_info : Downloader.video_info;
  transcript : Transcriber.transcript;
  summary : Summarizer.summary;
  analysis : option Summarizer.analysis;
  processing_time : str;
  ai_provider : str;
  settings : language_settings;
  files : files_processed
}.

(** The collaborators held by a [YouTubeAnalyzer]: [self.downloader],
    [self.converter], [self.transcriber] and [self.summarizer], by the
    methods the orchestrator calls. *)
Record components := Components {
  get_video_info : str -> M (option Downloader.video_info);
  download_audio : str -> M (option (list N));
  optimize_for_gemini : str -> M (option (list N));
  transcribe_audio :
    str -> option (list N) -> option (list N)
    -> M (option Transcriber.transcript);
  create_summary :
    str -> str -> option (list N) -> M (option Summarizer.summary);
  analyze_content :
    str -> option (list N) -> M (option Summarizer.analysis);
  save_transcript : Transcriber.transcript -> str -> M bool;
  save_summary : Summarizer.summary_file -> str -> bool -> M bool
}.

(** What [__init__] builds. *)
Definition YouTubeAnalyzer (e : env) : components :=
  {| get_video_info := Downloader.get_video_info e;
     download_audio := Downloader.download_audio e;
     optimize_for_gemini := Converter.optimize_for_gemini e;
     transcribe_audio := Transcriber.transcribe_audio e;
     create_summary :=
       Summarizer.create_summary e Summarizer.default_model;
     analyze_content :=
       Summarizer.analyze_content e Summarizer.default_model;
     save_transcript := Transcriber.save_transcript e;
     save_summary := Summarizer.save_summary e |}.

(** [Path(p).mkdir(exist_ok=True)] *)
Definition mkdir (p : str) : M unit :=
  fun w =>
    match fs w !! p with
    | None => write_node p (Node Directory 0) w
    | Some n =>
        match node_kind n with
        | Directory => (Ret tt, w)
        | Regular => (Raise Exception, w)
        end
    end.

Definition _create_full_report (e : env) (data : final_result)
    (output_path : str) : M unit :=
  try_except (write_text_file e output_path) (ret tt).

(** The common prefix of the three persisted files. *)
Definition base_filename (e : env) (video_title : str)
    (target : option (list N)) : str :=
  let safe_title := Utils.sanitize_filename video_title in
  let timestamp := strftime e (py "%Y%m%d_%H%M%S") in
  let language_suffix :=
    match target with
    | Some (c :: l) => py "_" ++ c :: l
    | _ => []
    end in
  safe_title ++ py "_" ++ timestamp ++ language_suffix.

Definition _save_results (e : env) (c : components)
    (result_data : final_result) (video_title : str) : M unit :=
  try_except
    (let base_filename :=
       base_filename e video_title
         (target_language (settings result_data)) in
     let output_dir := py "output" in
     let! _ := mkdir output_dir in
     let transcript_path :=
       path_join output_dir (base_filename ++ py "_transcricao_gemini.txt") in
     let! _ := save_transcript c (transcript result_data) transcript_path in
     let summary_path :=
       path_join output_dir (base_filename ++ py "_resumo_gemini.md") in
     let summary_data_with_analysis :=
       {| Summarizer.summary_data := summary result_data;
          Summarizer.extra_analysis :=
            option_map Summarizer.analysis_text (analysis result_data) |} in
     let! _ := save_summary c summary_data_with_analysis summary_path true in
     let report_path :=
       path_join output_dir
         (base_filename ++ py "_relatorio_completo_gemini.md") in
     _create_full_report e result_data report_path)
    (ret tt).

(** [if not x: return None] on a path: [None] and [''] stop the run. *)
Definition nonempty (o : option (list N)) : option (list N) :=
  match o with
  | Some (c :: s) => Some (c :: s)
  | _ => None
  end.

(** The body of the [try] block of [analyze_video]. *)
Definition run_stages (e : env) (c : components) (youtube_url : str)
    (summary_type : str) (target_language source_language : option (list N))
  : M (option final_result) :=
  let! _ := emit (EStep 1) in
  let! video_info := get_video_info c youtube_url in
  match video_info with
  | None => ret None
  | Some video_info =>
  let! _ := emit (EStep 2) in
  let! audio_path := download_audio c youtube_url in
  match nonempty audio_path with
  | None => ret None
  | Some audio_path =>
  let! _ := emit (EStep 3) in
  let! converted_path := optimize_for_gemini c audio_path in
  match nonempty converted_path with
  | None => ret None
  | Some converted_path =>
  let! _ := emit (EStep 4) in
  let! transcript_data :=
    transcribe_audio c converted_path target_language source_language in
  match transcript_data with
  | None => ret None
  | Some transcript_data =>
  let! _ := emit (EStep 5) in
  let! summary_data :=
    create_summary c (Transcriber.text transcript_data) summary_type
      target_language in
  match summary_data with
  | None => ret None
  | Some summary_data =>
  let! _ := emit (EStep 6) in
  let! analysis_data :=
    analyze_content c (Transcriber.text transcript_data) target_language in
  let final_result :=
    {| video_info := video_info;
       transcript := transcript_data;
       summary := summary_data;
       analysis := analysis_data;
       processing_time := strftime e (py "%Y-%m-%d %H:%M:%S");
       ai_provider := py "Google Gemini";
       settings :=
         {| source_language := source_language;
            target_language := target_language |};
       files :=
         {| original_audio := audio_path;
            converted_audio := converted_path |} |} in
  let! _ := emit (EStep 7) in
  let! _ := _save_results e c final_result (Downloader.title video_info) in
  ret (Some final_result)
  end end end end end.

(** The [finally] block. *)
Definition finalizer (e : env) : M unit :=
  let! _ := emit ECleanup in Utils.cleanup_temp_files e.

Definition analyze_video (e : env) (c : components) (youtube_url : str)
    (summary_type : str) (target_language source_language : option (list N))
  : M (option final_result) :=
  if negb (Utils.validate_youtube_url youtube_url)
  then (let! _ := emit EInvalidUrl in ret None)
  else
    try_finally
      (try_except
         (run_stages e c youtube_url summary_type target_language
            source_language)
         (ret None))
      (finalizer e).

End Main.

(** ** The URL shapes named by the specification *)
Module Shapes.

(** The texts of the four forms: watch-with-id, short-link, embed and
    legacy-v. *)
Definition watch_with_id : str := py "youtube.com/watch?v=".
Definition short_link : str := py "youtu.be/".
Definition embed : str := py "youtube.com/embed/".
Definition legacy_v : str := py "youtube.com/v/".

Definition forms : list str := [watch_with_id; short_link; embed; legacy_v].

Definition occurs_in (shape url : str) : Prop :=
  exists before after, url = before ++ shape ++ after.

(** The known shapes in the words of the specification, which accepts
    a URL only if it matches one of a fixed set of known video-platform
    URL shapes (watch-with-id, short-link, embed, legacy-v forms) and
    accepts no other scheme.  Read as generously as the words allow: the
    string is an optional [https://] or [http://], an optional [www.]
    or [m.], then one of the four forms, then the video id, which is not
    empty; whatever follows the first character of the id is free. *)
Definition schemes : list str := [py "https://"; py "http://"; []].

Definition subdomains : list str := [py "www."; py "m."; []].

Fixpoint strip_prefix (p s : str) : option str :=
  match p, s with
  | [], _ => Some s
  | _ :: _, [] => None
  | a :: p', b :: s' => if a =? b then strip_prefix p' s' else None
  end.

(** Letters, digits, the hyphen and the underscore. *)
Definition is_id_char (c : char) : bool :=
  ((48 <=? c) && (c <=? 57)) || ((65 <=? c) && (c <=? 90))
  || ((97 <=? c) && (c <=? 122)) || (c =? 45) || (c =? 95).

Definition starts_with_id (rest : str) : bool :=
  match rest with
  | c :: _ => is_id_char c
  | [] => false
  end.

Definition known_shape (url : str) : bool :=
  existsb
    (fun scheme =>
       existsb
         (fun subdomain =>
            existsb
              (fun form =>
                 match strip_prefix (scheme ++ subdomain ++ form) url with
                 | Some rest => starts_with_id rest
                 | None => false
                 end)
              forms)
         subdomains)
    schemes.

End Shapes.

(** Transcoding of [input] into [output] fails in world [w]: ffmpeg
    raises an exception, or returns and leaves no output file. *)
Definition transcoding_fails (e : env) (args : ffmpeg_args)
    (input output : str) (w : world) : bool :=
  match ffmpeg_run e args input output (fs w) with
  | Failed Exception => true
  | Failed BaseException => false
  | FfmpegError _ => true
  | NoOutput => match fs w !! output with Some _ => false | None => true end
  | Encoded _ => false
  end.

(** A write that ends, if it fails, with an [Exception]. *)
Definition catchable (o : write_outcome) : bool :=
  match o with
  | NotOpened BaseException | Interrupted _ BaseException => false
  | _ => true
  end.

(** The size of the file a write leaves, when it leaves one. *)
Definition left_behind (o : write_outcome) : option N :=
  match o with
  | Written size | Interrupted size _ => Some size
  | NotOpened _ => None
  end.

(** The files after an attempt to write [p]. *)
Definition files_after_write (e : env) (p : str)
    (files : gmap (list N) node) : gmap (list N) node :=
  match option_map node_kind (files !! p), left_behind (open_w e p) with
  | Some Directory, _ => files
  | _, Some size => <[p := Node Regular size]> files
  | _, None => files
  end.

(** The three files of a saved result. *)
Definition saved_paths (base : str) : list str :=
  [path_join (py "output") (base ++ py "_transcricao_gemini.txt");
   path_join (py "output") (base ++ py "_resumo_gemini.md");
   path_join (py "output") (base ++ py "_relatorio_completo_gemini.md")].

(** The handler of [ffmpeg.Error] in [convert_to_wav] raises: stderr
    is not empty and is not UTF-8. *)
Definition handler_raises (stderr : list N) : bool :=
  match stderr with
  | [] => false
  | _ :: _ => negb (utf8_valid stderr)
  end.

(** What a failed transcoding comes to in [convert_to_wav]: [None],
    unless the handler of [ffmpeg.Error] raises. *)
Definition failure_result (o : ffmpeg_outcome) : res (option (list N)) :=
  match o with
  | FfmpegError stderr =>
      if handler_raises stderr then Raise Exception else Ret None
  | _ => Ret None
  end.

(** The files the converter writes for a given input. *)
Definition gemini_output_path (input_path : str) : str :=
  path_join Converter.output_dir
    (path_stem input_path ++ py "_gemini_optimized.mp3").

Definition wav_output_path (input_path : str) : str :=
  path_join Converter.output_dir (path_stem input_path ++ py "_converted.wav").

(** Normalizing, then normalizing what came back. *)
Definition normalize_twice (e : env) (input_path : str)
  : M (option (list N)) :=
  let! first := Converter.optimize_for_gemini e input_path in
  match first with
  | Some p => Converter.optimize_for_gemini e p
  | None => ret None
  end.

(** Whitespace is single-spaced in [s]: every whitespace character is
    a plain space and no two of them are adjacent.  [after_space] tells
    that the character before [s] was a space. *)
Fixpoint single_spaced (after_space : bool) (s : str) : bool :=
  match s with
  | [] => true
  | c :: s' =>
      if isspace c
      then (c =? 32) && negb after_space && single_spaced true s'
      else single_spaced false s'
  end.

(** The events of the cleanup loop. *)
Definition is_unlink_event (ev : event) : bool :=
  match ev with
  | EUnlink _ | EUnlinkError _ => true
  | _ => false
  end.

(** The world once the banner of step [n] is printed. *)
Definition after_step (n : N) (w : world) : world :=
  World (fs w) (trace w ++ [EStep n]).

(** The banner of step [n] occurs in a trace. *)
Definition reached_step (n : N) (t : list event) : bool :=
  existsb (fun ev => match ev with EStep k => k =? n | _ => false end) t.

(** The number of generation requests in a trace. *)
Definition generate_calls (t : list event) : nat :=
  length (List.filter
            (fun ev => match ev with EGenerate _ _ => true | _ => false end)
            t).

(** ** A concrete environment for the examples *)
Module Demo.

Definition audio : stream :=
  Stream (py "m4a") (py "audio/mp4") 5000000 (Ret tt).

Definition talk : video :=
  Video (py "My talk: part 1") 125 (py "channel") 1000
    (py "a talk") (Some audio).

(** A backend that transcribes every audio to [transcript_text] and
    answers every text prompt with [reply]; nothing fails, except that
    the system refuses to remove the paths listed in [denied]. *)
Definition backend (transcript_text reply : str)
    (denied : list (list N)) : env :=
  {| YouTube := fun _ => Ret talk;
     ffmpeg_run := fun _ _ _ _ => Encoded 1000000;
     upload_file := fun _ => Ret 1;
     generate_content := fun _ audio =>
       match audio with
       | Some _ => Ret (Response (Ret transcript_text))
       | None => Ret (Response (Ret reply))
       end;
     delete_file := fun _ => Ret tt;
     strftime := fun _ => py "20240101_120000";
     open_w := fun _ => Written 2048;
     unlink_denied := fun p => bool_decide (p ∈ denied);
     unsearchable := fun _ => false |}.

(** ffmpeg raises on every input. *)
Definition broken_ffmpeg : env :=
  {| YouTube := fun _ => Ret talk;
     ffmpeg_run := fun _ _ _ _ => Failed Exception;
     upload_file := fun _ => Ret 1;
     generate_content := fun _ _ => Ret (Response (Ret (py "text")));
     delete_file := fun _ => Ret tt;
     strftime := fun _ => py "20240101_120000";
     open_w := fun _ => Written 2048;
     unlink_denied := fun _ => false;
     unsearchable := fun _ => false |}.

(** An empty [temp_files] directory. *)
Definition fresh : world :=
  World (<[py "temp_files" := Node Directory 0]> ∅) [].

(** A world holding one audio file of the given size. *)
Definition with_file (path : str) (size : N) : world :=
  World (<[path := Node Regular size]> (fs fresh)) [].

Definition short_text : str := py "only thirty characters long ok".

Definition long_text : str :=
  py "this transcript is comfortably longer than fifty characters in total".

Definition huge_text : str := replicate (N.to_nat 30001) 97.

Definition url : str := py "https://youtu.be/abc".

Definition downloaded : str := py "temp_files/My talk_ part 1.m4a".

(** What the stages of a run on [talk] hand over to one another. *)
Definition info : Downloader.video_info :=
  {| Downloader.title := py "My talk: part 1";
     Downloader.duration := 125;
     Downloader.duration_formatted := py "02:05";
     Downloader.author := py "channel";
     Downloader.views := 1000;
     Downloader.description := py "a talk" |}.

Definition converted : str := gemini_output_path downloaded.

Definition short_transcript : Transcriber.transcript :=
  {| Transcriber.text := short_text;
     Transcriber.file_path := converted;
     Transcriber.file_size_mb := megabytes 1000000;
     Transcriber.language := py "auto-detectado";
     Transcriber.source_language := None;
     Transcriber.model_used := py "gemini-1.5-flash" |}.

(** Ninety-nine letters, a space and one more letter. *)
Definition long_title : str := replicate 99 97 ++ py " b".

End Demo.

(** Two decimal digits. *)
Definition two_digits (s : list N) : bool :=
  match s with
  | [a; b] => (48 <=? a) && (a <=? 57) && (48 <=? b) && (b <=? 57)
  | _ => false
  end.

(** ** Further code of the same files *)

(** *** Startup: [create_directories] and the constructors *)
Module Startup.

(** [utils.create_directories]: the two directories, in this order,
    each with [mkdir(exist_ok=True)]; an exception ends the loop. *)
Definition create_directories : M unit :=
  Utils.for_each [py "temp_files"; py "output"] Main.mkdir.



End Startup.

(** *** downloader.py: the progress callback *)
Module Progress.

(** The percentage computed by [on_progress]: an integer subtraction,
    then a float division and a multiplication by 100, kept as the
    exact value; a zero [filesize] raises [ZeroDivisionError]. *)
Definition on_progress (total_size bytes_remaining : N) : res Q :=
  let bytes_downloaded := (Z.of_N total_size - Z.of_N bytes_remaining)%Z in
  if total_size =? 0 then Raise Exception
  else Ret (inject_Z bytes_downloaded / inject_Z (Z.of_N total_size) * 100)%Q.

End Progress.

(** *** converter.py: [convert_for_compatibility] *)
Module Compat.

(** The path the conversion writes. *)
Definition output_path (input_path target_format : str) : str :=
  path_join Converter.output_dir
    (path_stem input_path ++ py "_converted." ++ target_format).

(** [run target_format input output files] is [ffmpeg.run] on the
    stream built for the format: the output with the options of
    [mp3], [wav] or [flac], and for any other format the bare input
    stream.  No test for the input file precedes it. *)
Definition convert_for_compatibility (e : env)
    (run : str -> str -> str -> gmap (list N) node -> ffmpeg_outcome)
    (input_path target_format : str) : M (option (list N)) :=
  try_except
    (let input_file := input_path in
     let output_path := output_path input_file target_format in
     let! _ := emit (EFfmpeg input_file output_path) in
     let! _ :=
       (fun w =>
          match run target_format input_file output_path (fs w) with
          | Encoded size => write_node output_path (Node Regular size) w
          | NoOutput => (Ret tt, w)
          | FfmpegError _ => (Raise Exception, w)
          | Failed ex => (Raise ex, w)
          end) in
     let! written := path_exists e output_path in
     if written then ret (Some output_path) else ret (Some input_path))
    (ret (Some input_path)).

End Compat.

(** *** More environments for the examples *)
Module Cases.

(** The video has no audio-only stream. *)
Definition silent : video :=
  Video (py "Silent film") 60 (py "channel") 10 (py "no sound") None.

Definition no_audio : env :=
  {| YouTube := fun _ => Ret silent;
     ffmpeg_run := fun _ _ _ _ => Encoded 1000000;
     upload_file := fun _ => Ret 1;
     generate_content := fun _ _ => Ret (Response (Ret Demo.long_text));
     delete_file := fun _ => Ret tt;
     strftime := fun _ => py "20240101_120000";
     open_w := fun _ => Written 2048;
     unlink_denied := fun _ => false;
     unsearchable := fun _ => false |}.

(** The backend accepts the upload and fails every generation. *)
Definition generation_down : env :=
  {| YouTube := fun _ => Ret Demo.talk;
     ffmpeg_run := fun _ _ _ _ => Encoded 1000000;
     upload_file := fun _ => Ret 7;
     generate_content := fun _ _ => Raise Exception;
     delete_file := fun _ => Ret tt;
     strftime := fun _ => py "20240101_120000";
     open_w := fun _ => Written 2048;
     unlink_denied := fun _ => false;
     unsearchable := fun _ => false |}.

(** The backend transcribes and summarizes, and fails the analysis
    prompt; no output file can be opened. *)
Definition analysis_down : env :=
  {| YouTube := fun _ => Ret Demo.talk;
     ffmpeg_run := fun _ _ _ _ => Encoded 1000000;
     upload_file := fun _ => Ret 1;
     generate_content := fun prompt audio =>
       match audio with
       | Some _ => Ret (Response (Ret Demo.long_text))
       | None =>
           if starts_with (10 :: py "Analise") prompt
           then Raise Exception
           else Ret (Response (Ret (py "a summary")))
       end;
     delete_file := fun _ => Ret tt;
     strftime := fun _ => py "20240101_120000";
     open_w := fun _ => NotOpened Exception;
     unlink_denied := fun _ => false;
     unsearchable := fun _ => false |}.

(** ffmpeg fails on every input with [ffmpeg.Error], and what it wrote
    to stderr is the single byte 0xFF, which is not UTF-8. *)
Definition garbled_ffmpeg : env :=
  {| YouTube := fun _ => Ret Demo.talk;
     ffmpeg_run := fun _ _ _ _ => FfmpegError [255];
     upload_file := fun _ => Ret 1;
     generate_content := fun _ _ => Ret (Response (Ret (py "text")));
     delete_file := fun _ => Ret tt;
     strftime := fun _ => py "20240101_120000";
     open_w := fun _ => Written 2048;
     unlink_denied := fun _ => false;
     unsearchable := fun _ => false |}.

(** A name of 300 letters: longer than a file name may be. *)
Definition long_name : str := replicate 300 97.

(** A world holding an empty file. *)
Definition empty_input : str := py "temp_files/empty.m4a".

Definition with_empty_file : world := Demo.with_file empty_input 0.

(** A description of 250 characters. *)
Definition long_description : str := replicate 250 97.

End Cases.

(** * Properties *)

(** ** The embedding on small inputs *)

Example py_decodes_utf8 : py "é🎯a" = [233; 127919; 97].
Proof. reflexivity. Qed.

Example pathlib_parts :
  (path_name (py "a/./b.flac/"), path_suffix (py "x/.hid.MP3"),
   path_stem (py "a..mp3"), path_suffix (py "a."),
   path_stem (py ".bashrc"), path_name (py "/"))
  = (py "b.flac", py ".MP3", py "a.", [], py ".bashrc", []).
Proof. reflexivity. Qed.

Example sanitize_filename_example :
  Utils.sanitize_filename (py "  What?  a <b>/c  ") = py "What_ a _b__c".
Proof. reflexivity. Qed.

Example format_duration_example :
  (Utils.format_duration 3725, Utils.format_duration 59,
   Utils.format_duration 360000)
  = (py "01:02:05", py "00:59", py "100:00:00").
Proof. reflexivity. Qed.

Example in_temp_dir_example :
  (Utils.in_temp_dir (py "temp_files/a.mp3"),
   Utils.in_temp_dir (py "temp_files/"),
   Utils.in_temp_dir (py "temp_files/a/b"),
   Utils.in_temp_dir (py "temp_files"), Utils.in_temp_dir (py "output/a"))
  = (true, false, false, false, false).
Proof. reflexivity. Qed.

Example language_context_example :
  starts_with
    (text_of [EmptyString;
              "        O áudio está em inglês e deve ser traduzido para português brasileiro."]%string)
    (Transcriber._build_transcription_prompt (Some (py "pt"))
       (Some (py "en")))
  = true.
Proof. vm_compute. reflexivity. Qed.

(** What [bytes.decode('utf-8')] accepts: ASCII, two to four byte
    characters; and what it refuses: a lone 0xFF, an overlong slash, a
    surrogate, a code point above U+10FFFF, a character cut short. *)
Example utf8_valid_examples :
  (utf8_valid [], utf8_valid [104; 105], utf8_valid [195; 169],
   utf8_valid [226; 130; 172], utf8_valid [240; 159; 142; 175],
   utf8_valid [255], utf8_valid [192; 175], utf8_valid [237; 160; 128],
   utf8_valid [244; 144; 128; 128], utf8_valid [226; 130])
  = (true, true, true, true, true, false, false, false, false, false).
Proof. reflexivity. Qed.

(** [stat] answers on the names the pipeline makes up and fails on a
    name of 300 letters, here and below a directory; an unsearchable
    directory makes it fail on what lies below it only. *)
Example stat_fails_examples :
  let e := Demo.broken_ffmpeg in
  let locked :=
    {| YouTube := YouTube e; ffmpeg_run := ffmpeg_run e;
       upload_file := upload_file e;
       generate_content := generate_content e;
       delete_file := delete_file e; strftime := strftime e;
       open_w := open_w e; unlink_denied := unlink_denied e;
       unsearchable := fun d => bool_decide (d = py "/root") |} in
  (stat_fails e (py "temp_files"), stat_fails e (py "temp_files/a.m4a"),
   stat_fails e Cases.long_name,
   stat_fails e (py "temp_files/" ++ Cases.long_name),
   stat_fails e (py "/root/a.mp3"),
   stat_fails locked (py "/root/a.mp3"), stat_fails locked (py "/root"),
   stat_fails locked (py "temp_files/a.m4a"))
  = (false, false, true, true, false, true, false, false).
Proof. vm_compute. reflexivity. Qed.

(** ** Sizes in megabytes *)

Lemma megabytes_le_iff (size : N) (k : Z) :
  (megabytes size <= inject_Z k)%Q <-> (Z.of_N size <= k * 1048576)%Z.
Proof.
  unfold megabytes, Qle, Qdiv, Qmult, Qinv, inject_Z. simpl.
  split; intros H; lia.
Qed.

Lemma megabytes_over_20 (size : N) :
  (20 < megabytes size)%Q <-> 20971520 < size.
Proof.
  split; intros H.
  - destruct (N.lt_ge_cases 20971520 size) as [Hlt | Hge]; [exact Hlt |].
    exfalso. apply (Qlt_not_le _ _ H).
    apply (megabytes_le_iff size 20). lia.
  - apply Qnot_le_lt. intros Hle.
    apply (megabytes_le_iff size 20) in Hle. lia.
Qed.

Lemma megabytes_upto_18 (size : N) :
  (megabytes size <= 18)%Q <-> size <= 18874368.
Proof.
  rewrite (megabytes_le_iff size 18). lia.
Qed.

Lemma over_20_not_le (size : N) :
  (20 < megabytes size)%Q -> Qle_bool (megabytes size) 20 = false.
Proof.
  intros H. destruct (Qle_bool (megabytes size) 20) eqn:E; [| reflexivity].
  apply Qle_bool_iff in E. exfalso. exact (Qlt_not_le _ _ H E).
Qed.

(** ** The monad *)

Lemma bind_ret {A B} (a : A) (k : A -> M B) (w : world) :
  bind (ret a) k w = k a w.
Proof. reflexivity. Qed.

Lemma bind_emit {B} (ev : event) (k : unit -> M B) (w : world) :
  bind (emit ev) k w = k tt (World (fs w) (trace w ++ [ev])).
Proof. reflexivity. Qed.

(** A handler that returns turns every [Exception] of the body into
    a value. *)
Lemma try_except_ret_total {A} (body : M A) (a : A) (w : world) :
  fst (try_except body (ret a) w) <> Raise Exception.
Proof.
  unfold try_except.
  destruct (body w) as [[x | []] w']; simpl; discriminate.
Qed.

Lemma path_exists_some (e : env) (p : str) (w : world) (n : node) :
  fs w !! p = Some n -> path_exists e p w = (Ret true, w).
Proof. intros H. unfold path_exists. rewrite H. reflexivity. Qed.

Lemma path_exists_none (e : env) (p : str) (w : world) :
  fs w !! p = None -> stat_fails e p = false ->
  path_exists e p w = (Ret false, w).
Proof. intros H Hs. unfold path_exists. rewrite H, Hs. reflexivity. Qed.


(** The existence check never changes the world and never ends outside
    [Exception]. *)
Lemma path_exists_cases (e : env) (p : str) (w : world) :
  (exists n, fs w !! p = Some n /\ path_exists e p w = (Ret true, w))
  \/ (fs w !! p = None /\ stat_fails e p = false
      /\ path_exists e p w = (Ret false, w))
  \/ (fs w !! p = None /\ stat_fails e p = true
      /\ path_exists e p w = (Raise Exception, w)).
Proof.
  unfold path_exists. destruct (fs w !! p) as [n |] eqn:Hp.
  - left. exists n. split; reflexivity.
  - right. destruct (stat_fails e p) eqn:Hs.
    + right. repeat split.
    + left. repeat split.
Qed.

(** The directory of temporary files is a bare, short name: [stat] on
    it answers. *)
Lemma temp_dir_stat (e : env) : stat_fails e Utils.temp_dir = false.
Proof. reflexivity. Qed.

Lemma stat_size_some (p : str) (w : world) (n : node) :
  fs w !! p = Some n -> stat_size p w = (Ret (st_size n), w).
Proof. intros H. unfold stat_size. rewrite H. reflexivity. Qed.

(** ** transcriber.py *)

(** C3.  An audio file larger than 20 megabytes makes [transcribe_audio]
    return [None] and leave the world as it was: the trace gains no
    event, so neither an upload nor a generation request nor a remote
    deletion was issued. *)
Theorem transcribe_too_large_no_network
    (e : env) (audio_path : str) (language source_language : option (list N))
    (w : world) (n : node) :
  fs w !! audio_path = Some n ->
  (20 < megabytes (st_size n))%Q ->
  Transcriber.transcribe_audio e audio_path language source_language w
  = (Ret None, w).
Proof.
  intros Hfile Hbig.
  unfold Transcriber.transcribe_audio, try_except, bind.
  rewrite (path_exists_some _ _ _ _ Hfile). simpl.
  rewrite (stat_size_some _ _ _ Hfile).
  rewrite (over_20_not_le _ Hbig). reflexivity.
Qed.

Lemma transcribe_too_large_witness :
  let w := Demo.with_file (py "temp_files/big.mp3") 26214400 in
  fs w !! py "temp_files/big.mp3" = Some (Node Regular 26214400)
  /\ (20 < megabytes 26214400)%Q
  /\ Transcriber.transcribe_audio (Demo.backend Demo.long_text (py "s") [])
       (py "temp_files/big.mp3") None None w
     = (Ret None, w).
Proof.
  assert (Hfile : fs (Demo.with_file (py "temp_files/big.mp3") 26214400)
                    !! py "temp_files/big.mp3"
                  = Some (Node Regular 26214400))
    by (vm_compute; reflexivity).
  assert (Hbig : (20 < megabytes 26214400)%Q) by reflexivity.
  split; [exact Hfile | split; [exact Hbig |]].
  exact (transcribe_too_large_no_network _ _ None None _ _ Hfile Hbig).
Defined.

(** A file within the limit is uploaded: the first thing the call
    does to the outside is the upload request. *)
Lemma transcribe_within_limit_uploads
    (e : env) (audio_path : str) (language source_language : option (list N))
    (w : world) (n : node) :
  fs w !! audio_path = Some n ->
  (megabytes (st_size n) <= 20)%Q ->
  exists r w' rest,
    Transcriber.transcribe_audio e audio_path language source_language w
    = (r, w')
    /\ trace w' = trace w ++ EUpload audio_path :: rest.
Proof.
  intros Hfile Hsmall.
  apply Qle_bool_iff in Hsmall.
  unfold Transcriber.transcribe_audio, try_except, bind.
  rewrite (path_exists_some _ _ _ _ Hfile). simpl.
  rewrite (stat_size_some _ _ _ Hfile). rewrite Hsmall. simpl.
  unfold genai_upload, genai_generate, genai_delete, bind, emit, lift. simpl.
  destruct (upload_file e audio_path) as [h | []]; simpl;
    try (do 3 eexists; split; [reflexivity | reflexivity]).
  destruct (generate_content e _ (Some h)) as [resp | []]; simpl;
    try (do 3 eexists; split;
         [reflexivity | simpl; rewrite <- app_assoc; reflexivity]).
  destruct (delete_file e h) as [[] | []]; simpl;
    try (do 3 eexists; split;
         [reflexivity | simpl; rewrite <- !app_assoc; reflexivity]).
  destruct (response_text resp) as [t | []]; simpl;
    do 3 eexists; (split; [reflexivity |]); simpl;
    rewrite <- !app_assoc; reflexivity.
Qed.

(** ** converter.py *)

Lemma gemini_target : bool_decide (lower (py "gemini") = py "gemini") = true.
Proof. vm_compute. reflexivity. Qed.

(** When the input file exists, [optimize_for_whisper] hands over to
    the routine chosen by [target_ai], inside its own handler. *)
Lemma optimize_for_whisper_existing
    (e : env) (input_path target_ai : str) (w : world) (n : node) :
  fs w !! input_path = Some n ->
  Converter.optimize_for_whisper e input_path target_ai w
  = try_except
      (if bool_decide (lower target_ai = py "gemini")
       then Converter._optimize_for_gemini_internal e input_path input_path
              (megabytes (st_size n))
       else Converter._optimize_for_whisper_internal e input_path input_path)
      (ret (Some input_path)) w.
Proof.
  intros Hfile.
  unfold Converter.optimize_for_whisper, try_except, bind.
  rewrite (path_exists_some _ _ _ _ Hfile). simpl.
  rewrite (stat_size_some _ _ _ Hfile). reflexivity.
Qed.

Lemma optimize_for_whisper_missing
    (e : env) (input_path target_ai : str) (w : world) :
  fs w !! input_path = None ->
  stat_fails e input_path = false ->
  Converter.optimize_for_whisper e input_path target_ai w = (Ret None, w).
Proof.
  intros Hnone Hstat.
  unfold Converter.optimize_for_whisper, try_except, bind.
  rewrite (path_exists_none _ _ _ Hnone Hstat). reflexivity.
Qed.


(** The zero-cost path of the Gemini routine. *)
Lemma gemini_internal_compliant
    (e : env) (input_path : str) (file_size_mb : Q) (w : world) :
  lower (path_suffix input_path) ∈ Converter.accepted_suffixes ->
  (file_size_mb <= 18)%Q ->
  Converter._optimize_for_gemini_internal e input_path input_path
    file_size_mb w
  = (Ret (Some input_path), w).
Proof.
  intros Hsuffix Hsize.
  unfold Converter._optimize_for_gemini_internal.
  rewrite (bool_decide_eq_true_2 _ Hsuffix).
  apply Qle_bool_iff in Hsize. rewrite Hsize. reflexivity.
Qed.

Lemma optimize_for_gemini_compliant
    (e : env) (input_path : str) (w : world) (n : node) :
  fs w !! input_path = Some n ->
  lower (path_suffix input_path) ∈ Converter.accepted_suffixes ->
  (megabytes (st_size n) <= 18)%Q ->
  Converter.optimize_for_gemini e input_path w = (Ret (Some input_path), w).
Proof.
  intros Hfile Hsuffix Hsize.
  unfold Converter.optimize_for_gemini.
  rewrite (optimize_for_whisper_existing _ _ _ _ _ Hfile).
  rewrite gemini_target. unfold try_except.
  rewrite (gemini_internal_compliant _ _ _ _ Hsuffix Hsize). reflexivity.
Qed.

(** C7.  An existing file whose suffix, lowered, is [.mp3], [.wav] or
    [.flac] and whose size is at most 18 megabytes comes back from
    [optimize_for_gemini] as the very path that went in, with the world
    untouched (no ffmpeg run is recorded); normalizing the returned path
    again gives the same path and the same world. *)
Theorem normalize_idempotent_on_compliant
    (e : env) (input_path : str) (w : world) (n : node) :
  fs w !! input_path = Some n ->
  lower (path_suffix input_path) ∈ Converter.accepted_suffixes ->
  (megabytes (st_size n) <= 18)%Q ->
  Converter.optimize_for_gemini e input_path w = (Ret (Some input_path), w)
  /\ normalize_twice e input_path w = (Ret (Some input_path), w)
  /\ Converter._optimize_for_gemini_internal e input_path input_path
       (megabytes (st_size n)) w
     = (Ret (Some input_path), w).
Proof.
  intros Hfile Hsuffix Hsize.
  pose proof (optimize_for_gemini_compliant e _ _ _ Hfile Hsuffix Hsize)
    as Honce.
  split; [exact Honce | split].
  - unfold normalize_twice, bind. rewrite Honce. exact Honce.
  - exact (gemini_internal_compliant _ _ _ _ Hsuffix Hsize).
Qed.

Lemma normalize_idempotent_witness :
  let w := Demo.with_file (py "temp_files/talk.MP3") 5000000 in
  let p := py "temp_files/talk.MP3" in
  fs w !! p = Some (Node Regular 5000000)
  /\ lower (path_suffix p) ∈ Converter.accepted_suffixes
  /\ (megabytes 5000000 <= 18)%Q
  /\ Converter.optimize_for_gemini Demo.broken_ffmpeg p w
     = (Ret (Some p), w)
  /\ normalize_twice Demo.broken_ffmpeg p w = (Ret (Some p), w).
Proof.
  assert (Hfile : fs (Demo.with_file (py "temp_files/talk.MP3") 5000000)
                    !! py "temp_files/talk.MP3"
                  = Some (Node Regular 5000000))
    by (vm_compute; reflexivity).
  assert (Hsuffix : lower (path_suffix (py "temp_files/talk.MP3"))
                    ∈ Converter.accepted_suffixes)
    by (apply (bool_decide_eq_true_1 _); vm_compute; reflexivity).
  assert (Hsize : (megabytes 5000000 <= 18)%Q)
    by (apply megabytes_upto_18; lia).
  pose proof (normalize_idempotent_on_compliant Demo.broken_ffmpeg _ _ _
                Hfile Hsuffix Hsize) as [H1 [H2 _]].
  split; [exact Hfile | split; [exact Hsuffix | split; [exact Hsize |]]].
  split; [exact H1 | exact H2].
Defined.




(** Whenever a lenient entry point returns a path, the input file
    exists or the existence check raised: the fallback to the original
    is never taken for a file that is known to be missing. *)
Lemma optimize_result_needs_file
    (e : env) (input_path target_ai : str) (w w' : world) (p : str) :
  Converter.optimize_for_whisper e input_path target_ai w
  = (Ret (Some p), w') ->
  is_Some (fs w !! input_path) \/ stat_fails e input_path = true.
Proof.
  intros Hrun.
  destruct (fs w !! input_path) as [n |] eqn:Hfile; [left; eauto |].
  right. destruct (stat_fails e input_path) eqn:Hstat; [reflexivity |].
  rewrite (optimize_for_whisper_missing e _ target_ai _ Hfile Hstat) in Hrun.
  discriminate Hrun.
Qed.

(** The Gemini routine never answers [None]: when transcoding fails it
    answers the input path and leaves the files as they were. *)
Lemma gemini_internal_failure
    (e : env) (input_path : str) (file_size_mb : Q) (w : world) :
  transcoding_fails e Converter.gemini_args input_path
    (gemini_output_path input_path) w = true ->
  exists w',
    Converter._optimize_for_gemini_internal e input_path input_path
      file_size_mb w
    = (Ret (Some input_path), w')
    /\ fs w' = fs w.
Proof.
  intros Hfail.
  unfold Converter._optimize_for_gemini_internal.
  destruct (bool_decide _ && Qle_bool file_size_mb 18).
  - exists w. split; reflexivity.
  - unfold transcoding_fails in Hfail.
    fold (gemini_output_path input_path).
    unfold try_except, bind, Converter.ffmpeg, bind, emit. simpl.
    destruct (ffmpeg_run e Converter.gemini_args input_path
                (gemini_output_path input_path) (fs w))
      as [size | | stderr | []]; try discriminate Hfail.
    + unfold path_exists. simpl.
      destruct (fs w !! gemini_output_path input_path);
        [discriminate Hfail |].
      destruct (stat_fails e (gemini_output_path input_path));
        eexists; split; reflexivity.
    + eexists. split; reflexivity.
    + eexists. split; reflexivity.
Qed.

(** [convert_to_wav] on an existing input whose transcoding fails: the
    files are as they were, and the answer is [None] unless the handler
    of [ffmpeg.Error] raises while decoding stderr, in which case that
    exception leaves the function. *)
Lemma convert_to_wav_failure
    (e : env) (input_path : str) (rate : N) (w : world) (n : node) :
  fs w !! input_path = Some n ->
  transcoding_fails e (Converter.wav_args rate) input_path
    (wav_output_path input_path) w = true ->
  exists w',
    Converter.convert_to_wav e input_path rate w
    = (failure_result
         (ffmpeg_run e (Converter.wav_args rate) input_path
            (wav_output_path input_path) (fs w)), w')
    /\ fs w' = fs w.
Proof.
  intros Hfile Hfail.
  unfold Converter.convert_to_wav.
  fold (wav_output_path input_path).
  unfold bind at 1. unfold try_except at 1. unfold bind at 1.
  rewrite (path_exists_some _ _ _ _ Hfile). simpl.
  unfold transcoding_fails in Hfail.
  unfold bind, Converter.ffmpeg_checked, bind, emit. simpl.
  destruct (ffmpeg_run e (Converter.wav_args rate) input_path
              (wav_output_path input_path) (fs w))
    as [size | | stderr | []]; try discriminate Hfail.
  - unfold path_exists. simpl.
    destruct (fs w !! wav_output_path input_path);
      [discriminate Hfail |].
    destruct (stat_fails e (wav_output_path input_path));
      eexists; split; reflexivity.
  - simpl. unfold Converter.on_ffmpeg_error, handler_raises.
    destruct stderr as [| b stderr]; [eexists; split; reflexivity |].
    destruct (utf8_valid (b :: stderr)); eexists; split; reflexivity.
  - eexists. split; reflexivity.
Qed.

(** C4.  For an existing input file whose transcoding fails (ffmpeg
    raises, or returns without leaving the output file):
    [optimize_for_gemini] still returns a path, the original input
    path, and the files are as before; [convert_to_wav] leaves the files
    as before and returns [None], except when ffmpeg raised
    [ffmpeg.Error] with a stderr that is not UTF-8: the handler then
    raises while decoding it, and that exception leaves
    [convert_to_wav] instead of [None]. *)
Theorem transcoding_failure_law
    (e : env) (input_path : str) (rate : N) (w : world) (n : node) :
  fs w !! input_path = Some n ->
  (transcoding_fails e Converter.gemini_args input_path
     (gemini_output_path input_path) w = true ->
   exists w',
     Converter.optimize_for_gemini e input_path w
     = (Ret (Some input_path), w')
     /\ fs w' = fs w)
  /\ (transcoding_fails e (Converter.wav_args rate) input_path
        (wav_output_path input_path) w = true ->
      exists w',
        Converter.convert_to_wav e input_path rate w
        = (match ffmpeg_run e (Converter.wav_args rate) input_path
                   (wav_output_path input_path) (fs w) with
           | FfmpegError stderr =>
               if handler_raises stderr then Raise Exception else Ret None
           | _ => Ret None
           end, w')
        /\ fs w' = fs w).
Proof.
  intros Hfile. split.
  - intros Hfail.
    unfold Converter.optimize_for_gemini.
    rewrite (optimize_for_whisper_existing _ _ _ _ _ Hfile).
    rewrite gemini_target. unfold try_except.
    destruct (gemini_internal_failure e input_path
                (megabytes (st_size n)) w Hfail) as [w' [Hrun Hfs]].
    rewrite Hrun. exists w'. split; [reflexivity | exact Hfs].
  - intros Hfail.
    exact (convert_to_wav_failure e _ rate _ _ Hfile Hfail).
Qed.

(** C4 at the failing input: ffmpeg raises [ffmpeg.Error] with the
    byte 0xFF on stderr.  The lenient entry point falls back to the
    original path; the strict one does not return [None], it raises. *)
Lemma transcoding_failure_witness :
  let e := Cases.garbled_ffmpeg in
  let p := Demo.downloaded in
  let w := Demo.with_file p 5000000 in
  fs w !! p = Some (Node Regular 5000000)
  /\ transcoding_fails e Converter.gemini_args p (gemini_output_path p) w
     = true
  /\ transcoding_fails e (Converter.wav_args 16000) p (wav_output_path p) w
     = true
  /\ utf8_valid [255] = false
  /\ (exists w',
        Converter.optimize_for_gemini e p w = (Ret (Some p), w')
        /\ fs w' = fs w)
  /\ (exists w',
        Converter.convert_to_wav e p 16000 w = (Raise Exception, w')
        /\ fs w' = fs w).
Proof.
  assert (Hfile : fs (Demo.with_file Demo.downloaded 5000000)
                    !! Demo.downloaded = Some (Node Regular 5000000))
    by (vm_compute; reflexivity).
  assert (Hmp3 : transcoding_fails Cases.garbled_ffmpeg Converter.gemini_args
                   Demo.downloaded (gemini_output_path Demo.downloaded)
                   (Demo.with_file Demo.downloaded 5000000) = true)
    by reflexivity.
  assert (Hwav : transcoding_fails Cases.garbled_ffmpeg
                   (Converter.wav_args 16000) Demo.downloaded
                   (wav_output_path Demo.downloaded)
                   (Demo.with_file Demo.downloaded 5000000) = true)
    by reflexivity.
  destruct (transcoding_failure_law Cases.garbled_ffmpeg _ 16000 _ _ Hfile)
    as [Hlenient Hstrict].
  split; [exact Hfile | split; [exact Hmp3 | split; [exact Hwav |]]].
  split; [reflexivity |].
  split; [exact (Hlenient Hmp3) | exact (Hstrict Hwav)].
Defined.

(** X17.  With a target other than Gemini, [optimize_for_whisper] hands an
    existing input to [convert_to_wav].  A transcoding that fails gives
    [None], with no fallback to the original path, in every case but
    one: when the handler of [ffmpeg.Error] raises on a stderr that is
    not UTF-8, the exception is caught by [optimize_for_whisper], which
    returns the original path.  The files are as before either way. *)
Lemma whisper_target_failure
    (e : env) (input_path target_ai : str) (w : world) (n : node) :
  fs w !! input_path = Some n ->
  lower target_ai <> py "gemini" ->
  transcoding_fails e (Converter.wav_args 16000) input_path
    (wav_output_path input_path) w = true ->
  exists w',
    Converter.optimize_for_whisper e input_path target_ai w
    = (Ret (match ffmpeg_run e (Converter.wav_args 16000) input_path
                    (wav_output_path input_path) (fs w) with
            | FfmpegError stderr =>
                if handler_raises stderr then Some input_path else None
            | _ => None
            end), w')
    /\ fs w' = fs w.
Proof.
  intros Hfile Htarget Hfail.
  rewrite (optimize_for_whisper_existing _ _ _ _ _ Hfile).
  rewrite (bool_decide_eq_false_2 _ Htarget).
  unfold try_except, Converter._optimize_for_whisper_internal.
  destruct (convert_to_wav_failure e _ 16000 _ _ Hfile Hfail)
    as [w' [Hrun Hfs]].
  rewrite Hrun. exists w'. split; [| exact Hfs].
  unfold failure_result.
  destruct (ffmpeg_run e (Converter.wav_args 16000) input_path
              (wav_output_path input_path) (fs w))
    as [size | | stderr | ex]; try reflexivity.
  destruct (handler_raises stderr); reflexivity.
Qed.

(** ** summarizer.py *)

Lemma lstrip_length (s : list N) : (length (lstrip s) <= length s)%nat.
Proof.
  induction s as [| c s IH]; simpl; [lia |].
  destruct (isspace c); simpl; lia.
Qed.

Lemma strip_length (s : list N) : len (strip s) <= len s.
Proof.
  unfold strip, rstrip, len.
  pose proof (lstrip_length s) as H1.
  pose proof (lstrip_length (reverse (lstrip s))) as H2.
  rewrite !length_reverse in *. lia.
Qed.

Lemma slice_to_length (n : N) (s : list N) :
  len (slice_to n s) = N.min n (len s).
Proof. unfold len, slice_to. rewrite length_take. lia. Qed.

Lemma limit_text_long (text : list N) :
  Summarizer.max_chars < len text ->
  Summarizer.limit_text text
  = slice_to 30000 text ++ Summarizer.truncation_marker.
Proof.
  intros Hlong. unfold Summarizer.limit_text.
  apply N.ltb_lt in Hlong. rewrite Hlong. reflexivity.
Qed.

Lemma limit_text_length (text : list N) :
  50 <= len text -> 50 <= len (Summarizer.limit_text text).
Proof.
  intros H. unfold Summarizer.limit_text.
  destruct (Summarizer.max_chars <? len text) eqn:E; [| exact H].
  apply N.ltb_lt in E. unfold Summarizer.max_chars in *.
  unfold len in *. rewrite length_app.
  unfold slice_to. rewrite length_take. lia.
Qed.

(** Below the minimum length nothing is sent and nothing changes. *)
Lemma create_summary_too_short
    (e : env) (model_name text summary_type : str)
    (target_language : option (list N)) (w : world) :
  len (strip text) < 50 ->
  Summarizer.create_summary e model_name text summary_type target_language w
  = (Ret None, w).
Proof.
  intros Hshort. apply N.ltb_lt in Hshort.
  unfold Summarizer.create_summary, try_except.
  rewrite Hshort. reflexivity.
Qed.

(** From the minimum length on, one generation request is sent, with
    the system prompt, the header and the limited text. *)
Lemma create_summary_sends
    (e : env) (model_name text summary_type : str)
    (target_language : option (list N)) (w : world) :
  50 <= len (strip text) ->
  exists r,
    Summarizer.create_summary e model_name text summary_type
      target_language w
    = (r, World (fs w)
            (trace w ++
             [EGenerate
                (Summarizer.summary_prompt
                   (Summarizer._get_system_prompt summary_type
                      target_language)
                   (Summarizer.limit_text text)) None])).
Proof.
  intros Hlong. apply N.ltb_ge in Hlong.
  unfold Summarizer.create_summary, try_except.
  rewrite Hlong.
  unfold genai_generate, bind, emit, lift. simpl.
  destruct (generate_content e _ None) as [resp | []]; simpl;
    try (eexists; reflexivity).
  destruct (response_text resp) as [s | []]; simpl;
    try (eexists; reflexivity).
  unfold Summarizer.truediv.
  destruct (len (Summarizer.limit_text text) =? 0); simpl;
    eexists; reflexivity.
Qed.

(** [analyze_content] always sends one request, whatever the text. *)
Lemma analyze_content_sends
    (e : env) (model_name text : str)
    (target_language : option (list N)) (w : world) :
  exists r,
    Summarizer.analyze_content e model_name text target_language w
    = (r, World (fs w)
            (trace w ++
             [EGenerate
                (Summarizer.analysis_prompt
                   (Summarizer.analysis_system_prompt
                      (Summarizer.analysis_lang_instruction
                         target_language))
                   text) None])).
Proof.
  unfold Summarizer.analyze_content, try_except.
  unfold genai_generate, bind, emit, lift. simpl.
  destruct (generate_content e _ None) as [resp | []]; simpl;
    try (eexists; reflexivity).
  destruct (response_text resp) as [s | []]; simpl;
    eexists; reflexivity.
Qed.

(** When the backend answers, [analyze_content] returns the answer,
    however short the text is. *)
Lemma analyze_content_answers
    (e : env) (model_name text : str)
    (target_language : option (list N)) (w : world) (answer : list N) :
  generate_content e
    (Summarizer.analysis_prompt
       (Summarizer.analysis_system_prompt
          (Summarizer.analysis_lang_instruction target_language))
       text) None
  = Ret (Response (Ret answer)) ->
  exists w',
    Summarizer.analyze_content e model_name text target_language w
    = (Ret (Some
              {| Summarizer.analysis_text := answer;
                 Summarizer.analysis_model_used := model_name;
                 Summarizer.analysis_target_language :=
                   or_default target_language (py "original") |}), w').
Proof.
  intros Hanswer.
  unfold Summarizer.analyze_content, try_except.
  unfold genai_generate, bind, emit, lift. simpl.
  rewrite Hanswer. simpl. eexists. reflexivity.
Qed.

(** C6.  A text longer than 30,000 characters reaches the summary
    prompt as its first 30,000 characters followed by the truncation
    marker: the limited text is exactly that, the prefix has exactly
    30,000 characters, and the one request [create_summary] sends (it
    sends one as soon as the trimmed text has 50 characters, none
    otherwise) carries the system prompt, the header and that text.  The
    one request [analyze_content] sends for any text carries its first
    5,000 characters, whatever the summary limit. *)
Theorem truncation_law
    (e : env) (model_name summary_type : str)
    (target_language : option (list N)) (w : world) (text text' : list N) :
  30000 < len text ->
  Summarizer.limit_text text
  = slice_to 30000 text ++ 10 :: 10 :: py "[...texto truncado...]"
  /\ len (slice_to 30000 text) = 30000
  /\ (50 <= len (strip text) ->
      exists r,
        Summarizer.create_summary e model_name text summary_type
          target_language w
        = (r, World (fs w)
                (trace w ++
                 [EGenerate
                    (Summarizer._get_system_prompt summary_type
                       target_language
                     ++ 10 :: 10 :: py "Texto para resumir:"
                     ++ 10 :: 10 :: slice_to 30000 text
                     ++ 10 :: 10 :: py "[...texto truncado...]") None])))
  /\ (len (strip text) < 50 ->
      Summarizer.create_summary e model_name text summary_type
        target_language w
      = (Ret None, w))
  /\ (exists r,
        Summarizer.analyze_content e model_name text' target_language w
        = (r, World (fs w)
                (trace w ++
                 [EGenerate
                    (Summarizer.analysis_system_prompt
                       (Summarizer.analysis_lang_instruction
                          target_language)
                     ++ 10 :: 10 :: py "Conteúdo para analisar:"
                     ++ 10 :: 10 :: slice_to 5000 text') None])))
  /\ len (slice_to 5000 text') = N.min 5000 (len text').
Proof.
  intros Hlong.
  assert (Hlimit : Summarizer.limit_text text
                   = slice_to 30000 text ++ Summarizer.truncation_marker)
    by (apply limit_text_long; exact Hlong).
  split; [exact Hlimit |].
  split; [rewrite slice_to_length; lia |].
  split.
  { intros Hmin.
    destruct (create_summary_sends e model_name text summary_type
                target_language w Hmin) as [r Hr].
    exists r. rewrite Hr, Hlimit. reflexivity. }
  split; [apply create_summary_too_short |].
  split; [apply analyze_content_sends | apply slice_to_length].
Qed.

Lemma truncation_law_witness :
  let e := Demo.backend Demo.long_text (py "a summary") [] in
  let text := Demo.huge_text in
  let w := Demo.fresh in
  30000 < len text
  /\ Summarizer.limit_text text
     = slice_to 30000 text ++ 10 :: 10 :: py "[...texto truncado...]"
  /\ len (slice_to 30000 text) = 30000
  /\ (50 <= len (strip text) ->
      exists r,
        Summarizer.create_summary e Summarizer.default_model text
          (py "structured") None w
        = (r, World (fs w)
                (trace w ++
                 [EGenerate
                    (Summarizer._get_system_prompt (py "structured") None
                     ++ 10 :: 10 :: py "Texto para resumir:"
                     ++ 10 :: 10 :: slice_to 30000 text
                     ++ 10 :: 10 :: py "[...texto truncado...]") None])))
  /\ 50 <= len (strip text).
Proof.
  assert (Hlong : 30000 < len Demo.huge_text) by (vm_compute; reflexivity).
  assert (Hmin : 50 <= len (strip Demo.huge_text))
    by (vm_compute; discriminate).
  destruct (truncation_law (Demo.backend Demo.long_text (py "a summary") [])
              Summarizer.default_model (py "structured") None Demo.fresh
              Demo.huge_text Demo.long_text Hlong)
    as [H1 [H2 [H3 _]]].
  split; [exact Hlong | split; [exact H1 | split; [exact H2 |]]].
  split; [exact H3 | exact Hmin].
Defined.

(** Rational facts about a quotient of two lengths. *)
Lemma quotient_nonneg (a b : N) :
  0 < b -> (0 <= inject_Z (Z.of_N a) / inject_Z (Z.of_N b))%Q.
Proof.
  intros Hb.
  destruct b as [| p]; [lia |].
  unfold Qle, Qdiv, Qmult, Qinv, inject_Z. simpl. lia.
Qed.

Lemma quotient_pos_iff (a b : N) :
  0 < b -> ((0 < inject_Z (Z.of_N a) / inject_Z (Z.of_N b))%Q <-> 0 < a).
Proof.
  intros Hb.
  destruct b as [| p]; [lia |].
  unfold Qlt, Qdiv, Qmult, Qinv, inject_Z. simpl. lia.
Qed.

Lemma len_pos_iff (s : list N) : 0 < len s <-> s <> [].
Proof.
  unfold len. destruct s; simpl; split; intros H; try lia; congruence.
Qed.

(** C8 (as amended).  When [create_summary] returns a result, its
    [compression_ratio] is [summary_length / original_length], both
    being character counts, the second one of the text after the size
    limit (at least 50 characters, so the quotient exists); the ratio is
    never negative, and it is positive exactly when the generated
    summary is not empty. *)
Theorem compression_ratio_law
    (e : env) (model_name text summary_type : str)
    (target_language : option (list N)) (w w' : world)
    (r : Summarizer.summary) :
  Summarizer.create_summary e model_name text summary_type target_language w
  = (Ret (Some r), w') ->
  Summarizer.original_length r = len (Summarizer.limit_text text)
  /\ Summarizer.summary_length r = len (Summarizer.summary_text r)
  /\ 50 <= Summarizer.original_length r
  /\ Summarizer.compression_ratio r
     = (inject_Z (Z.of_N (Summarizer.summary_length r))
        / inject_Z (Z.of_N (Summarizer.original_length r)))%Q
  /\ (0 <= Summarizer.compression_ratio r)%Q
  /\ ((0 < Summarizer.compression_ratio r)%Q
      <-> Summarizer.summary_text r <> []).
Proof.
  intros Hrun.
  unfold Summarizer.create_summary, try_except in Hrun.
  destruct (len (strip text) <? 50) eqn:Hmin; [discriminate Hrun |].
  apply N.ltb_ge in Hmin.
  assert (Horig : 50 <= len (Summarizer.limit_text text)).
  { apply limit_text_length. pose proof (strip_length text). lia. }
  unfold genai_generate, bind, emit, lift in Hrun. simpl in Hrun.
  destruct (generate_content e _ None) as [resp | []];
    simpl in Hrun; try discriminate Hrun.
  destruct (response_text resp) as [s | []];
    simpl in Hrun; try discriminate Hrun.
  unfold Summarizer.truediv in Hrun.
  destruct (len (Summarizer.limit_text text) =? 0) eqn:Hzero;
    simpl in Hrun; [discriminate Hrun |].
  injection Hrun as Hr Hw. subst r. simpl.
  split; [reflexivity | split; [reflexivity | split; [exact Horig |]]].
  split; [reflexivity |].
  split.
  - apply quotient_nonneg. lia.
  - rewrite quotient_pos_iff by lia. apply len_pos_iff.
Qed.

Lemma compression_ratio_witness :
  exists r w',
    Summarizer.create_summary
      (Demo.backend Demo.long_text (py "a summary") [])
      Summarizer.default_model Demo.long_text (py "paragraph") None
      Demo.fresh
    = (Ret (Some r), w')
    /\ Summarizer.compression_ratio r
       = (inject_Z (Z.of_N (Summarizer.summary_length r))
          / inject_Z (Z.of_N (Summarizer.original_length r)))%Q
    /\ (0 < Summarizer.compression_ratio r)%Q.
Proof.
  eexists. eexists.
  assert (Hrun : Summarizer.create_summary
                   (Demo.backend Demo.long_text (py "a summary") [])
                   Summarizer.default_model Demo.long_text (py "paragraph")
                   None Demo.fresh
                 = (Ret (Some _), _)) by reflexivity.
  split; [exact Hrun |].
  destruct (compression_ratio_law _ _ _ _ _ _ _ _ Hrun)
    as [_ [_ [_ [Hratio [_ Hpos]]]]].
  split; [exact Hratio |].
  apply Hpos. discriminate.
Defined.

(** C8, the claim as stated fails: a backend that answers with the
    empty text yields a result whose ratio is zero. *)
Lemma compression_ratio_counterexample :
  match
    fst (Summarizer.create_summary (Demo.backend Demo.long_text [] [])
           Summarizer.default_model Demo.long_text (py "structured") None
           Demo.fresh)
  with
  | Ret (Some r) =>
      Summarizer.summary_length r = 0
      /\ ~ (0 < Summarizer.compression_ratio r)%Q
  | _ => False
  end.
Proof.
  vm_compute. split; [reflexivity | discriminate].
Qed.

(** ** utils.py: URL validation *)

Lemma starts_with_spec (p s : list N) :
  starts_with p s = true <-> exists rest, s = p ++ rest.
Proof.
  revert s. induction p as [| a p IH]; intros s; simpl.
  - split; [intros _; exists s; reflexivity | reflexivity].
  - destruct s as [| b s].
    + split; [discriminate | intros [rest H]; discriminate H].
    + rewrite andb_true_iff, N.eqb_eq, IH. split.
      * intros [-> [rest ->]]. exists rest. reflexivity.
      * intros [rest H]. injection H as -> ->. split; [reflexivity |].
        exists rest. reflexivity.
Qed.

Lemma search_lit_spec (lit url : list N) :
  Utils.search_lit lit url = true <-> Shapes.occurs_in lit url.
Proof.
  unfold Shapes.occurs_in.
  induction url as [| c url IH]; cbn [Utils.search_lit].
  - rewrite orb_false_r, starts_with_spec. split.
    + intros [rest H]. exists [], rest. exact H.
    + intros [before [after H]].
      destruct before as [| b before]; [| discriminate H].
      exists after. exact H.
  - rewrite orb_true_iff, starts_with_spec, IH. split.
    + intros [[rest H] | [before [after H]]].
      * exists [], rest. exact H.
      * exists (c :: before), after. rewrite H. reflexivity.
    + intros [before [after H]].
      destruct before as [| b before].
      * left. exists after. exact H.
      * right. injection H as -> ->. exists before, after. reflexivity.
Qed.

(** The four patterns, compiled, are the texts of the four forms. *)
Lemma compiled_patterns :
  List.map (fun p => Utils.compile (py p)) Utils.youtube_patterns
  = [Shapes.watch_with_id; Shapes.short_link; Shapes.embed;
     Shapes.legacy_v].
Proof. reflexivity. Qed.

(** What the validator computes: it accepts a string exactly when
    one of the four texts occurs somewhere in it. *)
Lemma validate_accepts_iff_occurs (url : list N) :
  Utils.validate_youtube_url url = true
  <-> (Shapes.occurs_in Shapes.watch_with_id url
       \/ Shapes.occurs_in Shapes.short_link url
       \/ Shapes.occurs_in Shapes.embed url
       \/ Shapes.occurs_in Shapes.legacy_v url).
Proof.
  unfold Utils.validate_youtube_url, Utils.youtube_patterns.
  cbn [existsb]. unfold Utils.re_search.
  rewrite orb_false_r, !orb_true_iff.
  change (Utils.compile (py "youtube\.com/watch\?v="))
    with Shapes.watch_with_id.
  change (Utils.compile (py "youtu\.be/")) with Shapes.short_link.
  change (Utils.compile (py "youtube\.com/embed/")) with Shapes.embed.
  change (Utils.compile (py "youtube\.com/v/")) with Shapes.legacy_v.
  rewrite !search_lit_spec. reflexivity.
Qed.

(** A rejected string holds none of the four texts, whatever else it
    is. *)
Lemma validate_rejects_other_strings (url : list N) :
  ~ (Shapes.occurs_in Shapes.watch_with_id url
     \/ Shapes.occurs_in Shapes.short_link url
     \/ Shapes.occurs_in Shapes.embed url
     \/ Shapes.occurs_in Shapes.legacy_v url) ->
  Utils.validate_youtube_url url = false.
Proof.
  intros Hnone.
  destruct (Utils.validate_youtube_url url) eqn:E; [| reflexivity].
  exfalso. apply Hnone. apply validate_accepts_iff_occurs. exact E.
Qed.

Lemma strip_prefix_spec (p s rest : list N) :
  Shapes.strip_prefix p s = Some rest -> s = p ++ rest.
Proof.
  revert s. induction p as [| a p IH]; intros s; simpl.
  - intros H. injection H as ->. reflexivity.
  - destruct s as [| b s]; [discriminate |].
    destruct (a =? b) eqn:Hab; [| discriminate].
    apply N.eqb_eq in Hab. subst b.
    intros H. rewrite (IH _ H). reflexivity.
Qed.

(** Every URL of a known shape is accepted. *)
Lemma known_shape_accepted (url : list N) :
  Shapes.known_shape url = true -> Utils.validate_youtube_url url = true.
Proof.
  unfold Shapes.known_shape. intros H.
  apply existsb_exists in H. destruct H as [scheme [_ H]].
  apply existsb_exists in H. destruct H as [subdomain [_ H]].
  apply existsb_exists in H. destruct H as [form [Hform H]].
  destruct (Shapes.strip_prefix (scheme ++ subdomain ++ form) url)
    as [rest |] eqn:Hstrip; [| discriminate H].
  apply strip_prefix_spec in Hstrip.
  assert (Hocc : Shapes.occurs_in form url).
  { exists (scheme ++ subdomain), rest.
    rewrite Hstrip, <- !app_assoc. reflexivity. }
  apply validate_accepts_iff_occurs.
  unfold Shapes.forms in Hform. simpl in Hform.
  destruct Hform as [<- | [<- | [<- | [<- | []]]]]; tauto.
Qed.

(** C5.  The validator accepts every URL of one of the four shapes,
    among them https://youtube.com/watch?v=abc123, and rejects
    https://vimeo.com/123.  It does not reject every string of another
    scheme or shape: it searches for the four texts anywhere, so it
    accepts an address of another site that carries one of them in its
    fragment, an address of another scheme that carries one in its
    query, and the watch form with no id at all. *)
Theorem validate_accepts_foreign_urls :
  (forall url : list N,
     Shapes.known_shape url = true -> Utils.validate_youtube_url url = true)
  /\ Shapes.known_shape (py "https://youtube.com/watch?v=abc123") = true
  /\ Utils.validate_youtube_url (py "https://vimeo.com/123") = false
  /\ (Shapes.known_shape (py "https://vimeo.com/123#youtube.com/v/") = false
      /\ Utils.validate_youtube_url (py "https://vimeo.com/123#youtube.com/v/")
         = true)
  /\ (Shapes.known_shape (py "ftp://evil.example/?next=youtu.be/") = false
      /\ Utils.validate_youtube_url (py "ftp://evil.example/?next=youtu.be/")
         = true)
  /\ (Shapes.known_shape (py "https://youtube.com/watch?v=") = false
      /\ Utils.validate_youtube_url (py "https://youtube.com/watch?v=")
         = true).
Proof.
  split; [exact known_shape_accepted |].
  split; [vm_compute; reflexivity |].
  split; [vm_compute; reflexivity |].
  repeat split; vm_compute; reflexivity.
Qed.

(** ** utils.py: file names *)

Lemma lstrip_suffix (s : list N) : exists x, s = x ++ lstrip s.
Proof.
  induction s as [| c s [x IH]]; simpl.
  - exists []. reflexivity.
  - destruct (isspace c).
    + exists (c :: x). simpl. rewrite <- IH. reflexivity.
    + exists []. reflexivity.
Qed.

Lemma rstrip_prefix (s : list N) : exists y, s = rstrip s ++ y.
Proof.
  unfold rstrip.
  destruct (lstrip_suffix (reverse s)) as [x Hx].
  exists (reverse x).
  rewrite <- reverse_app, <- Hx, reverse_involutive. reflexivity.
Qed.

Lemma strip_infix (s : list N) : exists x y, s = x ++ strip s ++ y.
Proof.
  unfold strip.
  destruct (lstrip_suffix s) as [x Hx].
  destruct (rstrip_prefix (lstrip s)) as [y Hy].
  exists x, y. rewrite <- Hy. exact Hx.
Qed.

Lemma lstrip_head (s : list N) (c : N) (s' : list N) :
  lstrip s = c :: s' -> isspace c = false.
Proof.
  induction s as [| a s IH]; simpl; [discriminate |].
  destruct (isspace a) eqn:E; [exact IH |].
  intros H. injection H as <- _. exact E.
Qed.

Lemma lstrip_fixed (s : list N) :
  match s with [] => True | c :: _ => isspace c = false end ->
  lstrip s = s.
Proof.
  destruct s as [| c s]; simpl; [reflexivity |].
  intros ->. reflexivity.
Qed.

(** Stripping on the right keeps the first character of a text that
    starts with a non-space. *)
Lemma lstrip_app_nonspace (x : list N) (c : N) (y : list N) :
  isspace c = false -> exists z, lstrip (x ++ c :: y) = z ++ c :: y.
Proof.
  intros Hc. induction x as [| a x [z IH]]; simpl.
  - rewrite Hc. exists []. reflexivity.
  - destruct (isspace a).
    + exists z. exact IH.
    + exists (a :: x). reflexivity.
Qed.

Lemma rstrip_head (c : N) (s : list N) :
  isspace c = false -> exists t, rstrip (c :: s) = c :: t.
Proof.
  intros Hc. unfold rstrip. rewrite reverse_cons.
  destruct (lstrip_app_nonspace (reverse s) c [] Hc) as [z Hz].
  rewrite Hz, reverse_app. simpl. eexists. reflexivity.
Qed.

Lemma strip_no_leading_space (s : list N) :
  match strip s with [] => True | c :: _ => isspace c = false end.
Proof.
  unfold strip.
  destruct (lstrip s) as [| c s'] eqn:E; [exact I |].
  pose proof (lstrip_head _ _ _ E) as Hc.
  destruct (rstrip_head c s' Hc) as [t Ht]. rewrite Ht. exact Hc.
Qed.

Lemma sub_invalid_valid (filename : list N) (c : N) :
  In c (Utils.sub_invalid filename) -> Utils.is_invalid c = false.
Proof.
  unfold Utils.sub_invalid. rewrite in_map_iff.
  intros [a [Ha _]].
  destruct (Utils.is_invalid a) eqn:E; subst c; [reflexivity | exact E].
Qed.

Lemma collapse_elements (b : bool) (s : list N) (c : N) :
  In c (Utils.collapse b s) -> c = 32 \/ In c s.
Proof.
  revert b. induction s as [| a s IH]; intros b; simpl; [tauto |].
  destruct (isspace a).
  - destruct b; simpl.
    + intros H. destruct (IH _ H); tauto.
    + intros [H | H]; [left; congruence |]. destruct (IH _ H); tauto.
  - simpl. intros [H | H]; [tauto |]. destruct (IH _ H); tauto.
Qed.

Lemma collapse_single_spaced (b : bool) (s : list N) :
  single_spaced b (Utils.collapse b s) = true.
Proof.
  revert b. induction s as [| a s IH]; intros b; simpl; [reflexivity |].
  destruct (isspace a) eqn:E.
  - destruct b; [apply IH |].
    simpl. apply IH.
  - simpl. rewrite E. apply IH.
Qed.

Lemma single_spaced_weaken (b : bool) (s : list N) :
  single_spaced b s = true -> single_spaced false s = true.
Proof.
  destruct s as [| c s]; simpl; [reflexivity |].
  destruct (isspace c); [| tauto].
  rewrite !andb_true_iff. tauto.
Qed.

Lemma single_spaced_suffix (b : bool) (x y : list N) :
  single_spaced b (x ++ y) = true -> single_spaced false y = true.
Proof.
  revert b. induction x as [| c x IH]; intros b; simpl.
  - apply single_spaced_weaken.
  - destruct (isspace c).
    + rewrite !andb_true_iff. intros [_ H]. exact (IH _ H).
    + apply IH.
Qed.

Lemma single_spaced_prefix (b : bool) (x y : list N) :
  single_spaced b (x ++ y) = true -> single_spaced b x = true.
Proof.
  revert b. induction x as [| c x IH]; intros b; simpl; [reflexivity |].
  destruct (isspace c).
  - rewrite !andb_true_iff. intros [H1 H2]. split; [exact H1 |].
    exact (IH _ H2).
  - apply IH.
Qed.

(** X1.  What [sanitize_filename] guarantees for every input: none of the
    nine forbidden characters, at most 100 characters, no leading
    whitespace, and single-spaced whitespace inside. *)
Lemma sanitize_filename_guarantees (filename : list N) :
  let result := Utils.sanitize_filename filename in
  (forall c, In c result -> Utils.is_invalid c = false)
  /\ len result <= 100
  /\ lstrip result = result
  /\ single_spaced false result = true.
Proof.
  unfold Utils.sanitize_filename, Utils.sub_spaces, slice_to. simpl.
  set (clean := Utils.collapse false (Utils.sub_invalid filename)).
  destruct (strip_infix clean) as [x [y Hinfix]].
  split; [| split; [| split]].
  - intros c Hc.
    assert (Hin : In c clean).
    { rewrite Hinfix. apply in_or_app. right. apply in_or_app. left.
      rewrite <- (take_drop 100 (strip clean)).
      apply in_or_app. left. exact Hc. }
    destruct (collapse_elements _ _ _ Hin) as [-> | Hsub];
      [reflexivity | exact (sub_invalid_valid _ _ Hsub)].
  - unfold len. rewrite length_take. lia.
  - apply lstrip_fixed.
    pose proof (strip_no_leading_space clean) as Hhead.
    destruct (strip clean) as [| c t]; [exact I |]. exact Hhead.
  - pose proof (collapse_single_spaced false (Utils.sub_invalid filename))
      as Hclean.
    fold clean in Hclean. rewrite Hinfix in Hclean.
    apply single_spaced_suffix in Hclean.
    apply single_spaced_prefix in Hclean.
    rewrite <- (take_drop 100 (strip clean)) in Hclean.
    exact (single_spaced_prefix _ _ _ Hclean).
Qed.

(** C10.  The title made of 99 letters, a space and one more letter is
    cut inside the 100-character limit right after the space: the name
    [sanitize_filename] returns ends with a whitespace character, so
    stripping it again changes it. *)
Theorem sanitize_truncation_keeps_trailing_space :
  Utils.sanitize_filename Demo.long_title = replicate 99 97 ++ py " "
  /\ len (Utils.sanitize_filename Demo.long_title) = 100
  /\ List.last (Utils.sanitize_filename Demo.long_title) 0 = 32
  /\ isspace 32 = true
  /\ strip (Utils.sanitize_filename Demo.long_title)
     <> Utils.sanitize_filename Demo.long_title.
Proof.
  split; [vm_compute; reflexivity |].
  split; [vm_compute; reflexivity |].
  split; [vm_compute; reflexivity |].
  split; [reflexivity |].
  vm_compute. discriminate.
Qed.

(** The downloaded file is named after the sanitized title. *)
Lemma download_audio_path
    (e : env) (url : str) (w w' : world) (p : list N) :
  Downloader.download_audio e url w = (Ret (Some p), w') ->
  exists yt s,
    YouTube e url = Ret yt
    /\ yt_first_audio yt = Some s
    /\ p = path_join Downloader.output_dir
             (Utils.sanitize_filename (yt_title yt) ++ py "." ++ subtype s).
Proof.
  unfold Downloader.download_audio, try_except, bind, lift.
  destruct (YouTube e url) as [yt | []] eqn:Hyt; try discriminate.
  destruct (yt_first_audio yt) as [s |] eqn:Hs; [| discriminate].
  unfold Downloader.stream_download, bind, lift.
  destruct (download_result s) as [[] | []]; try discriminate.
  simpl. intros H. injection H as <- _.
  exists yt, s. split; [reflexivity | split; [exact Hs | reflexivity]].
Qed.

(** The three persisted files share a prefix that starts with the
    sanitized title. *)
Lemma base_filename_prefix
    (e : env) (video_title : list N) (target : option (list N)) :
  exists rest,
    Main.base_filename e video_title target
    = Utils.sanitize_filename video_title ++ py "_" ++ rest.
Proof. unfold Main.base_filename. eexists. reflexivity. Qed.

(** ** utils.py: cleanup *)

Lemma unlink_or_warn_removed
    (e : env) (p : str) (w : world) (n : node) :
  fs w !! p = Some n -> Utils.can_unlink e p n = true ->
  Utils.unlink_or_warn e p w
  = (Ret tt, World (delete p (fs w)) (trace w ++ [EUnlink p])).
Proof.
  intros Hfile Hcan.
  unfold Utils.unlink_or_warn, try_except, bind, Utils.unlink.
  rewrite Hfile, Hcan. reflexivity.
Qed.

Lemma unlink_or_warn_kept (e : env) (p : str) (w : world) :
  match fs w !! p with
  | Some n => Utils.can_unlink e p n = false
  | None => True
  end ->
  Utils.unlink_or_warn e p w
  = (Ret tt, World (fs w) (trace w ++ [EUnlinkError p])).
Proof.
  intros Hkept.
  unfold Utils.unlink_or_warn, try_except, bind, Utils.unlink.
  destruct (fs w !! p) as [n |]; [rewrite Hkept |]; reflexivity.
Qed.

(** One pass of the loop over any list of paths: it never raises, it
    creates nothing, it touches no path outside the list, every listed
    path still present afterwards is one whose removal was refused, and
    it only logs removals and warnings. *)
Lemma cleanup_loop (e : env) (l : list (list N)) (w : world) :
  exists w',
    Utils.for_each l (Utils.unlink_or_warn e) w = (Ret tt, w')
    /\ (forall q n, fs w' !! q = Some n -> fs w !! q = Some n)
    /\ (forall q, ~ In q l -> fs w' !! q = fs w !! q)
    /\ (forall q n, In q l -> fs w' !! q = Some n ->
                    Utils.can_unlink e q n = false)
    /\ (exists evs, trace w' = trace w ++ evs
                    /\ forallb is_unlink_event evs = true).
Proof.
  revert w. induction l as [| p l IH]; intros w.
  - exists w. simpl. split; [reflexivity |].
    split; [tauto |]. split; [reflexivity |]. split; [tauto |].
    exists []. rewrite app_nil_r. split; reflexivity.
  - cbn [Utils.for_each]. unfold bind at 1.
    destruct (fs w !! p) as [n |] eqn:Hfile.
    + destruct (Utils.can_unlink e p n) eqn:Hcan.
      * rewrite (unlink_or_warn_removed _ _ _ _ Hfile Hcan).
        destruct (IH (World (delete p (fs w)) (trace w ++ [EUnlink p])))
          as [w' [Hrun [Hsub [Hout [Hin [evs [Htr Hevs]]]]]]].
        simpl in *. exists w'. split; [exact Hrun |].
        assert (Hgone : fs w' !! p = None).
        { destruct (fs w' !! p) as [m |] eqn:E; [| reflexivity].
          apply Hsub in E. rewrite lookup_delete_eq in E. discriminate E. }
        split; [| split; [| split]].
        -- intros q m Hq. apply Hsub in Hq.
           destruct (decide (p = q)) as [-> | Hne].
           ++ rewrite lookup_delete_eq in Hq. discriminate Hq.
           ++ rewrite lookup_delete_ne in Hq by exact Hne. exact Hq.
        -- intros q Hq.
           assert (Hne : p <> q) by (intros ->; apply Hq; left; reflexivity).
           rewrite Hout by (intros Hl; apply Hq; right; exact Hl).
           apply lookup_delete_ne. exact Hne.
        -- intros q m [<- | Hl] Hq.
           ++ rewrite Hgone in Hq. discriminate Hq.
           ++ exact (Hin _ _ Hl Hq).
        -- exists (EUnlink p :: evs). rewrite Htr, <- app_assoc.
           split; [reflexivity | exact Hevs].
      * rewrite (unlink_or_warn_kept e p w)
          by (rewrite Hfile; exact Hcan).
        destruct (IH (World (fs w) (trace w ++ [EUnlinkError p])))
          as [w' [Hrun [Hsub [Hout [Hin [evs [Htr Hevs]]]]]]].
        simpl in *. exists w'. split; [exact Hrun |].
        split; [exact Hsub | split; [| split]].
        -- intros q Hq. apply Hout. intros Hl. apply Hq. right. exact Hl.
        -- intros q m [<- | Hl] Hq.
           ++ apply Hsub in Hq. rewrite Hfile in Hq.
              injection Hq as <-. exact Hcan.
           ++ exact (Hin _ _ Hl Hq).
        -- exists (EUnlinkError p :: evs). rewrite Htr, <- app_assoc.
           split; [reflexivity | exact Hevs].
    + rewrite (unlink_or_warn_kept e p w) by (rewrite Hfile; exact I).
      destruct (IH (World (fs w) (trace w ++ [EUnlinkError p])))
        as [w' [Hrun [Hsub [Hout [Hin [evs [Htr Hevs]]]]]]].
      simpl in *. exists w'. split; [exact Hrun |].
      split; [exact Hsub | split; [| split]].
      * intros q Hq. apply Hout. intros Hl. apply Hq. right. exact Hl.
      * intros q m [<- | Hl] Hq.
        -- apply Hsub in Hq. rewrite Hfile in Hq. discriminate Hq.
        -- exact (Hin _ _ Hl Hq).
      * exists (EUnlinkError p :: evs). rewrite Htr, <- app_assoc.
        split; [reflexivity | exact Hevs].
Qed.

(** [glob] lists exactly the entries directly inside [temp_files]. *)
Lemma glob_temp_spec (files : gmap (list N) node) (q : list N) :
  In q (Utils.glob_temp files)
  <-> Utils.in_temp_dir q = true /\ is_Some (files !! q).
Proof.
  unfold Utils.glob_temp.
  rewrite filter_In, in_map_iff. split.
  - intros [[[k v] [Hk Hkv]] Hq]. simpl in Hk. subst k.
    split; [exact Hq |].
    apply list_elem_of_In, elem_of_map_to_list in Hkv. eauto.
  - intros [Hq [v Hv]]. split; [| exact Hq].
    exists (q, v). split; [reflexivity |].
    apply list_elem_of_In, elem_of_map_to_list. exact Hv.
Qed.

(** [cleanup_temp_files] never raises and creates nothing; paths
    outside [temp_files] are untouched; when the directory exists, an
    entry inside it survives only if its removal was refused; the only
    events are removals and warnings. *)
Lemma cleanup_temp_files_spec (e : env) (w : world) :
  exists w',
    Utils.cleanup_temp_files e w = (Ret tt, w')
    /\ (forall q n, fs w' !! q = Some n -> fs w !! q = Some n)
    /\ (forall q, Utils.in_temp_dir q = false -> fs w' !! q = fs w !! q)
    /\ (is_Some (fs w !! Utils.temp_dir) ->
        forall q n, Utils.in_temp_dir q = true -> fs w' !! q = Some n ->
                    Utils.can_unlink e q n = false)
    /\ (exists evs, trace w' = trace w ++ evs
                    /\ forallb is_unlink_event evs = true).
Proof.
  unfold Utils.cleanup_temp_files, bind, path_exists.
  destruct (fs w !! Utils.temp_dir) as [d |] eqn:Hdir.
  - destruct (cleanup_loop e (Utils.glob_temp (fs w)) w)
      as [w' [Hrun [Hsub [Hout [Hin [evs [Htr Hevs]]]]]]].
    exists w'. split; [exact Hrun |]. split; [exact Hsub |].
    split; [| split].
    + intros q Hq. apply Hout. rewrite glob_temp_spec.
      intros [Hq' _]. congruence.
    + intros _ q n Hq Hn. apply (Hin q n); [| exact Hn].
      apply glob_temp_spec. split; [exact Hq |].
      exists n. exact (Hsub _ _ Hn).
    + exists evs. split; [exact Htr | exact Hevs].
  - exists w. split; [reflexivity |]. split; [tauto |].
    split; [reflexivity |]. split.
    + intros [x Hx]. discriminate Hx.
    + exists []. rewrite app_nil_r. split; reflexivity.
Qed.

(** X5.  With the directory in place, no sub-directory in it and no refusal
    from the system, nothing is left inside [temp_files]. *)
Lemma cleanup_empties_temp_dir (e : env) (w : world) :
  is_Some (fs w !! Utils.temp_dir) ->
  (forall q, unlink_denied e q = false) ->
  (forall q n, Utils.in_temp_dir q = true -> fs w !! q = Some n ->
               node_kind n = Regular) ->
  forall q, Utils.in_temp_dir q = true ->
            fs (snd (Utils.cleanup_temp_files e w)) !! q = None.
Proof.
  intros Hdir Hallowed Hfiles q Hq.
  destruct (cleanup_temp_files_spec e w)
    as [w' [Hrun [Hsub [_ [Hin _]]]]].
  rewrite Hrun. simpl.
  destruct (fs w' !! q) as [n |] eqn:Hn; [| reflexivity].
  pose proof (Hin Hdir q n Hq Hn) as Hcan.
  unfold Utils.can_unlink in Hcan.
  rewrite (Hfiles q n Hq (Hsub _ _ Hn)), Hallowed in Hcan.
  discriminate Hcan.
Qed.

(** ** main.py *)

(** A rejected URL returns before the [try] block: nothing is cleaned. *)
Lemma invalid_url_skips_cleanup
    (e : env) (c : Main.components) (url summary_type : str)
    (target source : option (list N)) (w : world) :
  Utils.validate_youtube_url url = false ->
  Main.analyze_video e c url summary_type target source w
  = (Ret None, World (fs w) (trace w ++ [EInvalidUrl])).
Proof.
  intros Hbad. unfold Main.analyze_video. rewrite Hbad. reflexivity.
Qed.

Lemma analyze_video_valid
    (e : env) (c : Main.components) (url summary_type : str)
    (target source : option (list N)) (w : world) :
  Utils.validate_youtube_url url = true ->
  Main.analyze_video e c url summary_type target source w
  = try_finally
      (try_except (Main.run_stages e c url summary_type target source)
         (ret None))
      (Main.finalizer e) w.
Proof.
  intros Hvalid. unfold Main.analyze_video. rewrite Hvalid. reflexivity.
Qed.

(** The loop again, with what it reports: every listed path gets a
    removal or a warning, and a listed path that is still there
    afterwards got the warning. *)
Lemma cleanup_loop_reports (e : env) (l : list (list N)) (w : world) :
  exists w' evs,
    Utils.for_each l (Utils.unlink_or_warn e) w = (Ret tt, w')
    /\ trace w' = trace w ++ evs
    /\ (forall q, In q l -> In (EUnlink q) evs \/ In (EUnlinkError q) evs)
    /\ (forall q n, In q l -> fs w' !! q = Some n ->
                    In (EUnlinkError q) evs).
Proof.
  revert w. induction l as [| p l IH]; intros w.
  - exists w, []. simpl. rewrite app_nil_r.
    split; [reflexivity | split; [reflexivity |]]. split; intros; tauto.
  - cbn [Utils.for_each]. unfold bind at 1.
    assert (Hstep :
      exists w1 ev,
        Utils.unlink_or_warn e p w = (Ret tt, w1)
        /\ trace w1 = trace w ++ [ev]
        /\ ((ev = EUnlink p /\ fs w1 !! p = None)
            \/ ev = EUnlinkError p)).
    { destruct (fs w !! p) as [n |] eqn:Hfile;
        [destruct (Utils.can_unlink e p n) eqn:Hcan |].
      - rewrite (unlink_or_warn_removed _ _ _ _ Hfile Hcan).
        eexists. exists (EUnlink p).
        split; [reflexivity | split; [reflexivity |]].
        left. split; [reflexivity | apply lookup_delete_eq].
      - rewrite (unlink_or_warn_kept e p w) by (rewrite Hfile; exact Hcan).
        eexists. exists (EUnlinkError p).
        split; [reflexivity | split; [reflexivity | right; reflexivity]].
      - rewrite (unlink_or_warn_kept e p w) by (rewrite Hfile; exact I).
        eexists. exists (EUnlinkError p).
        split; [reflexivity | split; [reflexivity | right; reflexivity]]. }
    destruct Hstep as [w1 [ev [Hrun1 [Htr1 Hev]]]]. rewrite Hrun1.
    destruct (IH w1) as [w' [evs [Hrun [Htr [Hall Hleft]]]]].
    destruct (cleanup_loop e l w1) as [w'' [Hrun' [Hsub _]]].
    rewrite Hrun in Hrun'. injection Hrun' as <-.
    exists w', (ev :: evs). split; [exact Hrun |].
    split; [rewrite Htr, Htr1, <- app_assoc; reflexivity |].
    split.
    + intros q [<- | Hq].
      * destruct Hev as [[-> _] | ->]; [left | right]; left; reflexivity.
      * destruct (Hall q Hq) as [H | H]; [left | right]; right; exact H.
    + intros q n [<- | Hq] Hn.
      * destruct Hev as [[_ Hgone] | ->]; [| left; reflexivity].
        apply Hsub in Hn. rewrite Hgone in Hn. discriminate Hn.
      * right. exact (Hleft q n Hq Hn).
Qed.

(** What [cleanup_temp_files] reports.  Without the directory it does
    nothing.  With it, every entry directly inside gets a removal or a
    warning, and an entry that is still there afterwards got the
    warning. *)
Lemma cleanup_reports (e : env) (w : world) :
  exists w' evs,
    Utils.cleanup_temp_files e w = (Ret tt, w')
    /\ trace w' = trace w ++ evs
    /\ (fs w !! Utils.temp_dir = None -> w' = w /\ evs = [])
    /\ (is_Some (fs w !! Utils.temp_dir) ->
        (forall q, Utils.in_temp_dir q = true -> is_Some (fs w !! q) ->
                   In (EUnlink q) evs \/ In (EUnlinkError q) evs)
        /\ (forall q n, Utils.in_temp_dir q = true -> fs w' !! q = Some n ->
                        In (EUnlinkError q) evs)).
Proof.
  destruct (cleanup_temp_files_spec e w) as [w0 [Hspec [Hsub _]]].
  unfold Utils.cleanup_temp_files, bind, path_exists in *.
  destruct (fs w !! Utils.temp_dir) as [d |] eqn:Hdir.
  - destruct (cleanup_loop_reports e (Utils.glob_temp (fs w)) w)
      as [w' [evs [Hrun [Htr [Hall Hleft]]]]].
    exists w', evs. split; [exact Hrun |]. split; [exact Htr |].
    split; [discriminate |].
    rewrite Hrun in Hspec. injection Hspec as <-.
    intros _. split.
    + intros q Hq Hfile. apply Hall. apply glob_temp_spec. tauto.
    + intros q n Hq Hn. apply (Hleft q n); [| exact Hn].
      apply glob_temp_spec. split; [exact Hq |].
      exists n. exact (Hsub _ _ Hn).
  - exists w, []. rewrite app_nil_r.
    split; [reflexivity | split; [reflexivity |]].
    split; [tauto |]. intros [x Hx]. discriminate Hx.
Qed.

(** C1 (as amended).  For every call of [analyze_video] whose URL
    passes validation, whatever the collaborators do (return a result,
    return [None] at any stage, raise): the outcome [r] of the guarded
    stages is the outcome of the call; the cleanup banner and then only
    removals and warnings are logged after the last stage; cleanup
    creates no file and touches nothing outside [temp_files].  Without
    the directory the step changes nothing.  With it, every entry
    directly inside gets a removal or a warning; whatever is still
    directly inside afterwards is a sub-directory or a file the system
    refused to remove, and it got the warning; so with no refusal no
    file is left. *)
Theorem cleanup_after_every_run
    (e : env) (c : Main.components) (url summary_type : str)
    (target source : option (list N)) (w : world) :
  Utils.validate_youtube_url url = true ->
  exists r w1 w' evs,
    try_except (Main.run_stages e c url summary_type target source)
      (ret None) w = (r, w1)
    /\ Main.analyze_video e c url summary_type target source w = (r, w')
    /\ r <> Raise Exception
    /\ trace w' = trace w1 ++ ECleanup :: evs
    /\ forallb is_unlink_event evs = true
    /\ (forall q n, fs w' !! q = Some n -> fs w1 !! q = Some n)
    /\ (forall q, Utils.in_temp_dir q = false -> fs w' !! q = fs w1 !! q)
    /\ (fs w1 !! Utils.temp_dir = None -> fs w' = fs w1 /\ evs = [])
    /\ (is_Some (fs w1 !! Utils.temp_dir) ->
        (forall q, Utils.in_temp_dir q = true -> is_Some (fs w1 !! q) ->
                   In (EUnlink q) evs \/ In (EUnlinkError q) evs)
        /\ (forall q n,
              Utils.in_temp_dir q = true -> fs w' !! q = Some n ->
              (node_kind n = Directory \/ unlink_denied e q = true)
              /\ In (EUnlinkError q) evs)
        /\ ((forall q, unlink_denied e q = false) ->
            forall q n,
              Utils.in_temp_dir q = true -> fs w' !! q = Some n ->
              node_kind n = Directory)).
Proof.
  intros Hvalid.
  rewrite (analyze_video_valid _ _ _ _ _ _ _ Hvalid).
  unfold try_finally.
  destruct (try_except (Main.run_stages e c url summary_type target source)
              (ret None) w) as [r w1] eqn:Hstages.
  unfold Main.finalizer, bind, emit.
  set (wc := World (fs w1) (trace w1 ++ [ECleanup])).
  destruct (cleanup_temp_files_spec e wc)
    as [w' [Hrun [Hsub [Hout [Hin [evs [Htr Hevs]]]]]]].
  destruct (cleanup_reports e wc)
    as [w'' [evs' [Hrun' [Htr' [Hnone Hsome]]]]].
  rewrite Hrun in Hrun'. injection Hrun' as <-.
  assert (Hsame : evs' = evs).
  { rewrite Htr in Htr'. apply app_inv_head in Htr'. congruence. }
  subst evs'.
  rewrite Hrun. subst wc. cbn [fs trace] in *.
  assert (Hkind : forall q n,
             Utils.in_temp_dir q = true -> fs w' !! q = Some n ->
             is_Some (fs w1 !! Utils.temp_dir) ->
             node_kind n = Directory \/ unlink_denied e q = true).
  { intros q n Hq Hn Hdir.
    pose proof (Hin Hdir q n Hq Hn) as Hcan.
    unfold Utils.can_unlink in Hcan.
    destruct (node_kind n); [right | left; reflexivity].
    destruct (unlink_denied e q); [reflexivity | discriminate Hcan]. }
  exists r, w1, w', evs. split; [reflexivity |]. split; [reflexivity |].
  split.
  { unfold try_except in Hstages.
    destruct (Main.run_stages e c url summary_type target source w)
      as [[a | []] w0]; injection Hstages as <- _; discriminate. }
  split; [rewrite Htr, <- app_assoc; reflexivity |].
  split; [exact Hevs |].
  split; [exact Hsub |]. split; [exact Hout |].
  split.
  { intros Hdir. destruct (Hnone Hdir) as [-> ->]. split; reflexivity. }
  intros Hdir. destruct (Hsome Hdir) as [Hall Hleft].
  split; [exact Hall |]. split.
  - intros q n Hq Hn. split; [exact (Hkind q n Hq Hn Hdir) |].
    exact (Hleft q n Hq Hn).
  - intros Hallowed q n Hq Hn.
    destruct (Hkind q n Hq Hn Hdir) as [Hk | Hdenied]; [exact Hk |].
    rewrite Hallowed in Hdenied. discriminate Hdenied.
Qed.

Lemma cleanup_after_every_run_witness :
  let e := Demo.backend Demo.long_text (py "a summary") [] in
  let c := Main.YouTubeAnalyzer e in
  Utils.validate_youtube_url Demo.url = true
  /\ exists r w1 w' evs,
       try_except
         (Main.run_stages e c Demo.url (py "structured") None None)
         (ret None) Demo.fresh = (r, w1)
       /\ Main.analyze_video e c Demo.url (py "structured") None None
            Demo.fresh = (r, w')
       /\ trace w' = trace w1 ++ ECleanup :: evs
       /\ forallb is_unlink_event evs = true
       /\ (is_Some (fs w1 !! Utils.temp_dir) ->
           forall q n, Utils.in_temp_dir q = true -> fs w' !! q = Some n ->
                       node_kind n = Directory).
Proof.
  assert (Hvalid : Utils.validate_youtube_url Demo.url = true)
    by reflexivity.
  split; [exact Hvalid |].
  destruct (cleanup_after_every_run
              (Demo.backend Demo.long_text (py "a summary") [])
              (Main.YouTubeAnalyzer
                 (Demo.backend Demo.long_text (py "a summary") []))
              Demo.url (py "structured") None None Demo.fresh Hvalid)
    as [r [w1 [w' [evs [H1 [H2 [_ [H3 [H4 [_ [_ [_ H5]]]]]]]]]]]].
  exists r, w1, w', evs.
  split; [exact H1 | split; [exact H2 | split; [exact H3 |]]].
  split; [exact H4 |].
  intros Hdir. destruct (H5 Hdir) as [_ [_ Hfiles]].
  apply Hfiles. intros q. reflexivity.
Defined.

(** C1, the claim as stated fails: in a complete, successful run the
    system refuses to remove the downloaded audio; the refusal is caught
    and reported, and the file is still in [temp_files] afterwards. *)
Lemma cleanup_counterexample :
  let e := Demo.backend Demo.long_text (py "a summary") [Demo.downloaded] in
  let run :=
    Main.analyze_video e (Main.YouTubeAnalyzer e) Demo.url
      (py "structured") None None Demo.fresh in
  match fst run with Ret (Some _) => True | _ => False end
  /\ existsb (fun ev => match ev with ECleanup => true | _ => false end)
       (trace (snd run)) = true
  /\ Utils.in_temp_dir Demo.downloaded = true
  /\ fs (snd run) !! Demo.downloaded = Some (Node Regular 5000000)
  /\ List.last (trace (snd run)) ECleanup = EUnlinkError Demo.downloaded.
Proof.
  vm_compute. repeat split; reflexivity.
Qed.

Lemma bind_fst {A B} (m : M A) (k : A -> M B) (w : world) (a : A) :
  fst (m w) = Ret a -> bind m k w = k a (snd (m w)).
Proof.
  unfold bind. destruct (m w) as [r w']. simpl. intros ->. reflexivity.
Qed.

Lemma bind_step {B} (n : N) (k : unit -> M B) (w : world) :
  bind (emit (EStep n)) k w = k tt (after_step n w).
Proof. reflexivity. Qed.

Lemma nonempty_some (p : list N) : p <> [] -> Main.nonempty (Some p) = Some p.
Proof. destruct p; [congruence | reflexivity]. Qed.

Lemma finalizer_returns (e : env) (w : world) :
  exists w' evs,
    Main.finalizer e w = (Ret tt, w')
    /\ trace w' = trace w ++ ECleanup :: evs
    /\ forallb is_unlink_event evs = true.
Proof.
  unfold Main.finalizer, bind, emit.
  destruct (cleanup_temp_files_spec e (World (fs w) (trace w ++ [ECleanup])))
    as [w' [Hrun [_ [_ [_ [evs [Htr Hevs]]]]]]].
  rewrite Hrun. exists w', evs. simpl in Htr.
  rewrite Htr, <- app_assoc. split; [reflexivity |].
  split; [reflexivity | exact Hevs].
Qed.

(** C2 (as amended).  A text whose trimmed length is below 50 makes
    [create_summary] return [None] without touching the world, while
    [analyze_content], called on the same text, checks no length and
    returns the backend's answer.  Inside [analyze_video], however, a
    run whose transcript is that short stops at the summary: the stages
    return [None] right after the banner of step 5, the call returns
    [None], and what follows the transcription in the trace is that
    banner, the cleanup banner and the removals; the analysis step is
    not executed. *)
Theorem short_transcript_stops_the_run
    (e : env) (c : Main.components) (model_name url summary_type : str)
    (target source : option (list N)) (w : world)
    (info : Downloader.video_info) (audio_path converted_path : list N)
    (transcript_data : Transcriber.transcript) (text answer : list N) :
  let w1 := snd (Main.get_video_info c url (after_step 1 w)) in
  let w2 := snd (Main.download_audio c url (after_step 2 w1)) in
  let w3 := snd (Main.optimize_for_gemini c audio_path (after_step 3 w2)) in
  let w4 := snd (Main.transcribe_audio c converted_path target source
                   (after_step 4 w3)) in
  Utils.validate_youtube_url url = true ->
  Main.create_summary c = Summarizer.create_summary e model_name ->
  fst (Main.get_video_info c url (after_step 1 w)) = Ret (Some info) ->
  fst (Main.download_audio c url (after_step 2 w1))
  = Ret (Some audio_path) ->
  audio_path <> [] ->
  fst (Main.optimize_for_gemini c audio_path (after_step 3 w2))
  = Ret (Some converted_path) ->
  converted_path <> [] ->
  fst (Main.transcribe_audio c converted_path target source
         (after_step 4 w3))
  = Ret (Some transcript_data) ->
  Transcriber.text transcript_data = text ->
  len (strip text) < 50 ->
  generate_content e
    (Summarizer.analysis_prompt
       (Summarizer.analysis_system_prompt
          (Summarizer.analysis_lang_instruction target)) text) None
  = Ret (Response (Ret answer)) ->
  (forall w0,
     Summarizer.create_summary e model_name text summary_type target w0
     = (Ret None, w0))
  /\ (forall w0, exists w0',
        Summarizer.analyze_content e model_name text target w0
        = (Ret (Some
                  {| Summarizer.analysis_text := answer;
                     Summarizer.analysis_model_used := model_name;
                     Summarizer.analysis_target_language :=
                       or_default target (py "original") |}), w0'))
  /\ Main.run_stages e c url summary_type target source w
     = (Ret None, after_step 5 w4)
  /\ exists w' evs,
       Main.analyze_video e c url summary_type target source w
       = (Ret None, w')
       /\ trace w' = trace w4 ++ EStep 5 :: ECleanup :: evs
       /\ forallb is_unlink_event evs = true.
Proof.
  intros w1 w2 w3 w4 Hvalid Hsummarizer Hinfo Haudio Haudio_ne
    Hconv Hconv_ne Htranscript Htext Hshort Hanswer.
  assert (Hsummary : forall w0,
            Summarizer.create_summary e model_name text summary_type
              target w0 = (Ret None, w0))
    by (intros w0; apply create_summary_too_short; exact Hshort).
  assert (Hstages :
            Main.run_stages e c url summary_type target source w
            = (Ret None, after_step 5 w4)).
  { unfold Main.run_stages.
    rewrite bind_step, (bind_fst _ _ _ _ Hinfo). fold w1.
    rewrite bind_step, (bind_fst _ _ _ _ Haudio). fold w2.
    rewrite (nonempty_some _ Haudio_ne).
    rewrite bind_step, (bind_fst _ _ _ _ Hconv). fold w3.
    rewrite (nonempty_some _ Hconv_ne).
    rewrite bind_step, (bind_fst _ _ _ _ Htranscript). fold w4.
    rewrite bind_step. rewrite Hsummarizer.
    unfold bind. rewrite Htext, Hsummary. reflexivity. }
  split; [exact Hsummary |].
  split; [intros w0; apply analyze_content_answers; exact Hanswer |].
  split; [exact Hstages |].
  destruct (finalizer_returns e (after_step 5 w4))
    as [w' [evs [Hfin [Htr Hevs]]]].
  exists w', evs.
  split; [| split; [| exact Hevs]].
  - rewrite (analyze_video_valid _ _ _ _ _ _ _ Hvalid).
    unfold try_finally, try_except. rewrite Hstages, Hfin. reflexivity.
  - rewrite Htr. unfold after_step. simpl. rewrite <- app_assoc.
    reflexivity.
Qed.

Lemma short_transcript_witness :
  let e := Demo.backend Demo.short_text (py "an answer") [] in
  let c := Main.YouTubeAnalyzer e in
  Utils.validate_youtube_url Demo.url = true
  /\ len (strip Demo.short_text) < 50
  /\ (forall w0,
        Summarizer.create_summary e Summarizer.default_model
          Demo.short_text (py "structured") None w0
        = (Ret None, w0))
  /\ (forall w0, exists w0',
        Summarizer.analyze_content e Summarizer.default_model
          Demo.short_text None w0
        = (Ret (Some
                  {| Summarizer.analysis_text := py "an answer";
                     Summarizer.analysis_model_used :=
                       Summarizer.default_model;
                     Summarizer.analysis_target_language :=
                       or_default None (py "original") |}), w0'))
  /\ exists w' evs,
       Main.analyze_video e c Demo.url (py "structured") None None
         Demo.fresh
       = (Ret None, w')
       /\ forallb is_unlink_event evs = true.
Proof.
  intros e c.
  assert (Hvalid : Utils.validate_youtube_url Demo.url = true)
    by reflexivity.
  assert (Hshort : len (strip Demo.short_text) < 50)
    by (vm_compute; reflexivity).
  assert (Htext : Transcriber.text Demo.short_transcript = Demo.short_text)
    by reflexivity.
  assert (Hsummarizer :
            Main.create_summary c
            = Summarizer.create_summary e Summarizer.default_model)
    by reflexivity.
  pose proof (short_transcript_stops_the_run e c Summarizer.default_model
                Demo.url (py "structured") None None Demo.fresh Demo.info
                Demo.downloaded Demo.converted Demo.short_transcript
                Demo.short_text (py "an answer"))
    as Hrun.
  cbv zeta in Hrun.
  specialize (Hrun Hvalid Hsummarizer).
  match type of Hrun with
  | ?H -> _ => assert (Hinfo : H) by (vm_compute; reflexivity)
  end.
  specialize (Hrun Hinfo).
  match type of Hrun with
  | ?H -> _ => assert (Haudio : H) by (vm_compute; reflexivity)
  end.
  specialize (Hrun Haudio).
  match type of Hrun with
  | ?H -> _ => assert (Haudio_ne : H) by discriminate
  end.
  specialize (Hrun Haudio_ne).
  match type of Hrun with
  | ?H -> _ => assert (Hconv : H) by (vm_compute; reflexivity)
  end.
  specialize (Hrun Hconv).
  match type of Hrun with
  | ?H -> _ => assert (Hconv_ne : H) by discriminate
  end.
  specialize (Hrun Hconv_ne).
  match type of Hrun with
  | ?H -> _ => assert (Htranscript : H) by (vm_compute; reflexivity)
  end.
  specialize (Hrun Htranscript Htext Hshort).
  match type of Hrun with
  | ?H -> _ => assert (Hanswer : H) by reflexivity
  end.
  specialize (Hrun Hanswer).
  destruct Hrun as [H1 [H2 [_ [w' [evs [H4 [_ H5]]]]]]].
  split; [exact Hvalid | split; [exact Hshort |]].
  split; [exact H1 | split; [exact H2 |]].
  exists w', evs. split; [exact H4 | exact H5].
Defined.

(** C2, the claim as stated fails: in a run whose transcript has 30
    characters the call returns [None]; step 5 is reached, step 6 is
    not, and the only generation request of the whole run is the
    transcription. *)
Lemma scenario_c_counterexample :
  let e := Demo.backend Demo.short_text (py "an answer") [] in
  let run :=
    Main.analyze_video e (Main.YouTubeAnalyzer e) Demo.url
      (py "structured") None None Demo.fresh in
  len Demo.short_text = 30
  /\ fst run = Ret None
  /\ reached_step 5 (trace (snd run)) = true
  /\ reached_step 6 (trace (snd run)) = false
  /\ generate_calls (trace (snd run)) = 1%nat.
Proof.
  vm_compute. repeat split; reflexivity.
Qed.

(** * Further properties of the same files *)

(** ** utils.py: file names *)

Lemma lstrip_idem (s : list N) : lstrip (lstrip s) = lstrip s.
Proof.
  apply lstrip_fixed.
  destruct (lstrip s) as [| c t] eqn:E; [exact I |].
  exact (lstrip_head _ _ _ E).
Qed.

Lemma rstrip_idem (s : list N) : rstrip (rstrip s) = rstrip s.
Proof.
  unfold rstrip. rewrite reverse_involutive, lstrip_idem. reflexivity.
Qed.

Lemma strip_idem (s : list N) : strip (strip s) = strip s.
Proof.
  unfold strip at 1.
  rewrite (lstrip_fixed (strip s)) by apply strip_no_leading_space.
  unfold strip. apply rstrip_idem.
Qed.

Lemma collapse_length (b : bool) (s : list N) :
  (length (Utils.collapse b s) <= length s)%nat.
Proof.
  revert b. induction s as [| c s IH]; intros b; simpl; [lia |].
  destruct (isspace c).
  - destruct b; simpl; [specialize (IH true) | specialize (IH true)]; lia.
  - simpl. specialize (IH false). lia.
Qed.

Lemma sub_invalid_fixed (l : list N) :
  (forall c, In c l -> Utils.is_invalid c = false) ->
  Utils.sub_invalid l = l.
Proof.
  unfold Utils.sub_invalid.
  induction l as [| a l IH]; intros Hvalid; simpl; [reflexivity |].
  rewrite (Hvalid a) by (left; reflexivity).
  rewrite IH; [reflexivity |].
  intros c Hc. apply Hvalid. right. exact Hc.
Qed.

Lemma collapse_fixed (b : bool) (l : list N) :
  single_spaced b l = true -> Utils.collapse b l = l.
Proof.
  revert b. induction l as [| c l IH]; intros b; simpl; [reflexivity |].
  destruct (isspace c).
  - rewrite !andb_true_iff, N.eqb_eq, negb_true_iff.
    intros [[-> ->] Hrest]. rewrite (IH _ Hrest). reflexivity.
  - intros Hrest. rewrite (IH _ Hrest). reflexivity.
Qed.

(** The text before the cut at 100 characters: valid characters only,
    single-spaced. *)
Lemma stripped_text_is_clean (filename : list N) :
  let clean := strip (Utils.sub_spaces (Utils.sub_invalid filename)) in
  (forall c, In c clean -> Utils.is_invalid c = false)
  /\ single_spaced false clean = true
  /\ (length clean <= length filename)%nat.
Proof.
  unfold Utils.sub_spaces. simpl.
  set (text := Utils.collapse false (Utils.sub_invalid filename)).
  destruct (strip_infix text) as [x [y Hinfix]].
  split; [| split].
  - intros c Hc.
    assert (Hin : In c text).
    { rewrite Hinfix. apply in_or_app. right. apply in_or_app. left.
      exact Hc. }
    destruct (collapse_elements _ _ _ Hin) as [-> | Hsub];
      [reflexivity | exact (sub_invalid_valid _ _ Hsub)].
  - pose proof (collapse_single_spaced false (Utils.sub_invalid filename))
      as Htext.
    fold text in Htext. rewrite Hinfix in Htext.
    apply single_spaced_suffix in Htext.
    exact (single_spaced_prefix _ _ _ Htext).
  - pose proof (strip_length text) as H1.
    pose proof (collapse_length false (Utils.sub_invalid filename)) as H2.
    fold text in H2. unfold Utils.sub_invalid in H2.
    rewrite length_map in H2. unfold len in H1. lia.
Qed.

Lemma sanitize_short (filename : list N) :
  len filename <= 100 ->
  Utils.sanitize_filename filename
  = strip (Utils.sub_spaces (Utils.sub_invalid filename)).
Proof.
  intros Hshort.
  destruct (stripped_text_is_clean filename) as [_ [_ Hlen]].
  unfold Utils.sanitize_filename, slice_to. simpl in *.
  apply take_ge. unfold len in Hshort. lia.
Qed.

(** X2.  A name of at most 100 characters is never cut: the result has no
    whitespace at either end, is no longer than the input, and
    sanitizing it again changes nothing. *)
Theorem sanitize_short_title_is_clean (filename : list N) :
  len filename <= 100 ->
  strip (Utils.sanitize_filename filename) = Utils.sanitize_filename filename
  /\ len (Utils.sanitize_filename filename) <= len filename
  /\ Utils.sanitize_filename (Utils.sanitize_filename filename)
     = Utils.sanitize_filename filename.
Proof.
  intros Hshort.
  destruct (stripped_text_is_clean filename) as [Hvalid [Hspaced Hlen]].
  rewrite (sanitize_short _ Hshort).
  set (clean := strip (Utils.sub_spaces (Utils.sub_invalid filename))) in *.
  simpl in Hvalid, Hspaced, Hlen.
  assert (Hclean_short : len clean <= 100) by (unfold len in *; lia).
  split; [apply strip_idem |].
  split; [unfold len in *; lia |].
  rewrite (sanitize_short _ Hclean_short).
  rewrite (sub_invalid_fixed _ Hvalid).
  unfold Utils.sub_spaces. rewrite (collapse_fixed _ _ Hspaced).
  apply strip_idem.
Qed.

Lemma sanitize_short_title_witness :
  let title := py "  My  talk: part 1 " in
  len title <= 100
  /\ Utils.sanitize_filename title = py "My talk_ part 1"
  /\ strip (Utils.sanitize_filename title) = Utils.sanitize_filename title
  /\ Utils.sanitize_filename (Utils.sanitize_filename title)
     = Utils.sanitize_filename title.
Proof.
  assert (Hshort : len (py "  My  talk: part 1 ") <= 100)
    by (vm_compute; discriminate).
  destruct (sanitize_short_title_is_clean _ Hshort) as [H1 [_ H2]].
  split; [exact Hshort | split; [reflexivity | split; [exact H1 | exact H2]]].
Defined.

(** ** utils.py: URL validation *)

(** X3.  The patterns are searched, not matched from the start: whatever
    surrounds an accepted string, the whole is accepted too. *)
Theorem validate_accepts_any_superstring (url before after : list N) :
  Utils.validate_youtube_url url = true ->
  Utils.validate_youtube_url (before ++ url ++ after) = true.
Proof.
  unfold Utils.validate_youtube_url. rewrite !existsb_exists.
  intros [pattern [Hin Hfound]]. exists pattern. split; [exact Hin |].
  unfold Utils.re_search in *.
  apply search_lit_spec in Hfound as [b [a Hurl]].
  apply search_lit_spec. exists (before ++ b), (a ++ after).
  rewrite Hurl, <- !app_assoc. reflexivity.
Qed.

Lemma validate_superstring_witness :
  Utils.validate_youtube_url Demo.url = true
  /\ Utils.validate_youtube_url
       (py "ftp://example.org/?next=" ++ Demo.url ++ py "#x") = true.
Proof.
  assert (Hvalid : Utils.validate_youtube_url Demo.url = true)
    by reflexivity.
  split; [exact Hvalid |].
  exact (validate_accepts_any_superstring _ _ _ Hvalid).
Defined.

(** ** utils.py: cleanup, again *)

(** An entry whose removal is refused survives the loop, whatever the
    list of paths. *)
Lemma cleanup_loop_keeps
    (e : env) (l : list (list N)) (w : world) (q : list N) (n : node) :
  fs w !! q = Some n -> Utils.can_unlink e q n = false ->
  fs (snd (Utils.for_each l (Utils.unlink_or_warn e) w)) !! q = Some n.
Proof.
  revert w. induction l as [| p l IH]; intros w Hq Hcan; [exact Hq |].
  cbn [Utils.for_each]. unfold bind at 1.
  destruct (fs w !! p) as [m |] eqn:Hp.
  - destruct (Utils.can_unlink e p m) eqn:Hpm.
    + rewrite (unlink_or_warn_removed _ _ _ _ Hp Hpm).
      apply IH; [| exact Hcan]. simpl.
      rewrite lookup_delete_ne; [exact Hq |].
      intros ->. rewrite Hq in Hp. injection Hp as <-. congruence.
    + rewrite (unlink_or_warn_kept e p w) by (rewrite Hp; exact Hpm).
      apply IH; [exact Hq | exact Hcan].
  - rewrite (unlink_or_warn_kept e p w) by (rewrite Hp; exact I).
    apply IH; [exact Hq | exact Hcan].
Qed.

Lemma cleanup_without_dir (e : env) (w : world) :
  fs w !! Utils.temp_dir = None ->
  Utils.cleanup_temp_files e w = (Ret tt, w).
Proof.
  intros Hnone. unfold Utils.cleanup_temp_files, bind, path_exists.
  rewrite Hnone. reflexivity.
Qed.

Lemma cleanup_with_dir (e : env) (w : world) (d : node) :
  fs w !! Utils.temp_dir = Some d ->
  Utils.cleanup_temp_files e w
  = Utils.for_each (Utils.glob_temp (fs w)) (Utils.unlink_or_warn e) w.
Proof.
  intros Hdir. unfold Utils.cleanup_temp_files, bind, path_exists.
  rewrite Hdir. reflexivity.
Qed.

(** X4.  Cleaning twice leaves the same files as cleaning once: what the
    first pass could not remove, the second cannot either, and nothing
    else is touched. *)
Theorem cleanup_is_idempotent (e : env) (w : world) :
  fs (snd (Utils.cleanup_temp_files e
             (snd (Utils.cleanup_temp_files e w))))
  = fs (snd (Utils.cleanup_temp_files e w)).
Proof.
  destruct (cleanup_temp_files_spec e w)
    as [w1 [Hrun1 [Hsub1 [Hout1 [Hin1 _]]]]].
  rewrite Hrun1. simpl.
  destruct (cleanup_temp_files_spec e w1)
    as [w2 [Hrun2 [Hsub2 [Hout2 _]]]].
  rewrite Hrun2. simpl.
  apply map_eq. intros q.
  destruct (fs w1 !! q) as [n |] eqn:E1.
  - destruct (Utils.in_temp_dir q) eqn:Hq; [| rewrite Hout2; assumption].
    assert (Hdir : fs w1 !! Utils.temp_dir = fs w !! Utils.temp_dir)
      by (apply Hout1; reflexivity).
    destruct (fs w !! Utils.temp_dir) as [d |] eqn:Hd.
    + assert (Hcan : Utils.can_unlink e q n = false)
        by (apply Hin1; [eauto | exact Hq | exact E1]).
      rewrite (cleanup_with_dir _ _ _ Hdir) in Hrun2.
      pose proof (cleanup_loop_keeps e (Utils.glob_temp (fs w1)) w1 q n
                    E1 Hcan) as Hkept.
      rewrite Hrun2 in Hkept. exact Hkept.
    + rewrite (cleanup_without_dir _ _ Hdir) in Hrun2.
      injection Hrun2 as <-. exact E1.
  - destruct (fs w2 !! q) as [n |] eqn:E2; [| reflexivity].
    apply Hsub2 in E2. congruence.
Qed.

Lemma cleanup_empties_temp_dir_witness :
  let w := Demo.with_file Demo.downloaded 5000000 in
  let e := Demo.broken_ffmpeg in
  is_Some (fs w !! Utils.temp_dir)
  /\ fs w !! Demo.downloaded = Some (Node Regular 5000000)
  /\ (forall q, Utils.in_temp_dir q = true ->
                fs (snd (Utils.cleanup_temp_files e w)) !! q = None).
Proof.
  assert (Hdir : is_Some (fs (Demo.with_file Demo.downloaded 5000000)
                            !! Utils.temp_dir))
    by (eexists; vm_compute; reflexivity).
  split; [exact Hdir | split; [vm_compute; reflexivity |]].
  apply (cleanup_empties_temp_dir Demo.broken_ffmpeg _ Hdir).
  - intros q. reflexivity.
  - intros q n Hq. unfold Demo.with_file, Demo.fresh. simpl.
    rewrite lookup_insert. case_decide as Hpath.
    + intros Hn. injection Hn as <-. reflexivity.
    + rewrite lookup_insert. case_decide as Htemp.
      * subst q. discriminate Hq.
      * rewrite lookup_empty. discriminate.
Defined.

(** ** utils.py: durations *)

Lemma fmt02d_two_digits (n : N) :
  n < 100 -> two_digits (Utils.fmt02d n) = true.
Proof.
  intros Hn.
  assert (Hall : forallb (fun k => two_digits (Utils.fmt02d k))
                   (List.map N.of_nat (seq 0 100)) = true)
    by (vm_compute; reflexivity).
  rewrite forallb_forall in Hall. apply Hall.
  apply in_map_iff. exists (N.to_nat n). split; [lia |].
  apply in_seq. lia.
Qed.

(** X6.  Below one hour the duration reads MM:SS, from one hour up to a
    hundred hours HH:MM:SS, every field two decimal digits. *)
Theorem format_duration_shape (seconds : N) :
  (seconds < 3600 ->
   exists m s,
     Utils.format_duration seconds = m ++ 58 :: s
     /\ two_digits m = true /\ two_digits s = true)
  /\ (3600 <= seconds -> seconds < 360000 ->
      exists h m s,
        Utils.format_duration seconds = h ++ 58 :: m ++ 58 :: s
        /\ two_digits h = true /\ two_digits m = true
        /\ two_digits s = true).
Proof.
  unfold Utils.format_duration. split.
  - intros Hshort.
    assert (Hhours : seconds / 3600 = 0) by (apply N.div_small; exact Hshort).
    rewrite Hhours. simpl.
    exists (Utils.fmt02d (seconds mod 3600 / 60)),
      (Utils.fmt02d (seconds mod 60)).
    split; [reflexivity |]. split; apply fmt02d_two_digits.
    + apply N.Div0.div_lt_upper_bound.
      pose proof (N.mod_upper_bound seconds 3600). lia.
    + pose proof (N.mod_upper_bound seconds 60). lia.
  - intros Hlong Hbound.
    assert (Hhours : 0 < seconds / 3600).
    { apply N.div_str_pos. lia. }
    apply N.ltb_lt in Hhours. rewrite Hhours.
    exists (Utils.fmt02d (seconds / 3600)),
      (Utils.fmt02d (seconds mod 3600 / 60)),
      (Utils.fmt02d (seconds mod 60)).
    split; [reflexivity |]. split; [| split]; apply fmt02d_two_digits.
    + apply N.Div0.div_lt_upper_bound. lia.
    + apply N.Div0.div_lt_upper_bound.
      pose proof (N.mod_upper_bound seconds 3600). lia.
    + pose proof (N.mod_upper_bound seconds 60). lia.
Qed.

Lemma format_duration_shape_witness :
  59 < 3600
  /\ (exists m s,
        Utils.format_duration 59 = m ++ 58 :: s
        /\ two_digits m = true /\ two_digits s = true)
  /\ 3600 <= 3725 /\ 3725 < 360000
  /\ (exists h m s,
        Utils.format_duration 3725 = h ++ 58 :: m ++ 58 :: s
        /\ two_digits h = true /\ two_digits m = true
        /\ two_digits s = true).
Proof.
  assert (H1 : 59 < 3600) by lia.
  assert (H2 : 3600 <= 3725) by lia.
  assert (H3 : 3725 < 360000) by lia.
  split; [exact H1 |].
  split; [exact (proj1 (format_duration_shape 59) H1) |].
  split; [exact H2 | split; [exact H3 |]].
  exact (proj2 (format_duration_shape 3725) H2 H3).
Defined.

(** ** utils.py and the constructors: startup *)

Lemma dir_names_differ : py "temp_files" <> py "output".
Proof. vm_compute. discriminate. Qed.

Lemma mkdir_fresh (p : str) (w : world) :
  fs w !! p = None ->
  Main.mkdir p w
  = (Ret tt, World (<[p := Node Directory 0]> (fs w)) (trace w)).
Proof. intros H. unfold Main.mkdir, write_node. rewrite H. reflexivity. Qed.

Lemma mkdir_existing (p : str) (w : world) (n : node) :
  fs w !! p = Some n -> node_kind n = Directory ->
  Main.mkdir p w = (Ret tt, w).
Proof. intros H Hk. unfold Main.mkdir. rewrite H, Hk. reflexivity. Qed.

Lemma mkdir_on_file (p : str) (w : world) (n : node) :
  fs w !! p = Some n -> node_kind n = Regular ->
  Main.mkdir p w = (Raise Exception, w).
Proof. intros H Hk. unfold Main.mkdir. rewrite H, Hk. reflexivity. Qed.

(** What one [mkdir(exist_ok=True)] does when the name is free or a
    directory: it returns, the name is a directory afterwards, every
    entry that existed is kept as it was, no other name appears, the
    trace is untouched, and doing it again changes nothing. *)
Lemma mkdir_spec (p : str) (w : world) :
  (forall n, fs w !! p = Some n -> node_kind n = Directory) ->
  exists w',
    Main.mkdir p w = (Ret tt, w')
    /\ (exists n, fs w' !! p = Some n /\ node_kind n = Directory)
    /\ (forall q n, fs w !! q = Some n -> fs w' !! q = Some n)
    /\ (forall q, q <> p -> fs w' !! q = fs w !! q)
    /\ trace w' = trace w.
Proof.
  intros Hdir.
  destruct (fs w !! p) as [n |] eqn:Hp.
  - rewrite (mkdir_existing _ _ _ Hp (Hdir _ eq_refl)).
    exists w. split; [reflexivity |].
    split; [exists n; split; [exact Hp | exact (Hdir _ eq_refl)] |].
    split; [tauto |]. split; reflexivity.
  - rewrite (mkdir_fresh _ _ Hp). eexists. split; [reflexivity |]. simpl.
    split; [exists (Node Directory 0); rewrite lookup_insert_eq;
            split; reflexivity |].
    split; [| split; [| reflexivity]].
    + intros q n Hq. rewrite lookup_insert_ne; [exact Hq |].
      intros ->. congruence.
    + intros q Hne. apply lookup_insert_ne. congruence.
Qed.


(** X7.  When neither [temp_files] nor [output] names a regular file,
    [create_directories] returns, both are directories afterwards, every
    existing entry is kept, no other path appears, and a second call
    changes nothing at all. *)
Theorem create_directories_postcondition (w : world) :
  (forall n, fs w !! py "temp_files" = Some n -> node_kind n = Directory) ->
  (forall n, fs w !! py "output" = Some n -> node_kind n = Directory) ->
  exists w',
    Startup.create_directories w = (Ret tt, w')
    /\ (exists n, fs w' !! py "temp_files" = Some n
                  /\ node_kind n = Directory)
    /\ (exists n, fs w' !! py "output" = Some n /\ node_kind n = Directory)
    /\ (forall q n, fs w !! q = Some n -> fs w' !! q = Some n)
    /\ (forall q, q <> py "temp_files" -> q <> py "output" ->
                  fs w' !! q = fs w !! q)
    /\ trace w' = trace w
    /\ Startup.create_directories w' = (Ret tt, w').
Proof.
  intros Htemp Hout.
  destruct (mkdir_spec (py "temp_files") w Htemp)
    as [w1 [Hrun1 [[d1 [Hd1 Hk1]] [Hkeep1 [Hother1 Htr1]]]]].
  assert (Hout1 : forall n, fs w1 !! py "output" = Some n ->
                            node_kind n = Directory).
  { intros n Hn. apply Hout. rewrite <- Hn. symmetry. apply Hother1.
    intros H. exact (dir_names_differ (eq_sym H)). }
  destruct (mkdir_spec (py "output") w1 Hout1)
    as [w2 [Hrun2 [[d2 [Hd2 Hk2]] [Hkeep2 [Hother2 Htr2]]]]].
  exists w2.
  assert (Hrun : Startup.create_directories w = (Ret tt, w2)).
  { unfold Startup.create_directories. cbn [Utils.for_each].
    unfold bind. rewrite Hrun1, Hrun2. reflexivity. }
  split; [exact Hrun |].
  split; [exists d1; split; [apply Hkeep2; exact Hd1 | exact Hk1] |].
  split; [exists d2; split; [exact Hd2 | exact Hk2] |].
  split; [intros q n Hq; apply Hkeep2, Hkeep1; exact Hq |].
  split; [intros q H1 H2; rewrite Hother2, Hother1 by assumption;
          reflexivity |].
  split; [congruence |].
  unfold Startup.create_directories. cbn [Utils.for_each]. unfold bind.
  rewrite (mkdir_existing _ _ d1 (Hkeep2 _ _ Hd1) Hk1).
  rewrite (mkdir_existing _ _ d2 Hd2 Hk2). reflexivity.
Qed.

Lemma create_directories_witness :
  let w := World ∅ [] in
  (forall n, fs w !! py "temp_files" = Some n -> node_kind n = Directory)
  /\ (forall n, fs w !! py "output" = Some n -> node_kind n = Directory)
  /\ exists w',
       Startup.create_directories w = (Ret tt, w')
       /\ (exists n, fs w' !! py "temp_files" = Some n
                     /\ node_kind n = Directory)
       /\ Startup.create_directories w' = (Ret tt, w').
Proof.
  assert (H1 : forall n, fs (World ∅ []) !! py "temp_files" = Some n ->
                         node_kind n = Directory)
    by (intros n H; simpl in H; rewrite lookup_empty in H; discriminate H).
  assert (H2 : forall n, fs (World ∅ []) !! py "output" = Some n ->
                         node_kind n = Directory)
    by (intros n H; simpl in H; rewrite lookup_empty in H; discriminate H).
  split; [exact H1 | split; [exact H2 |]].
  destruct (create_directories_postcondition (World ∅ []) H1 H2)
    as [w' [Hrun [Htemp [_ [_ [_ [_ Hagain]]]]]]].
  exists w'. split; [exact Hrun | split; [exact Htemp | exact Hagain]].
Defined.

(** X8.  A regular file in the place of [temp_files] makes
    [create_directories] raise before [output] is looked at: the world
    is unchanged, and so is it when the file is in the place of
    [output] and [temp_files] is already a directory. *)
Theorem create_directories_blocked_by_file (w : world) (n : node) :
  node_kind n = Regular ->
  (fs w !! py "temp_files" = Some n ->
   Startup.create_directories w = (Raise Exception, w))
  /\ (fs w !! py "output" = Some n ->
      (exists d, fs w !! py "temp_files" = Some d
                 /\ node_kind d = Directory) ->
      Startup.create_directories w = (Raise Exception, w)).
Proof.
  intros Hfile. unfold Startup.create_directories. cbn [Utils.for_each].
  unfold bind. split.
  - intros Htemp. rewrite (mkdir_on_file _ _ _ Htemp Hfile). reflexivity.
  - intros Hout [d [Hd Hk]].
    rewrite (mkdir_existing _ _ _ Hd Hk), (mkdir_on_file _ _ _ Hout Hfile).
    reflexivity.
Qed.

Lemma create_directories_blocked_witness :
  let w := World (<[py "temp_files" := Node Regular 12]> ∅) [] in
  node_kind (Node Regular 12) = Regular
  /\ fs w !! py "temp_files" = Some (Node Regular 12)
  /\ Startup.create_directories w = (Raise Exception, w).
Proof.
  assert (Hn : fs (World (<[py "temp_files" := Node Regular 12]> ∅) [])
                 !! py "temp_files" = Some (Node Regular 12))
    by (vm_compute; reflexivity).
  split; [reflexivity | split; [exact Hn |]].
  exact (proj1 (create_directories_blocked_by_file _ (Node Regular 12)
                  eq_refl) Hn).
Defined.



(** ** downloader.py *)

(** X10.  [get_video_info] only reads: the world is unchanged whatever the
    platform answers.  A description comes back whole when it has at
    most 200 characters, and cut to its first 200 characters followed by
    three dots otherwise, so never longer than 203. *)
Theorem get_video_info_description_bounded
    (e : env) (url : str) (w : world) :
  snd (Downloader.get_video_info e url w) = w
  /\ forall info,
       fst (Downloader.get_video_info e url w) = Ret (Some info) ->
       exists yt,
         YouTube e url = Ret yt
         /\ Downloader.title info = yt_title yt
         /\ len (Downloader.description info) <= 203
         /\ (len (yt_description yt) <= 200 ->
             Downloader.description info = yt_description yt)
         /\ (200 < len (yt_description yt) ->
             Downloader.description info
             = slice_to 200 (yt_description yt) ++ py "..."
             /\ len (Downloader.description info) = 203).
Proof.
  unfold Downloader.get_video_info, try_except, bind, lift, ret.
  destruct (YouTube e url) as [yt | []] eqn:Hyt; simpl;
    (split; [reflexivity |]); intros info Hinfo; try discriminate Hinfo.
  injection Hinfo as <-. exists yt. simpl.
  split; [reflexivity | split; [reflexivity |]].
  destruct (200 <? len (yt_description yt)) eqn:Hlong.
  - apply N.ltb_lt in Hlong.
    assert (Hlen : len (slice_to 200 (yt_description yt) ++ py "...") = 203).
    { unfold len. rewrite length_app.
      change (length (py "...")) with 3%nat.
      pose proof (slice_to_length 200 (yt_description yt)) as Hs.
      unfold len in *. lia. }
    split; [lia | split; [lia | intros _; split; [reflexivity | exact Hlen]]].
  - apply N.ltb_ge in Hlong.
    split; [lia | split; [reflexivity | lia]].
Qed.

Lemma get_video_info_witness :
  let e :=
    {| YouTube := fun _ =>
         Ret (Video (py "t") 1 (py "a") 2 Cases.long_description None);
       ffmpeg_run := fun _ _ _ _ => NoOutput;
       upload_file := fun _ => Ret 1;
       generate_content := fun _ _ => Raise Exception;
       delete_file := fun _ => Ret tt;
       strftime := fun _ => [];
       open_w := fun _ => Written 2048;
       unlink_denied := fun _ => false;
     unsearchable := fun _ => false |} in
  exists info,
    fst (Downloader.get_video_info e Demo.url Demo.fresh) = Ret (Some info)
    /\ len (Downloader.description info) = 203.
Proof.
  intros e.
  assert (Hrun : fst (Downloader.get_video_info e Demo.url Demo.fresh)
                 = Ret (Some _)) by reflexivity.
  eexists. split; [exact Hrun |].
  destruct (proj2 (get_video_info_description_bounded e Demo.url Demo.fresh)
              _ Hrun) as [yt [Hyt [_ [_ [_ Hlong]]]]].
  injection Hyt as <-.
  apply Hlong. vm_compute. reflexivity.
Defined.

Lemma sanitize_valid_chars (filename : list N) (c : N) :
  In c (Utils.sanitize_filename filename) -> Utils.is_invalid c = false.
Proof.
  intros Hc.
  apply (proj1 (stripped_text_is_clean filename)).
  unfold Utils.sanitize_filename, slice_to in Hc.
  rewrite <- (take_drop 100 (strip _)).
  apply in_or_app. left. exact Hc.
Qed.

Lemma existsb_app_false {A} (f : A -> bool) (l1 l2 : list A) :
  existsb f l1 = false -> existsb f l2 = false ->
  existsb f (l1 ++ l2) = false.
Proof. intros H1 H2. rewrite existsb_app, H1, H2. reflexivity. Qed.

Lemma no_slash_of_valid (l : list N) :
  (forall c, In c l -> Utils.is_invalid c = false) ->
  existsb (N.eqb 47) l = false.
Proof.
  intros Hvalid.
  destruct (existsb (N.eqb 47) l) eqn:E; [| reflexivity].
  apply existsb_exists in E as [c [Hc Heq]].
  apply N.eqb_eq in Heq. subst c.
  specialize (Hvalid _ Hc). discriminate Hvalid.
Qed.

(** A non-empty name without a slash, joined to [temp_files], is an
    entry of that directory. *)
Lemma in_temp_dir_join (name : list N) :
  name <> [] -> existsb (N.eqb 47) name = false ->
  Utils.in_temp_dir (path_join Utils.temp_dir name) = true.
Proof.
  intros Hne Hslash. unfold Utils.in_temp_dir, path_join.
  apply andb_true_iff. split.
  - apply starts_with_spec. exists name.
    rewrite <- app_assoc. reflexivity.
  - replace (drop (length Utils.temp_dir + 1) (Utils.temp_dir ++ 47 :: name))
      with name.
    + destruct name; [congruence |]. rewrite Hslash. reflexivity.
    + replace (Utils.temp_dir ++ 47 :: name)
        with ((Utils.temp_dir ++ [47]) ++ name)
        by (rewrite <- app_assoc; reflexivity).
      rewrite drop_app_length'; [reflexivity |].
      rewrite length_app. reflexivity.
Qed.

(** X11.  What [download_audio] decides by itself.  It returns [None]
    and leaves the world as it was when the platform raises for the URL
    and when the video has no audio-only stream; it returns [None] when
    the download raises; it lets nothing but an exception outside
    [Exception] out.  A path is returned only for a video with an
    audio-only stream whose download went through, and it is the path
    the download gave, not changed. *)
Theorem download_audio_failures (e : env) (url : str) (w : world) :
  (YouTube e url = Raise Exception ->
   Downloader.download_audio e url w = (Ret None, w))
  /\ (forall yt,
        YouTube e url = Ret yt -> yt_first_audio yt = None ->
        Downloader.download_audio e url w = (Ret None, w))
  /\ (forall yt s,
        YouTube e url = Ret yt -> yt_first_audio yt = Some s ->
        download_result s = Raise Exception ->
        fst (Downloader.download_audio e url w) = Ret None)
  /\ fst (Downloader.download_audio e url w) <> Raise Exception
  /\ (forall p w',
        Downloader.download_audio e url w = (Ret (Some p), w') ->
        exists yt s,
          YouTube e url = Ret yt
          /\ yt_first_audio yt = Some s
          /\ download_result s = Ret tt
          /\ Downloader.stream_download s Downloader.output_dir
               (Downloader.audio_filename (yt_title yt) s) w
             = (Ret p, w')).
Proof.
  split; [| split; [| split; [| split]]].
  - intros Hyt.
    unfold Downloader.download_audio, try_except, bind, lift.
    rewrite Hyt. reflexivity.
  - intros yt Hyt Hnone.
    unfold Downloader.download_audio, try_except, bind, lift.
    rewrite Hyt, Hnone. reflexivity.
  - intros yt s Hyt Hs Hfail.
    unfold Downloader.download_audio, try_except, bind, lift.
    rewrite Hyt, Hs.
    unfold Downloader.stream_download, bind, lift. rewrite Hfail.
    reflexivity.
  - apply try_except_ret_total.
  - intros p w'.
    unfold Downloader.download_audio, try_except, bind, lift.
    destruct (YouTube e url) as [yt | []] eqn:Hyt; try discriminate.
    destruct (yt_first_audio yt) as [s |] eqn:Hs; [| discriminate].
    destruct (Downloader.stream_download s Downloader.output_dir
                (Downloader.audio_filename (yt_title yt) s) w)
      as [[path | []] w1] eqn:Hdl; try discriminate.
    unfold ret. intros H. injection H as <- <-.
    exists yt, s. split; [reflexivity | split; [exact Hs |]].
    split; [| exact Hdl].
    unfold Downloader.stream_download, bind, lift in Hdl.
    destruct (download_result s) as [[] | []];
      [reflexivity | discriminate Hdl | discriminate Hdl].
Qed.

Lemma download_audio_witness :
  YouTube Cases.no_audio Demo.url = Ret Cases.silent
  /\ yt_first_audio Cases.silent = None
  /\ Downloader.download_audio Cases.no_audio Demo.url Demo.fresh
     = (Ret None, Demo.fresh).
Proof.
  assert (Hyt : YouTube Cases.no_audio Demo.url = Ret Cases.silent)
    by reflexivity.
  assert (Hnone : yt_first_audio Cases.silent = None) by reflexivity.
  split; [exact Hyt | split; [exact Hnone |]].
  exact (proj1 (proj2 (download_audio_failures Cases.no_audio Demo.url
                         Demo.fresh)) Cases.silent Hyt Hnone).
Defined.

(** X12.  The percentage reported while downloading: for a stream of
    positive size and a remainder within it, a value between 0 and 100,
    which is 100 exactly when nothing remains and does not decrease as
    the remainder shrinks; a stream of size zero raises.  The bound on
    the size is the range in which the floating-point result has these
    properties too: there the quotient of a positive remainder rounds
    below 1. *)
Theorem on_progress_percentage_bounds (total_size r1 r2 : N) :
  0 < total_size -> total_size < 2 ^ 53 -> r2 <= r1 -> r1 <= total_size ->
  exists p1 p2,
    Progress.on_progress total_size r1 = Ret p1
    /\ Progress.on_progress total_size r2 = Ret p2
    /\ (0 <= p1)%Q /\ (p1 <= p2)%Q /\ (p2 <= 100)%Q
    /\ ((p2 == 100)%Q <-> r2 = 0)
    /\ Progress.on_progress 0 r1 = Raise Exception.
Proof.
  intros Hpos _ H21 H1.
  unfold Progress.on_progress.
  destruct (total_size =? 0) eqn:Hz; [apply N.eqb_eq in Hz; lia |].
  eexists. eexists. split; [reflexivity | split; [reflexivity |]].
  destruct total_size as [| t]; [lia |].
  unfold Qle, Qeq, Qdiv, Qmult, Qinv, inject_Z. simpl.
  split; [nia | split; [nia | split; [nia |]]].
  split; [| reflexivity].
  split; intros H; nia.
Qed.

Lemma on_progress_witness :
  0 < 2000 /\ 2000 < 2 ^ 53 /\ 500 <= 1500 /\ 1500 <= 2000
  /\ Progress.on_progress 2000 1500 = Ret (inject_Z 500 / inject_Z 2000 * 100)%Q
  /\ exists p1 p2,
       Progress.on_progress 2000 1500 = Ret p1
       /\ Progress.on_progress 2000 500 = Ret p2
       /\ (p1 <= p2)%Q /\ (p2 <= 100)%Q.
Proof.
  assert (H0 : 0 < 2000) by lia.
  assert (Hsize : 2000 < 2 ^ 53) by reflexivity.
  assert (H1 : 500 <= 1500) by lia.
  assert (H2 : 1500 <= 2000) by lia.
  split; [exact H0 | split; [exact Hsize |]].
  split; [exact H1 | split; [exact H2 |]].
  split; [reflexivity |].
  destruct (on_progress_percentage_bounds 2000 1500 500 H0 Hsize H1 H2)
    as [p1 [p2 [Ha [Hb [_ [Hle [Hmax _]]]]]]].
  exists p1, p2. split; [exact Ha | split; [exact Hb |]].
  split; [exact Hle | exact Hmax].
Defined.

(** ** converter.py *)

Lemma split_slash_no_slash (s cur part : list N) :
  (forall c, In c cur -> c <> 47) ->
  In part (split_slash s cur) ->
  forall c, In c part -> c <> 47.
Proof.
  revert cur. induction s as [| a s IH]; intros cur Hcur; simpl.
  - intros [<- | []] c Hc. apply Hcur. apply in_rev. exact Hc.
  - destruct (a =? 47) eqn:Ha.
    + intros [<- | Hin] c Hc.
      * apply Hcur. apply in_rev. exact Hc.
      * exact (IH [] (fun _ H => match H with end) Hin c Hc).
    + apply N.eqb_neq in Ha. apply IH.
      intros c [<- | Hc]; [exact Ha | exact (Hcur _ Hc)].
Qed.

Lemma last_in_or_default {A} (l : list A) (d : A) :
  List.last l d = d \/ In (List.last l d) l.
Proof.
  induction l as [| a l IH]; [left; reflexivity |].
  destruct l as [| b l]; [right; left; reflexivity |].
  destruct IH as [IH | IH].
  - change (List.last (a :: b :: l) d) with (List.last (b :: l) d).
    rewrite IH. left. reflexivity.
  - right. right. exact IH.
Qed.

Lemma path_name_no_slash (p : list N) (c : N) :
  In c (path_name p) -> c <> 47.
Proof.
  unfold path_name, parts.
  destruct (last_in_or_default
              (List.filter (fun part => negb (is_dot_or_empty part))
                 (split_slash p [])) []) as [-> | Hin].
  - intros [].
  - apply filter_In in Hin as [Hin _].
    apply (split_slash_no_slash p [] _ (fun _ H => match H with end) Hin).
Qed.

Lemma path_stem_no_slash (p : list N) :
  existsb (N.eqb 47) (path_stem p) = false.
Proof.
  destruct (existsb (N.eqb 47) (path_stem p)) eqn:E; [| reflexivity].
  apply existsb_exists in E as [c [Hc Heq]].
  apply N.eqb_eq in Heq. subst c. exfalso.
  apply (path_name_no_slash p 47); [| reflexivity].
  unfold path_stem in Hc.
  destruct (suffix_index (path_name p)) as [i |]; [| exact Hc].
  rewrite <- (take_drop (N.to_nat i) (path_name p)).
  apply in_or_app. left. exact Hc.
Qed.

(** X13.  Whatever the input path, the files the converter writes are
    entries of [temp_files]: the stem of a path has no slash, so the
    output name stays inside the directory where the cleanup looks. *)
Theorem converter_outputs_are_temp_entries (input_path : list N) :
  Utils.in_temp_dir (gemini_output_path input_path) = true
  /\ Utils.in_temp_dir (wav_output_path input_path) = true
  /\ gemini_output_path input_path <> wav_output_path input_path.
Proof.
  unfold gemini_output_path, wav_output_path.
  change Converter.output_dir with Utils.temp_dir.
  split; [| split].
  - apply in_temp_dir_join.
    + destruct (path_stem input_path); discriminate.
    + apply existsb_app_false; [apply path_stem_no_slash | reflexivity].
  - apply in_temp_dir_join.
    + destruct (path_stem input_path); discriminate.
    + apply existsb_app_false; [apply path_stem_no_slash | reflexivity].
  - unfold path_join. intros H.
    apply app_inv_head in H. injection H as H.
    apply app_inv_head in H. vm_compute in H. discriminate H.
Qed.

Lemma ffmpeg_encoded
    (e : env) (args : ffmpeg_args) (input output : str) (w : world)
    (size : N) :
  ffmpeg_run e args input output (fs w) = Encoded size ->
  Converter.ffmpeg e args input output w
  = (Ret tt, World (<[output := Node Regular size]> (fs w))
               (trace w ++ [EFfmpeg input output])).
Proof.
  intros Hrun. unfold Converter.ffmpeg, bind, emit, write_node. simpl.
  rewrite Hrun. reflexivity.
Qed.

Lemma ffmpeg_checked_encoded
    (e : env) (args : ffmpeg_args) (input output : str) (w : world)
    (size : N) :
  ffmpeg_run e args input output (fs w) = Encoded size ->
  Converter.ffmpeg_checked e args input output w
  = (Ret (inl tt), World (<[output := Node Regular size]> (fs w))
                     (trace w ++ [EFfmpeg input output])).
Proof.
  intros Hrun. unfold Converter.ffmpeg_checked, bind, emit. simpl.
  rewrite Hrun. reflexivity.
Qed.

(** X14.  For an existing input that ffmpeg encodes, [convert_to_wav]
    returns the path [temp_files/<stem>_converted.wav], that file now
    exists with the size ffmpeg wrote, nothing else changes, and one
    ffmpeg run is logged; the existence check comes first, so a missing
    input returns [None] with no ffmpeg run at all. *)
Theorem convert_to_wav_success
    (e : env) (input_path : str) (rate : N) (w : world) (n : node)
    (size : N) :
  fs w !! input_path = Some n ->
  ffmpeg_run e (Converter.wav_args rate) input_path
    (wav_output_path input_path) (fs w) = Encoded size ->
  Converter.convert_to_wav e input_path rate w
  = (Ret (Some (wav_output_path input_path)),
     World (<[wav_output_path input_path := Node Regular size]> (fs w))
       (trace w ++ [EFfmpeg input_path (wav_output_path input_path)]))
  /\ forall w0,
       fs w0 !! input_path = None ->
       Converter.convert_to_wav e input_path rate w0 = (Ret None, w0).
Proof.
  intros Hfile Hrun. split.
  - unfold Converter.convert_to_wav.
    fold (wav_output_path input_path).
    unfold bind at 1. unfold try_except. unfold bind at 1.
    rewrite (path_exists_some _ _ _ _ Hfile). simpl.
    unfold bind at 1. rewrite (ffmpeg_checked_encoded _ _ _ _ _ _ Hrun).
    set (w1 := World (<[wav_output_path input_path := Node Regular size]>
                        (fs w))
                 (trace w ++ [EFfmpeg input_path
                                (wav_output_path input_path)])).
    assert (Hout : fs w1 !! wav_output_path input_path
                   = Some (Node Regular size))
      by apply lookup_insert_eq.
    unfold bind at 1. rewrite (path_exists_some _ _ _ _ Hout).
    unfold bind. rewrite (stat_size_some _ _ _ Hout). reflexivity.
  - intros w0 Hnone. unfold Converter.convert_to_wav, try_except, bind.
    unfold path_exists. rewrite Hnone.
    destruct (stat_fails e input_path); reflexivity.
Qed.

Lemma convert_to_wav_witness :
  let e := Demo.backend Demo.long_text (py "a summary") [] in
  let p := Demo.downloaded in
  let w := Demo.with_file p 5000000 in
  fs w !! p = Some (Node Regular 5000000)
  /\ ffmpeg_run e (Converter.wav_args 16000) p (wav_output_path p) (fs w)
     = Encoded 1000000
  /\ Converter.convert_to_wav e p 16000 w
     = (Ret (Some (wav_output_path p)),
        World (<[wav_output_path p := Node Regular 1000000]> (fs w))
          (trace w ++ [EFfmpeg p (wav_output_path p)])).
Proof.
  intros e p w.
  assert (Hfile : fs w !! p = Some (Node Regular 5000000))
    by (vm_compute; reflexivity).
  assert (Hrun : ffmpeg_run e (Converter.wav_args 16000) p
                   (wav_output_path p) (fs w) = Encoded 1000000)
    by reflexivity.
  split; [exact Hfile | split; [exact Hrun |]].
  exact (proj1 (convert_to_wav_success e p 16000 w _ _ Hfile Hrun)).
Defined.

Lemma megabytes_zero (size : N) :
  Qeq_bool (megabytes size) 0 = (size =? 0).
Proof.
  unfold megabytes, Qeq_bool, Qdiv, Qmult, Qinv, inject_Z. simpl.
  destruct size as [| p]; reflexivity.
Qed.

(** What the Gemini routine does after a run of ffmpeg that wrote the
    output: the percentage of reduction is computed against the size of
    the input, so an empty input raises there and the handler answers
    the original path. *)
Lemma gemini_internal_encoded
    (e : env) (input_path : str) (input_size : N) (w : world) (size : N) :
  bool_decide (lower (path_suffix input_path) ∈ Converter.accepted_suffixes)
  && Qle_bool (megabytes input_size) 18 = false ->
  ffmpeg_run e Converter.gemini_args input_path
    (gemini_output_path input_path) (fs w) = Encoded size ->
  Converter._optimize_for_gemini_internal e input_path input_path
    (megabytes input_size) w
  = (Ret (Some (if input_size =? 0 then input_path
                else gemini_output_path input_path)),
     World (<[gemini_output_path input_path := Node Regular size]> (fs w))
       (trace w ++ [EFfmpeg input_path (gemini_output_path input_path)])).
Proof.
  intros Hslow Hrun.
  unfold Converter._optimize_for_gemini_internal. rewrite Hslow.
  fold (gemini_output_path input_path).
  unfold try_except. unfold bind at 1.
  rewrite (ffmpeg_encoded _ _ _ _ _ _ Hrun).
  set (w1 := World (<[gemini_output_path input_path := Node Regular size]>
                      (fs w))
               (trace w ++ [EFfmpeg input_path
                              (gemini_output_path input_path)])).
  assert (Hout : fs w1 !! gemini_output_path input_path
                 = Some (Node Regular size))
    by apply lookup_insert_eq.
  unfold bind at 1. rewrite (path_exists_some _ _ _ _ Hout).
  unfold bind at 1. rewrite (stat_size_some _ _ _ Hout).
  unfold bind, Converter.float_div. rewrite megabytes_zero.
  destruct (input_size =? 0); reflexivity.
Qed.

(** X15.  An existing file outside the zero-cost path that ffmpeg encodes:
    [optimize_for_gemini] returns the optimized path
    [temp_files/<stem>_gemini_optimized.mp3], except for an empty input,
    for which it returns the original path although the optimized file
    has been written. *)
Theorem optimize_for_gemini_encoded
    (e : env) (input_path : str) (w : world) (n : node) (size : N) :
  fs w !! input_path = Some n ->
  bool_decide (lower (path_suffix input_path) ∈ Converter.accepted_suffixes)
  && Qle_bool (megabytes (st_size n)) 18 = false ->
  ffmpeg_run e Converter.gemini_args input_path
    (gemini_output_path input_path) (fs w) = Encoded size ->
  Converter.optimize_for_gemini e input_path w
  = (Ret (Some (if st_size n =? 0 then input_path
                else gemini_output_path input_path)),
     World (<[gemini_output_path input_path := Node Regular size]> (fs w))
       (trace w ++ [EFfmpeg input_path (gemini_output_path input_path)])).
Proof.
  intros Hfile Hslow Hrun.
  unfold Converter.optimize_for_gemini.
  rewrite (optimize_for_whisper_existing _ _ _ _ _ Hfile).
  rewrite gemini_target. unfold try_except.
  rewrite (gemini_internal_encoded _ _ _ _ _ Hslow Hrun). reflexivity.
Qed.

Lemma optimize_for_gemini_encoded_witness :
  let e := Demo.backend Demo.long_text (py "a summary") [] in
  let p := Cases.empty_input in
  let w := Cases.with_empty_file in
  fs w !! p = Some (Node Regular 0)
  /\ ffmpeg_run e Converter.gemini_args p (gemini_output_path p) (fs w)
     = Encoded 1000000
  /\ Converter.optimize_for_gemini e p w
     = (Ret (Some p),
        World (<[gemini_output_path p := Node Regular 1000000]> (fs w))
          (trace w ++ [EFfmpeg p (gemini_output_path p)]))
  /\ Converter.optimize_for_gemini e Demo.downloaded
       (Demo.with_file Demo.downloaded 5000000)
     = (Ret (Some (gemini_output_path Demo.downloaded)),
        World (<[gemini_output_path Demo.downloaded := Node Regular 1000000]>
                 (fs (Demo.with_file Demo.downloaded 5000000)))
          (trace (Demo.with_file Demo.downloaded 5000000)
           ++ [EFfmpeg Demo.downloaded
                 (gemini_output_path Demo.downloaded)])).
Proof.
  intros e p w.
  assert (Hfile : fs w !! p = Some (Node Regular 0))
    by (vm_compute; reflexivity).
  assert (Hrun : ffmpeg_run e Converter.gemini_args p
                   (gemini_output_path p) (fs w) = Encoded 1000000)
    by reflexivity.
  split; [exact Hfile | split; [exact Hrun | split]].
  - refine (optimize_for_gemini_encoded e p w _ _ Hfile _ Hrun).
    vm_compute. reflexivity.
  - refine (optimize_for_gemini_encoded e Demo.downloaded
              (Demo.with_file Demo.downloaded 5000000)
              (Node Regular 5000000) 1000000 _ _ _);
      vm_compute; reflexivity.
Defined.

(** X16.  The path [optimize_for_gemini] returns for an existing input
    always names an existing file, the input itself or the optimized
    file, as long as ffmpeg does not end with an exception outside
    [Exception]; the input file is never removed. *)
Theorem optimize_for_gemini_returns_existing_file
    (e : env) (input_path : str) (w : world) (n : node) :
  fs w !! input_path = Some n ->
  ffmpeg_run e Converter.gemini_args input_path
    (gemini_output_path input_path) (fs w) <> Failed BaseException ->
  exists r w',
    Converter.optimize_for_gemini e input_path w = (Ret (Some r), w')
    /\ (r = input_path \/ r = gemini_output_path input_path)
    /\ is_Some (fs w' !! r)
    /\ is_Some (fs w' !! input_path).
Proof.
  intros Hfile Hbase.
  assert (Hin : is_Some (fs w !! input_path)) by (exists n; exact Hfile).
  unfold Converter.optimize_for_gemini.
  rewrite (optimize_for_whisper_existing _ _ _ _ _ Hfile).
  rewrite gemini_target. unfold try_except.
  destruct (bool_decide (lower (path_suffix input_path)
                         ∈ Converter.accepted_suffixes)
            && Qle_bool (megabytes (st_size n)) 18) eqn:Hfast.
  - unfold Converter._optimize_for_gemini_internal. rewrite Hfast.
    exists input_path, w. split; [reflexivity |].
    split; [left; reflexivity | split; exact Hin].
  - destruct (ffmpeg_run e Converter.gemini_args input_path
                (gemini_output_path input_path) (fs w))
      as [size | | stderr | ex] eqn:Hrun.
    + rewrite (gemini_internal_encoded _ _ _ _ _ Hfast Hrun).
      eexists. eexists. split; [reflexivity |]. cbn [fs].
      assert (Hin' : is_Some
                (<[gemini_output_path input_path := Node Regular size]>
                   (fs w) !! input_path)).
      { destruct (decide (gemini_output_path input_path = input_path))
          as [Heq | Hne].
        - rewrite Heq, lookup_insert_eq. eexists. reflexivity.
        - rewrite lookup_insert_ne by exact Hne. exact Hin. }
      destruct (st_size n =? 0).
      * split; [left; reflexivity | split; exact Hin'].
      * split; [right; reflexivity | split; [| exact Hin']].
        rewrite lookup_insert_eq. eexists. reflexivity.
    + unfold Converter._optimize_for_gemini_internal. rewrite Hfast.
      fold (gemini_output_path input_path).
      unfold try_except. unfold bind at 1.
      unfold Converter.ffmpeg. unfold bind at 1. unfold emit at 1.
      cbn [fs trace]. rewrite Hrun.
      set (w1 := World (fs w)
                   (trace w ++ [EFfmpeg input_path
                                  (gemini_output_path input_path)])).
      destruct (fs w !! gemini_output_path input_path) as [m |] eqn:Hout.
      * assert (Hout1 : fs w1 !! gemini_output_path input_path = Some m)
          by exact Hout.
        unfold bind at 1. rewrite (path_exists_some _ _ _ _ Hout1).
        unfold bind at 1. rewrite (stat_size_some _ _ _ Hout1).
        unfold bind, Converter.float_div.
        destruct (Qeq_bool (megabytes (st_size n)) 0).
        -- exists input_path, w1. split; [reflexivity |].
           split; [left; reflexivity | split; exact Hin].
        -- exists (gemini_output_path input_path), w1.
           split; [reflexivity |].
           split; [right; reflexivity | split; [| exact Hin]].
           exists m. exact Hout.
      * assert (Hout1 : fs w1 !! gemini_output_path input_path = None)
          by exact Hout.
        unfold bind at 1. unfold path_exists. rewrite Hout1.
        destruct (stat_fails e (gemini_output_path input_path));
          (exists input_path, w1; split; [reflexivity |];
           split; [left; reflexivity | split; exact Hin]).
    + unfold Converter._optimize_for_gemini_internal. rewrite Hfast.
      fold (gemini_output_path input_path).
      unfold try_except. unfold bind at 1.
      unfold Converter.ffmpeg. unfold bind at 1. unfold emit at 1.
      cbn [fs trace]. rewrite Hrun.
      eexists. eexists. split; [reflexivity |].
      split; [left; reflexivity | split; exact Hin].
    + unfold Converter._optimize_for_gemini_internal. rewrite Hfast.
      fold (gemini_output_path input_path).
      unfold try_except. unfold bind at 1.
      unfold Converter.ffmpeg. unfold bind at 1. unfold emit at 1.
      cbn [fs trace]. rewrite Hrun.
      destruct ex; [| congruence].
      eexists. eexists. split; [reflexivity |].
      split; [left; reflexivity | split; exact Hin].
Qed.

Lemma optimize_for_gemini_existing_witness :
  let p := Demo.downloaded in
  let w := Demo.with_file p 5000000 in
  fs w !! p = Some (Node Regular 5000000)
  /\ ffmpeg_run Demo.broken_ffmpeg Converter.gemini_args p
       (gemini_output_path p) (fs w) <> Failed BaseException
  /\ exists r w',
       Converter.optimize_for_gemini Demo.broken_ffmpeg p w
       = (Ret (Some r), w')
       /\ is_Some (fs w' !! r).
Proof.
  intros p w.
  assert (Hfile : fs w !! p = Some (Node Regular 5000000))
    by (vm_compute; reflexivity).
  assert (Hbase : ffmpeg_run Demo.broken_ffmpeg Converter.gemini_args p
                    (gemini_output_path p) (fs w) <> Failed BaseException)
    by discriminate.
  split; [exact Hfile | split; [exact Hbase |]].
  destruct (optimize_for_gemini_returns_existing_file Demo.broken_ffmpeg
              p w _ Hfile Hbase) as [r [w' [Hrun [_ [Hr _]]]]].
  exists r, w'. split; [exact Hrun | exact Hr].
Defined.

Lemma whisper_target_failure_witness :
  let p := Demo.downloaded in
  let w := Demo.with_file p 5000000 in
  fs w !! p = Some (Node Regular 5000000)
  /\ lower (py "Whisper") <> py "gemini"
  /\ transcoding_fails Demo.broken_ffmpeg (Converter.wav_args 16000) p
       (wav_output_path p) w = true
  /\ transcoding_fails Cases.garbled_ffmpeg (Converter.wav_args 16000) p
       (wav_output_path p) w = true
  /\ (exists w',
        Converter.optimize_for_whisper Demo.broken_ffmpeg p (py "Whisper") w
        = (Ret None, w')
        /\ fs w' = fs w)
  /\ (exists w',
        Converter.optimize_for_whisper Cases.garbled_ffmpeg p (py "Whisper")
          w
        = (Ret (Some p), w')
        /\ fs w' = fs w).
Proof.
  intros p w.
  assert (Hfile : fs w !! p = Some (Node Regular 5000000))
    by (vm_compute; reflexivity).
  assert (Htarget : lower (py "Whisper") <> py "gemini")
    by (vm_compute; discriminate).
  assert (Hfail : transcoding_fails Demo.broken_ffmpeg
                    (Converter.wav_args 16000) p (wav_output_path p) w
                  = true) by reflexivity.
  assert (Hgarbled : transcoding_fails Cases.garbled_ffmpeg
                       (Converter.wav_args 16000) p (wav_output_path p) w
                     = true) by reflexivity.
  split; [exact Hfile | split; [exact Htarget | split; [exact Hfail |]]].
  split; [exact Hgarbled |].
  split.
  - exact (whisper_target_failure Demo.broken_ffmpeg p (py "Whisper") w _
             Hfile Htarget Hfail).
  - exact (whisper_target_failure Cases.garbled_ffmpeg p (py "Whisper") w _
             Hfile Htarget Hgarbled).
Defined.

(** X18.  [convert_for_compatibility] never answers [None] and never looks
    for the input file: unless ffmpeg ends outside [Exception], it logs
    one run and returns either the output path, which then exists, or
    the input path with the files untouched, even when the input names
    no file. *)
Theorem convert_for_compatibility_never_none
    (e : env)
    (run : str -> str -> str -> gmap (list N) node -> ffmpeg_outcome)
    (input_path target_format : str) (w : world) :
  run target_format input_path
    (Compat.output_path input_path target_format) (fs w)
  <> Failed BaseException ->
  exists r w',
    Compat.convert_for_compatibility e run input_path target_format w
    = (Ret (Some r), w')
    /\ trace w'
       = trace w
         ++ [EFfmpeg input_path
               (Compat.output_path input_path target_format)]
    /\ ((r = Compat.output_path input_path target_format
         /\ is_Some (fs w' !! r))
        \/ (r = input_path /\ fs w' = fs w)).
Proof.
  intros Hbase.
  unfold Compat.convert_for_compatibility.
  set (out := Compat.output_path input_path target_format) in *.
  unfold try_except. unfold bind at 1. unfold emit at 1.
  unfold bind at 1. cbn [fs trace].
  destruct (run target_format input_path out (fs w))
    as [size | | stderr | ex] eqn:Hrun.
  - unfold write_node. cbn [fs trace].
    set (w1 := World (<[out := Node Regular size]> (fs w))
                 (trace w ++ [EFfmpeg input_path out])).
    assert (Hout : fs w1 !! out = Some (Node Regular size))
      by apply lookup_insert_eq.
    unfold bind. rewrite (path_exists_some _ _ _ _ Hout).
    exists out, w1. split; [reflexivity | split; [reflexivity |]].
    left. split; [reflexivity | exists (Node Regular size); exact Hout].
  - set (w1 := World (fs w) (trace w ++ [EFfmpeg input_path out])).
    destruct (fs w !! out) as [m |] eqn:Hout.
    + assert (Hout1 : fs w1 !! out = Some m) by exact Hout.
      unfold bind. rewrite (path_exists_some _ _ _ _ Hout1).
      exists out, w1. split; [reflexivity | split; [reflexivity |]].
      left. split; [reflexivity | exists m; exact Hout].
    + assert (Hout1 : fs w1 !! out = None) by exact Hout.
      unfold bind, path_exists. rewrite Hout1.
      destruct (stat_fails e out);
        (exists input_path, w1;
         split; [reflexivity | split; [reflexivity |]];
         right; split; reflexivity).
  - eexists. eexists. split; [reflexivity | split; [reflexivity |]].
    right. split; reflexivity.
  - destruct ex; [| congruence].
    eexists. eexists. split; [reflexivity | split; [reflexivity |]].
    right. split; reflexivity.
Qed.

Lemma convert_for_compatibility_witness :
  let run := fun (_ _ _ : list N) (_ : gmap (list N) node) =>
               Failed Exception in
  let p := py "temp_files/gone.m4a" in
  run (py "ogg") p (Compat.output_path p (py "ogg")) (fs Demo.fresh)
  <> Failed BaseException
  /\ fs Demo.fresh !! p = None
  /\ exists w',
       Compat.convert_for_compatibility Demo.broken_ffmpeg run p (py "ogg")
         Demo.fresh
       = (Ret (Some p), w')
       /\ fs w' = fs Demo.fresh.
Proof.
  intros run p.
  assert (Hbase : run (py "ogg") p (Compat.output_path p (py "ogg"))
                    (fs Demo.fresh) <> Failed BaseException)
    by discriminate.
  split; [exact Hbase | split; [vm_compute; reflexivity |]].
  destruct (convert_for_compatibility_never_none Demo.broken_ffmpeg run p
              (py "ogg") Demo.fresh Hbase) as [r [w' [Hrun [_ Hcases]]]].
  assert (Hr : Compat.convert_for_compatibility Demo.broken_ffmpeg run p
                 (py "ogg") Demo.fresh
               = (Ret (Some p), World (fs Demo.fresh)
                    (trace Demo.fresh
                     ++ [EFfmpeg p (Compat.output_path p (py "ogg"))])))
    by reflexivity.
  eexists. split; [exact Hr | reflexivity].
Defined.

(** ** transcriber.py *)

(** The start of [transcribe_audio] for an existing file within the
    limit: the body that follows the two checks runs in the handler. *)
Lemma transcribe_audio_within_limit
    (e : env) (audio_path : str) (language source_language : option (list N))
    (w : world) (n : node) :
  fs w !! audio_path = Some n ->
  (megabytes (st_size n) <= 20)%Q ->
  Transcriber.transcribe_audio e audio_path language source_language w
  = try_except
      (let! audio_file_obj := genai_upload e audio_path in
       let prompt :=
         Transcriber._build_transcription_prompt language source_language in
       let! response := genai_generate e prompt (Some audio_file_obj) in
       let! _ := genai_delete e audio_file_obj in
       let! transcript_text := lift (response_text response) in
       ret (Some
              {| Transcriber.text := transcript_text;
                 Transcriber.file_path := audio_path;
                 Transcriber.file_size_mb := megabytes (st_size n);
                 Transcriber.language :=
                   or_default language (py "auto-detectado");
                 Transcriber.source_language := source_language;
                 Transcriber.model_used := py "gemini-1.5-flash" |}))
      (ret None) w.
Proof.
  intros Hfile Hsmall. apply Qle_bool_iff in Hsmall.
  unfold Transcriber.transcribe_audio, try_except. unfold bind at 1.
  rewrite (path_exists_some _ _ _ _ Hfile). cbn [negb].
  unfold bind at 1. rewrite (stat_size_some _ _ _ Hfile).
  rewrite Hsmall. reflexivity.
Qed.

(** X19.  When the backend accepts the upload, generates, deletes its copy
    and the text can be read, [transcribe_audio] returns that text with
    the size of the file, the requested language (or the marker of
    automatic detection) and the source hint, and it has issued exactly
    three requests, in this order: upload, generation with the prompt
    and the uploaded audio, deletion. *)
Theorem transcribe_audio_success
    (e : env) (audio_path : str) (language source_language : option (list N))
    (w : world) (n : node) (handle : N) (resp : response) (t : list N) :
  fs w !! audio_path = Some n ->
  (megabytes (st_size n) <= 20)%Q ->
  upload_file e audio_path = Ret handle ->
  generate_content e
    (Transcriber._build_transcription_prompt language source_language)
    (Some handle) = Ret resp ->
  delete_file e handle = Ret tt ->
  response_text resp = Ret t ->
  Transcriber.transcribe_audio e audio_path language source_language w
  = (Ret (Some
            {| Transcriber.text := t;
               Transcriber.file_path := audio_path;
               Transcriber.file_size_mb := megabytes (st_size n);
               Transcriber.language :=
                 or_default language (py "auto-detectado");
               Transcriber.source_language := source_language;
               Transcriber.model_used := py "gemini-1.5-flash" |}),
     World (fs w)
       (trace w
        ++ [EUpload audio_path;
            EGenerate
              (Transcriber._build_transcription_prompt language
                 source_language) (Some handle);
            EDeleteFile handle])).
Proof.
  intros Hfile Hsmall Hup Hgen Hdel Htext.
  rewrite (transcribe_audio_within_limit _ _ _ _ _ _ Hfile Hsmall).
  unfold try_except, genai_upload, genai_generate, genai_delete, bind,
    emit, lift, ret. cbn [fs trace].
  rewrite Hup, Hgen, Hdel, Htext. rewrite <- !app_assoc. reflexivity.
Qed.

Lemma transcribe_audio_success_witness :
  let e := Demo.backend Demo.long_text (py "a summary") [] in
  let p := py "temp_files/talk.mp3" in
  let w := Demo.with_file p 5000000 in
  fs w !! p = Some (Node Regular 5000000)
  /\ (megabytes 5000000 <= 20)%Q
  /\ exists r,
       Transcriber.transcribe_audio e p (Some (py "pt")) None w
       = (Ret (Some r),
          World (fs w)
            (trace w
             ++ [EUpload p;
                 EGenerate
                   (Transcriber._build_transcription_prompt
                      (Some (py "pt")) None) (Some 1);
                 EDeleteFile 1]))
       /\ Transcriber.text r = Demo.long_text
       /\ Transcriber.language r = py "pt".
Proof.
  intros e p w.
  assert (Hfile : fs w !! p = Some (Node Regular 5000000))
    by (vm_compute; reflexivity).
  assert (Hsmall : (megabytes 5000000 <= 20)%Q)
    by (apply (megabytes_le_iff 5000000 20); lia).
  split; [exact Hfile | split; [exact Hsmall |]].
  eexists. split.
  - exact (transcribe_audio_success e p (Some (py "pt")) None w _ 1
             (Response (Ret Demo.long_text)) Demo.long_text
             Hfile Hsmall eq_refl eq_refl eq_refl eq_refl).
  - split; reflexivity.
Defined.

(** X20.  What goes wrong after the upload.  If generation raises, the call
    returns [None] and no deletion is requested: the uploaded copy stays
    on the backend.  If the deletion raises, the call returns [None]
    although the text was generated.  If reading the text raises, the
    deletion has already been requested. *)
Theorem transcribe_audio_after_upload
    (e : env) (audio_path : str) (language source_language : option (list N))
    (w : world) (n : node) (handle : N) :
  fs w !! audio_path = Some n ->
  (megabytes (st_size n) <= 20)%Q ->
  upload_file e audio_path = Ret handle ->
  let prompt :=
    Transcriber._build_transcription_prompt language source_language in
  let run :=
    Transcriber.transcribe_audio e audio_path language source_language w in
  (generate_content e prompt (Some handle) = Raise Exception ->
   run = (Ret None,
          World (fs w)
            (trace w ++ [EUpload audio_path;
                         EGenerate prompt (Some handle)])))
  /\ (forall resp,
        generate_content e prompt (Some handle) = Ret resp ->
        (delete_file e handle = Raise Exception
         \/ (delete_file e handle = Ret tt
             /\ response_text resp = Raise Exception)) ->
        run = (Ret None,
               World (fs w)
                 (trace w ++ [EUpload audio_path;
                              EGenerate prompt (Some handle);
                              EDeleteFile handle]))).
Proof.
  intros Hfile Hsmall Hup prompt run. unfold run, prompt.
  rewrite (transcribe_audio_within_limit _ _ _ _ _ _ Hfile Hsmall).
  unfold try_except, genai_upload, genai_generate, genai_delete, bind,
    emit, lift, ret. cbn [fs trace]. rewrite Hup.
  split.
  - intros Hgen. rewrite Hgen. rewrite <- !app_assoc. reflexivity.
  - intros resp Hgen [Hdel | [Hdel Htext]]; rewrite Hgen, Hdel;
      rewrite ?Htext; rewrite <- !app_assoc; reflexivity.
Qed.

Lemma transcribe_audio_after_upload_witness :
  let e := Cases.generation_down in
  let p := py "temp_files/talk.mp3" in
  let w := Demo.with_file p 5000000 in
  fs w !! p = Some (Node Regular 5000000)
  /\ (megabytes 5000000 <= 20)%Q
  /\ upload_file e p = Ret 7
  /\ Transcriber.transcribe_audio e p None None w
     = (Ret None,
        World (fs w)
          (trace w ++ [EUpload p;
                       EGenerate Transcriber.prompt_original (Some 7)])).
Proof.
  intros e p w.
  assert (Hfile : fs w !! p = Some (Node Regular 5000000))
    by (vm_compute; reflexivity).
  assert (Hsmall : (megabytes 5000000 <= 20)%Q)
    by (apply (megabytes_le_iff 5000000 20); lia).
  split; [exact Hfile | split; [exact Hsmall | split; [reflexivity |]]].
  exact (proj1 (transcribe_audio_after_upload e p None None w _ 7
                  Hfile Hsmall eq_refl) eq_refl).
Defined.

(** X21.  The prompt and the language directive.  Without a target language
    (absent or empty) the prompt is the plain transcription prompt, and
    the source language plays no part.  With a target language the
    prompt contains the sentence naming it, and the one naming the
    source language too when that is given; a code outside the table is
    used as its own name. *)
Theorem transcription_prompt_follows_directive
    (c : N) (target : list N) (source : option (list N)) :
  Transcriber._build_transcription_prompt None source
  = Transcriber.prompt_original
  /\ Transcriber._build_transcription_prompt (Some []) source
     = Transcriber.prompt_original
  /\ (let name := dict_get lang_names (c :: target) (c :: target) in
      match source with
      | Some (c' :: s) =>
          Shapes.occurs_in
            (py "O áudio está em " ++ dict_get lang_names (c' :: s) (c' :: s)
             ++ py " e deve ser traduzido para " ++ name ++ py ".")
            (Transcriber._build_transcription_prompt (Some (c :: target))
               source)
      | _ =>
          Shapes.occurs_in
            (py "Transcreva e traduza o conteúdo para " ++ name ++ py ".")
            (Transcriber._build_transcription_prompt (Some (c :: target))
               source)
      end)
  /\ dict_get lang_names (py "pt") (py "pt") = py "português brasileiro"
  /\ dict_get lang_names (py "en") (py "en") = py "inglês"
  /\ dict_get lang_names (py "es") (py "es") = py "espanhol"
  /\ dict_get lang_names (py "fr") (py "fr") = py "francês"
  /\ (~ In (c :: target) [py "pt"; py "en"; py "es"; py "fr"] ->
      dict_get lang_names (c :: target) (c :: target) = c :: target).
Proof.
  split; [reflexivity | split; [reflexivity |]].
  split.
  { unfold Transcriber._build_transcription_prompt,
      Transcriber.prompt_translate, Shapes.occurs_in.
    destruct source as [[| c' s] |]; cbv zeta;
      exact (ex_intro _ _ (ex_intro _ _ eq_refl)). }
  split; [vm_compute; reflexivity |].
  split; [vm_compute; reflexivity |].
  split; [vm_compute; reflexivity |].
  split; [vm_compute; reflexivity |].
  intros Hnot. unfold lang_names. cbn [dict_get].
  repeat (rewrite bool_decide_eq_false_2;
          [| intros Heq; apply Hnot; rewrite <- Heq; simpl; tauto]).
  reflexivity.
Qed.

Lemma transcription_prompt_witness :
  ~ In (py "de") [py "pt"; py "en"; py "es"; py "fr"]
  /\ dict_get lang_names (py "de") (py "de") = py "de"
  /\ Shapes.occurs_in
       (py "O áudio está em inglês e deve ser traduzido para de.")
       (Transcriber._build_transcription_prompt (Some (py "de"))
          (Some (py "en"))).
Proof.
  assert (Hnot : ~ In (py "de") [py "pt"; py "en"; py "es"; py "fr"])
    by (vm_compute; intros [H | [H | [H | [H | []]]]]; discriminate H).
  pose proof (transcription_prompt_follows_directive 100 (py "e")
                (Some (py "en"))) as [_ [_ [Hoccurs [_ [_ [_ [_ Hself]]]]]]].
  split; [exact Hnot | split; [exact (Hself Hnot) |]].
  exact Hoccurs.
Defined.

(** ** summarizer.py *)

Lemma truncation_marker_length :
  length Summarizer.truncation_marker = 24%nat.
Proof. reflexivity. Qed.

(** What a successful [create_summary] went through. *)
Lemma create_summary_inv
    (e : env) (model_name text summary_type : str)
    (target_language : option (list N)) (w w' : world)
    (r : Summarizer.summary) :
  Summarizer.create_summary e model_name text summary_type target_language w
  = (Ret (Some r), w') ->
  50 <= len (strip text)
  /\ fs w' = fs w
  /\ Summarizer.original_length r = len (Summarizer.limit_text text)
  /\ Summarizer.model_used r = model_name
  /\ Summarizer.summary_type r = summary_type
  /\ Summarizer.target_language r
     = or_default target_language (py "original").
Proof.
  intros Hrun.
  unfold Summarizer.create_summary, try_except in Hrun.
  destruct (len (strip text) <? 50) eqn:Hmin; [discriminate Hrun |].
  apply N.ltb_ge in Hmin.
  unfold genai_generate, bind, emit, lift in Hrun. cbn [fs trace] in Hrun.
  destruct (generate_content e _ None) as [resp | []];
    try discriminate Hrun.
  destruct (response_text resp) as [s | []]; try discriminate Hrun.
  unfold Summarizer.truediv in Hrun.
  destruct (len (Summarizer.limit_text text) =? 0);
    [discriminate Hrun |].
  unfold ret in Hrun. injection Hrun as <- <-.
  split; [exact Hmin |]. repeat split.
Qed.

(** X22.  The record [create_summary] returns: [original_length] counts the
    text that was sent, so it is the length of the input up to 30,000
    characters and 30,024 beyond (the cut plus the marker), never more;
    the style is recorded as it was asked for, recognized or not; the
    language is the target or the word original; and a result exists
    only for a text of at least 50 trimmed characters.  No file is
    touched. *)
Theorem summary_record_fields
    (e : env) (model_name text summary_type : str)
    (target_language : option (list N)) (w w' : world)
    (r : Summarizer.summary) :
  Summarizer.create_summary e model_name text summary_type target_language w
  = (Ret (Some r), w') ->
  Summarizer.original_length r
  = (if 30000 <? len text then 30024 else len text)
  /\ Summarizer.original_length r <= 30024
  /\ Summarizer.summary_type r = summary_type
  /\ Summarizer.target_language r
     = or_default target_language (py "original")
  /\ Summarizer.model_used r = model_name
  /\ 50 <= len (strip text)
  /\ fs w' = fs w.
Proof.
  intros Hrun.
  destruct (create_summary_inv _ _ _ _ _ _ _ _ Hrun)
    as [Hmin [Hfs [Horig [Hmodel [Hstyle Hlang]]]]].
  assert (Hlen : len (Summarizer.limit_text text)
                 = if 30000 <? len text then 30024 else len text).
  { unfold Summarizer.limit_text, Summarizer.max_chars.
    destruct (30000 <? len text) eqn:Hlong; [| reflexivity].
    apply N.ltb_lt in Hlong. unfold len in *.
    rewrite length_app, truncation_marker_length.
    unfold slice_to. rewrite length_take. lia. }
  rewrite Horig, Hlen.
  split; [reflexivity |].
  split; [destruct (30000 <? len text) eqn:Hlong;
          [lia | apply N.ltb_ge in Hlong; lia] |].
  repeat split; assumption.
Qed.

Lemma summary_record_fields_witness :
  let e := Demo.backend Demo.long_text (py "a summary") [] in
  exists r w',
    Summarizer.create_summary e Summarizer.default_model Demo.huge_text
      (py "haiku") (Some (py "es")) Demo.fresh
    = (Ret (Some r), w')
    /\ Summarizer.original_length r = 30024
    /\ Summarizer.summary_type r = py "haiku"
    /\ Summarizer.target_language r = py "es".
Proof.
  intros e.
  destruct (Summarizer.create_summary e Summarizer.default_model
              Demo.huge_text (py "haiku") (Some (py "es")) Demo.fresh)
    as [[[r |] | ex] w'] eqn:Hrun.
  - exists r, w'. split; [reflexivity |].
    destruct (summary_record_fields _ _ _ _ _ _ _ _ Hrun)
      as [Horig [_ [Hstyle [Hlang _]]]].
    split; [| split; [exact Hstyle | exact Hlang]].
    rewrite Horig. vm_compute. reflexivity.
  - exfalso.
    assert (H : fst (Summarizer.create_summary e Summarizer.default_model
                       Demo.huge_text (py "haiku") (Some (py "es"))
                       Demo.fresh) <> Ret None)
      by (vm_compute; discriminate).
    rewrite Hrun in H. apply H. reflexivity.
  - exfalso.
    assert (H : match fst (Summarizer.create_summary e
                             Summarizer.default_model Demo.huge_text
                             (py "haiku") (Some (py "es")) Demo.fresh)
                with Raise _ => False | _ => True end)
      by (vm_compute; exact I).
    rewrite Hrun in H. exact H.
Defined.

(** X23.  A style outside the three names gets the structured prompt, with
    the same language instruction. *)
Theorem unknown_style_falls_back
    (summary_type : list N) (target_language : option (list N)) :
  ~ In summary_type [py "structured"; py "bullet_points"; py "paragraph"] ->
  Summarizer._get_system_prompt summary_type target_language
  = Summarizer._get_system_prompt (py "structured") target_language
  /\ forall style,
       Shapes.occurs_in (Summarizer.summary_lang_instruction target_language)
         (Summarizer._get_system_prompt style target_language).
Proof.
  intros Hnot. split.
  - unfold Summarizer._get_system_prompt.
    repeat (rewrite (bool_decide_eq_false_2 (summary_type = _));
            [| intros Heq; apply Hnot; rewrite Heq; simpl; tauto]).
    rewrite bool_decide_eq_true_2 by reflexivity. reflexivity.
  - intros style. unfold Summarizer._get_system_prompt.
    repeat case_bool_decide;
      exact (ex_intro _ _ (ex_intro _ _ eq_refl)).
Qed.

Lemma unknown_style_witness :
  ~ In (py "haiku") [py "structured"; py "bullet_points"; py "paragraph"]
  /\ Summarizer._get_system_prompt (py "haiku") (Some (py "fr"))
     = Summarizer._get_system_prompt (py "structured") (Some (py "fr")).
Proof.
  assert (Hnot : ~ In (py "haiku")
                   [py "structured"; py "bullet_points"; py "paragraph"])
    by (vm_compute; intros [H | [H | [H | []]]]; discriminate H).
  split; [exact Hnot |].
  exact (proj1 (unknown_style_falls_back (py "haiku") (Some (py "fr")) Hnot)).
Defined.

(** X24.  [analyze_content] reads the first 5,000 characters and nothing
    else: cutting the text there beforehand changes neither the request
    nor the result. *)
Theorem analyze_reads_first_5000
    (e : env) (model_name text : str) (target_language : option (list N))
    (w : world) :
  Summarizer.analyze_content e model_name text target_language w
  = Summarizer.analyze_content e model_name (slice_to 5000 text)
      target_language w.
Proof.
  unfold Summarizer.analyze_content, Summarizer.analysis_prompt, slice_to.
  rewrite take_take, Nat.min_id. reflexivity.
Qed.

(** ** Failures become [None] *)

(** [convert_to_wav] lets an [Exception] out in one situation only:
    the input exists, ffmpeg raised [ffmpeg.Error], and the handler of
    that error raised while decoding its stderr. *)
Lemma convert_to_wav_raises_iff
    (e : env) (input_path : str) (rate : N) (w : world) :
  fst (Converter.convert_to_wav e input_path rate w) = Raise Exception
  <-> (is_Some (fs w !! input_path)
       /\ exists stderr,
            ffmpeg_run e (Converter.wav_args rate) input_path
              (wav_output_path input_path) (fs w) = FfmpegError stderr
            /\ handler_raises stderr = true).
Proof.
  unfold Converter.convert_to_wav.
  fold (wav_output_path input_path).
  unfold bind at 1. unfold try_except at 1. unfold bind at 1.
  destruct (path_exists_cases e input_path w)
    as [[n [Hp Hex]] | [[Hp [Hs Hex]] | [Hp [Hs Hex]]]]; rewrite Hex.
  - cbn [negb]. unfold bind at 1.
    unfold Converter.ffmpeg_checked. unfold bind at 1. unfold emit at 1.
    cbn [fs trace].
    destruct (ffmpeg_run e (Converter.wav_args rate) input_path
                (wav_output_path input_path) (fs w))
      as [size | | stderr | ex] eqn:Hrun.
    + set (w1 := World (<[wav_output_path input_path := Node Regular size]>
                          (fs w)) _).
      assert (Hout : fs w1 !! wav_output_path input_path
                     = Some (Node Regular size))
        by apply lookup_insert_eq.
      unfold bind at 1. rewrite (path_exists_some _ _ _ _ Hout).
      unfold bind. rewrite (stat_size_some _ _ _ Hout). simpl.
      split; [discriminate |].
      intros [_ [stderr [Habs _]]]. discriminate Habs.
    + set (w1 := World (fs w) _).
      unfold bind at 1.
      destruct (path_exists_cases e (wav_output_path input_path) w1)
        as [[m [Hq Hex']] | [[Hq [Hs' Hex']] | [Hq [Hs' Hex']]]];
        rewrite Hex'.
      * unfold bind. rewrite (stat_size_some _ _ _ Hq). simpl.
        split; [discriminate |].
        intros [_ [stderr [Habs _]]]. discriminate Habs.
      * simpl. split; [discriminate |].
        intros [_ [stderr [Habs _]]]. discriminate Habs.
      * simpl. split; [discriminate |].
        intros [_ [stderr [Habs _]]]. discriminate Habs.
    + unfold Converter.on_ffmpeg_error, handler_raises, ret, raise.
      destruct stderr as [| b stderr]; cbn [fst].
      * split; [discriminate |].
        intros [_ [stderr' [Heq Hraises]]].
        injection Heq as <-. discriminate Hraises.
      * destruct (utf8_valid (b :: stderr)) eqn:Hvalid; cbn [fst negb].
        -- split; [discriminate |].
           intros [_ [stderr' [Heq Hraises]]].
           injection Heq as <-. rewrite Hvalid in Hraises.
           discriminate Hraises.
        -- split; [| reflexivity].
           intros _. split; [exists n; exact Hp |].
           exists (b :: stderr). split; [reflexivity |].
           rewrite Hvalid. reflexivity.
    + destruct ex; simpl.
      * split; [discriminate |].
        intros [_ [stderr [Habs _]]]. discriminate Habs.
      * split; [discriminate |].
        intros [_ [stderr [Habs _]]]. discriminate Habs.
  - simpl. split; [discriminate |].
    intros [[n Hn] _]. rewrite Hp in Hn. discriminate Hn.
  - simpl. split; [discriminate |].
    intros [[n Hn] _]. rewrite Hp in Hn. discriminate Hn.
Qed.

(** X25.  Which stage methods let an [Exception] out.  Nine of them never
    do, whatever the platform, ffmpeg, the backend or the file system
    do: each returns, and only an exception outside [Exception] can
    still escape.  [convert_to_wav] is the exception: it raises exactly
    when the input exists, ffmpeg raised [ffmpeg.Error] and the stderr
    of that error is not empty and not UTF-8, because its handler
    decodes stderr outside the reach of the other handler. *)
Theorem stage_methods_and_exceptions
    (e : env) (p q : str) (a b : option (list N)) (rate : N) (w : world)
    (t : Transcriber.transcript) (s : Summarizer.summary_file) (i : bool) :
  fst (Downloader.get_video_info e p w) <> Raise Exception
  /\ fst (Downloader.download_audio e p w) <> Raise Exception
  /\ fst (Converter.optimize_for_whisper e p q w) <> Raise Exception
  /\ fst (Converter.optimize_for_gemini e p w) <> Raise Exception
  /\ fst (Transcriber.transcribe_audio e p a b w) <> Raise Exception
  /\ fst (Summarizer.create_summary e q p q a w) <> Raise Exception
  /\ fst (Summarizer.analyze_content e q p a w) <> Raise Exception
  /\ fst (Transcriber.save_transcript e t p w) <> Raise Exception
  /\ fst (Summarizer.save_summary e s p i w) <> Raise Exception
  /\ (fst (Converter.convert_to_wav e p rate w) = Raise Exception
      <-> (is_Some (fs w !! p)
           /\ exists stderr,
                ffmpeg_run e (Converter.wav_args rate) p
                  (wav_output_path p) (fs w) = FfmpegError stderr
                /\ handler_raises stderr = true)).
Proof.
  do 9 (split; [apply try_except_ret_total |]).
  apply convert_to_wav_raises_iff.
Qed.

(** ** main.py: what a returned record guarantees *)

Lemma transcribe_audio_inv
    (e : env) (audio_path : str) (language source_language : option (list N))
    (w w' : world) (r : Transcriber.transcript) :
  Transcriber.transcribe_audio e audio_path language source_language w
  = (Ret (Some r), w') ->
  Transcriber.file_path r = audio_path
  /\ (Transcriber.file_size_mb r <= 20)%Q
  /\ Transcriber.language r = or_default language (py "auto-detectado")
  /\ Transcriber.source_language r = source_language
  /\ fs w' = fs w.
Proof.
  intros Hrun.
  unfold Transcriber.transcribe_audio, try_except in Hrun.
  unfold bind at 1 in Hrun. unfold path_exists in Hrun.
  destruct (fs w !! audio_path) as [n |] eqn:Hfile;
    [| destruct (stat_fails e audio_path); discriminate Hrun].
  cbn [negb] in Hrun. unfold bind at 1 in Hrun.
  rewrite (stat_size_some _ _ _ Hfile) in Hrun.
  destruct (Qle_bool (megabytes (st_size n)) 20) eqn:Hsize;
    [| discriminate Hrun].
  cbn [negb] in Hrun.
  unfold genai_upload, genai_generate, genai_delete, bind, emit, lift, ret
    in Hrun. cbn [fs trace] in Hrun.
  destruct (upload_file e audio_path) as [h | []]; try discriminate Hrun.
  destruct (generate_content e _ (Some h)) as [resp | []];
    try discriminate Hrun.
  destruct (delete_file e h) as [[] | []]; try discriminate Hrun.
  destruct (response_text resp) as [t | []]; try discriminate Hrun.
  injection Hrun as <- <-. cbn.
  split; [reflexivity | split; [apply Qle_bool_iff; exact Hsize |]].
  repeat split.
Qed.

Lemma analyze_content_inv
    (e : env) (model_name text : str) (target_language : option (list N))
    (w w' : world) (a : Summarizer.analysis) :
  Summarizer.analyze_content e model_name text target_language w
  = (Ret (Some a), w') ->
  Summarizer.analysis_target_language a
  = or_default target_language (py "original")
  /\ Summarizer.analysis_model_used a = model_name.
Proof.
  intros Hrun.
  unfold Summarizer.analyze_content, try_except, genai_generate, bind, emit,
    lift, ret in Hrun. cbn [fs trace] in Hrun.
  destruct (generate_content e _ None) as [resp | []];
    try discriminate Hrun.
  destruct (response_text resp) as [s | []]; try discriminate Hrun.
  injection Hrun as <- _. split; reflexivity.
Qed.

Lemma bind_inv {A B} (m : M A) (k : A -> M B) (w w' : world) (b : B) :
  bind m k w = (Ret b, w') ->
  exists a w1, m w = (Ret a, w1) /\ k a w1 = (Ret b, w').
Proof.
  unfold bind. destruct (m w) as [[a | ex] w1]; [| discriminate].
  intros H. exists a, w1. split; [reflexivity | exact H].
Qed.

Lemma nonempty_inv (o : option (list N)) (p : list N) :
  Main.nonempty o = Some p -> o = Some p /\ p <> [].
Proof.
  destruct o as [[| c s] |]; simpl; try discriminate.
  intros H. injection H as <-. split; [reflexivity | discriminate].
Qed.

(** A record comes out of the stages only when all six produced
    something, each started in the world the previous one left. *)
Lemma run_stages_inv
    (e : env) (c : Main.components) (url summary_type : str)
    (target source : option (list N)) (w w' : world)
    (fr : Main.final_result) :
  Main.run_stages e c url summary_type target source w
  = (Ret (Some fr), w') ->
  exists info audio converted td sd ad w1 w2 w3 w4 w5 w6,
    Main.get_video_info c url (after_step 1 w) = (Ret (Some info), w1)
    /\ Main.download_audio c url (after_step 2 w1)
       = (Ret (Some audio), w2)
    /\ audio <> []
    /\ Main.optimize_for_gemini c audio (after_step 3 w2)
       = (Ret (Some converted), w3)
    /\ converted <> []
    /\ Main.transcribe_audio c converted target source (after_step 4 w3)
       = (Ret (Some td), w4)
    /\ Main.create_summary c (Transcriber.text td) summary_type target
         (after_step 5 w4) = (Ret (Some sd), w5)
    /\ Main.analyze_content c (Transcriber.text td) target (after_step 6 w5)
       = (Ret ad, w6)
    /\ Main.video_info fr = info
    /\ Main.transcript fr = td
    /\ Main.summary fr = sd
    /\ Main.analysis fr = ad
    /\ Main.settings fr = Main.LanguageSettings source target
    /\ Main.files fr = Main.FilesProcessed audio converted.
Proof.
  intros Hrun. unfold Main.run_stages in Hrun.
  rewrite bind_step in Hrun.
  apply bind_inv in Hrun as [[info |] [w1 [H1 Hrun]]];
    [| discriminate Hrun].
  rewrite bind_step in Hrun.
  apply bind_inv in Hrun as [oaudio [w2 [H2 Hrun]]].
  destruct (Main.nonempty oaudio) as [audio |] eqn:Haudio;
    [| discriminate Hrun].
  apply nonempty_inv in Haudio as [-> Haudio].
  rewrite bind_step in Hrun.
  apply bind_inv in Hrun as [oconv [w3 [H3 Hrun]]].
  destruct (Main.nonempty oconv) as [converted |] eqn:Hconv;
    [| discriminate Hrun].
  apply nonempty_inv in Hconv as [-> Hconv].
  rewrite bind_step in Hrun.
  apply bind_inv in Hrun as [[td |] [w4 [H4 Hrun]]];
    [| discriminate Hrun].
  rewrite bind_step in Hrun.
  apply bind_inv in Hrun as [[sd |] [w5 [H5 Hrun]]];
    [| discriminate Hrun].
  rewrite bind_step in Hrun.
  apply bind_inv in Hrun as [ad [w6 [H6 Hrun]]].
  rewrite bind_step in Hrun.
  apply bind_inv in Hrun as [[] [w7 [_ Hrun]]].
  unfold ret in Hrun. injection Hrun as <- _.
  exists info, audio, converted, td, sd, ad, w1, w2, w3, w4, w5, w6.
  cbn. repeat split; assumption.
Qed.

Lemma analyze_video_inv
    (e : env) (c : Main.components) (url summary_type : str)
    (target source : option (list N)) (w w' : world)
    (fr : Main.final_result) :
  Main.analyze_video e c url summary_type target source w
  = (Ret (Some fr), w') ->
  Utils.validate_youtube_url url = true
  /\ exists w1,
       Main.run_stages e c url summary_type target source w
       = (Ret (Some fr), w1).
Proof.
  intros Hrun.
  destruct (Utils.validate_youtube_url url) eqn:Hvalid.
  - split; [reflexivity |].
    rewrite (analyze_video_valid _ _ _ _ _ _ _ Hvalid) in Hrun.
    unfold try_finally, try_except in Hrun.
    destruct (Main.run_stages e c url summary_type target source w)
      as [[r | []] w1] eqn:Hstages.
    + destruct (finalizer_returns e w1) as [w2 [evs [Hfin _]]].
      rewrite Hfin in Hrun. injection Hrun as -> _.
      exists w1. reflexivity.
    + unfold ret in Hrun.
      destruct (finalizer_returns e w1) as [w2 [evs [Hfin _]]].
      rewrite Hfin in Hrun. discriminate Hrun.
    + destruct (finalizer_returns e w1) as [w2 [evs [Hfin _]]].
      rewrite Hfin in Hrun. discriminate Hrun.
  - rewrite (invalid_url_skips_cleanup _ _ _ _ _ _ _ Hvalid) in Hrun.
    discriminate Hrun.
Qed.

(** X26.  Every record [analyze_video] returns, with the analyzer's own
    collaborators: the URL was accepted; the transcript, the summary and
    the analysis (when there is one) all carry the requested target
    language, or their marker for none; the settings are the directive
    that was passed; the transcript was made from the converted file,
    which had at most 20 megabytes; its text has at least 50 trimmed
    characters; the summary counts at most 30,024 characters of
    original. *)
Theorem returned_record_invariants
    (e : env) (url summary_type : str) (target source : option (list N))
    (w w' : world) (fr : Main.final_result) :
  Main.analyze_video e (Main.YouTubeAnalyzer e) url summary_type target
    source w = (Ret (Some fr), w') ->
  Utils.validate_youtube_url url = true
  /\ Transcriber.language (Main.transcript fr)
     = or_default target (py "auto-detectado")
  /\ Transcriber.source_language (Main.transcript fr) = source
  /\ Summarizer.target_language (Main.summary fr)
     = or_default target (py "original")
  /\ (forall a, Main.analysis fr = Some a ->
                Summarizer.analysis_target_language a
                = or_default target (py "original"))
  /\ Main.settings fr = Main.LanguageSettings source target
  /\ Summarizer.summary_type (Main.summary fr) = summary_type
  /\ Transcriber.file_path (Main.transcript fr)
     = Main.converted_audio (Main.files fr)
  /\ (Transcriber.file_size_mb (Main.transcript fr) <= 20)%Q
  /\ 50 <= len (strip (Transcriber.text (Main.transcript fr)))
  /\ Summarizer.original_length (Main.summary fr) <= 30024.
Proof.
  intros Hrun.
  apply analyze_video_inv in Hrun as [Hvalid [w1 Hstages]].
  apply run_stages_inv in Hstages
    as (info & audio & converted & td & sd & ad & v1 & v2 & v3 & v4 & v5
        & v6 & _ & _ & _ & _ & _ & Htd & Hsd & Had & _ & Ftd & Fsd & Fad
        & Fset & Ffiles).
  cbn [Main.YouTubeAnalyzer Main.transcribe_audio Main.create_summary
       Main.analyze_content] in Htd, Hsd, Had.
  destruct (transcribe_audio_inv _ _ _ _ _ _ _ Htd)
    as [Hpath [Hsize [Hlang [Hsrc _]]]].
  pose proof (create_summary_inv _ _ _ _ _ _ _ _ Hsd)
    as [Hmin [_ [Horig [_ [Hstyle Hslang]]]]].
  rewrite Ftd, Fsd, Fad, Fset, Ffiles. cbn [Main.converted_audio].
  split; [exact Hvalid |].
  split; [exact Hlang | split; [exact Hsrc | split; [exact Hslang |]]].
  split.
  { intros a ->. exact (proj1 (analyze_content_inv _ _ _ _ _ _ _ Had)). }
  split; [reflexivity | split; [exact Hstyle | split; [exact Hpath |]]].
  split; [exact Hsize | split; [exact Hmin |]].
  rewrite Horig. unfold Summarizer.limit_text, Summarizer.max_chars.
  destruct (30000 <? len (Transcriber.text td)) eqn:Hlong.
  - unfold len. rewrite length_app, truncation_marker_length.
    unfold slice_to. rewrite length_take. lia.
  - apply N.ltb_ge in Hlong. lia.
Qed.

Lemma returned_record_witness :
  let e := Demo.backend Demo.long_text (py "a summary") [] in
  exists fr w',
    Main.analyze_video e (Main.YouTubeAnalyzer e) Demo.url (py "paragraph")
      (Some (py "es")) (Some (py "en")) Demo.fresh
    = (Ret (Some fr), w')
    /\ Transcriber.language (Main.transcript fr) = py "es"
    /\ Summarizer.target_language (Main.summary fr) = py "es"
    /\ (forall a, Main.analysis fr = Some a ->
                  Summarizer.analysis_target_language a = py "es").
Proof.
  intros e.
  destruct (Main.analyze_video e (Main.YouTubeAnalyzer e) Demo.url
              (py "paragraph") (Some (py "es")) (Some (py "en")) Demo.fresh)
    as [[[fr |] | ex] w'] eqn:Hrun.
  - exists fr, w'. split; [reflexivity |].
    destruct (returned_record_invariants _ _ _ _ _ _ _ _ Hrun)
      as [_ [Hlang [_ [Hslang [Halang _]]]]].
    split; [exact Hlang | split; [exact Hslang | exact Halang]].
  - exfalso.
    assert (H : fst (Main.analyze_video e (Main.YouTubeAnalyzer e) Demo.url
                       (py "paragraph") (Some (py "es")) (Some (py "en"))
                       Demo.fresh) <> Ret None)
      by (vm_compute; discriminate).
    rewrite Hrun in H. apply H. reflexivity.
  - exfalso.
    assert (H : match fst (Main.analyze_video e (Main.YouTubeAnalyzer e)
                             Demo.url (py "paragraph") (Some (py "es"))
                             (Some (py "en")) Demo.fresh)
                with Raise _ => False | _ => True end)
      by (vm_compute; exact I).
    rewrite Hrun in H. exact H.
Defined.

(** ** main.py: how the stages chain *)

(** X27.  A stage that returns nothing ends the stages there: the world is
    the one that stage left, so no later stage has run.  This holds for
    the metadata, for the download (also when it returns an empty path),
    for the conversion (likewise) and for the transcription. *)
Theorem failed_stage_stops_the_run
    (e : env) (c : Main.components) (url summary_type : str)
    (target source : option (list N)) (w : world)
    (info : Downloader.video_info) (audio converted : list N) :
  let w1 := snd (Main.get_video_info c url (after_step 1 w)) in
  let w2 := snd (Main.download_audio c url (after_step 2 w1)) in
  let w3 := snd (Main.optimize_for_gemini c audio (after_step 3 w2)) in
  let w4 := snd (Main.transcribe_audio c converted target source
                   (after_step 4 w3)) in
  let run := Main.run_stages e c url summary_type target source w in
  (fst (Main.get_video_info c url (after_step 1 w)) = Ret None ->
   run = (Ret None, w1))
  /\ (fst (Main.get_video_info c url (after_step 1 w)) = Ret (Some info) ->
      (forall o, fst (Main.download_audio c url (after_step 2 w1)) = Ret o ->
                 Main.nonempty o = None -> run = (Ret None, w2))
      /\ (fst (Main.download_audio c url (after_step 2 w1))
          = Ret (Some audio) ->
          audio <> [] ->
          (forall o,
             fst (Main.optimize_for_gemini c audio (after_step 3 w2))
             = Ret o ->
             Main.nonempty o = None -> run = (Ret None, w3))
          /\ (fst (Main.optimize_for_gemini c audio (after_step 3 w2))
              = Ret (Some converted) ->
              converted <> [] ->
              fst (Main.transcribe_audio c converted target source
                     (after_step 4 w3)) = Ret None ->
              run = (Ret None, w4)))).
Proof.
  intros w1 w2 w3 w4 run. unfold run, Main.run_stages.
  rewrite bind_step. split.
  - intros H1. rewrite (bind_fst _ _ _ _ H1). reflexivity.
  - intros H1. rewrite (bind_fst _ _ _ _ H1). fold w1.
    rewrite bind_step. split.
    + intros o H2 Ho. rewrite (bind_fst _ _ _ _ H2). fold w2.
      rewrite Ho. reflexivity.
    + intros H2 Hne2. rewrite (bind_fst _ _ _ _ H2). fold w2.
      rewrite (nonempty_some _ Hne2). rewrite bind_step. split.
      * intros o H3 Ho. rewrite (bind_fst _ _ _ _ H3). fold w3.
        rewrite Ho. reflexivity.
      * intros H3 Hne3 H4. rewrite (bind_fst _ _ _ _ H3). fold w3.
        rewrite (nonempty_some _ Hne3). rewrite bind_step.
        rewrite (bind_fst _ _ _ _ H4). reflexivity.
Qed.

Lemma failed_stage_witness :
  let e := Cases.no_audio in
  let c := Main.YouTubeAnalyzer e in
  exists info,
    fst (Main.get_video_info c Demo.url (after_step 1 Demo.fresh))
    = Ret (Some info)
    /\ fst (Main.download_audio c Demo.url
              (after_step 2
                 (snd (Main.get_video_info c Demo.url
                         (after_step 1 Demo.fresh))))) = Ret None
    /\ Main.run_stages e c Demo.url (py "structured") None None Demo.fresh
       = (Ret None,
          World (fs Demo.fresh) [EStep 1; EStep 2]).
Proof.
  intros e c.
  assert (H1 : fst (Main.get_video_info c Demo.url
                      (after_step 1 Demo.fresh)) = Ret (Some _))
    by reflexivity.
  assert (H2 : fst (Main.download_audio c Demo.url
                      (after_step 2
                         (snd (Main.get_video_info c Demo.url
                                 (after_step 1 Demo.fresh))))) = Ret None)
    by reflexivity.
  eexists. split; [exact H1 | split; [exact H2 |]].
  match type of H1 with
  | _ = Ret (Some ?i) =>
      pose proof (failed_stage_stops_the_run e c Demo.url (py "structured")
                    None None Demo.fresh i [] []) as Hstop
  end.
  cbv zeta in Hstop.
  destruct Hstop as [_ Hstop].
  destruct (Hstop H1) as [Hdownload _].
  rewrite (Hdownload None H2 eq_refl). reflexivity.
Defined.

(** X28.  A run whose first five stages succeed and whose analysis returns
    nothing still returns a record, with the analysis left empty and
    the summary and transcript in place, unless saving ends with an
    exception outside [Exception]; an [Exception] while saving is
    swallowed. *)
Theorem analysis_failure_is_tolerated
    (e : env) (c : Main.components) (url summary_type : str)
    (target source : option (list N)) (w : world)
    (info : Downloader.video_info) (audio converted : list N)
    (td : Transcriber.transcript) (sd : Summarizer.summary) :
  let w1 := snd (Main.get_video_info c url (after_step 1 w)) in
  let w2 := snd (Main.download_audio c url (after_step 2 w1)) in
  let w3 := snd (Main.optimize_for_gemini c audio (after_step 3 w2)) in
  let w4 := snd (Main.transcribe_audio c converted target source
                   (after_step 4 w3)) in
  let w5 := snd (Main.create_summary c (Transcriber.text td) summary_type
                   target (after_step 5 w4)) in
  fst (Main.get_video_info c url (after_step 1 w)) = Ret (Some info) ->
  fst (Main.download_audio c url (after_step 2 w1)) = Ret (Some audio) ->
  audio <> [] ->
  fst (Main.optimize_for_gemini c audio (after_step 3 w2))
  = Ret (Some converted) ->
  converted <> [] ->
  fst (Main.transcribe_audio c converted target source (after_step 4 w3))
  = Ret (Some td) ->
  fst (Main.create_summary c (Transcriber.text td) summary_type target
         (after_step 5 w4)) = Ret (Some sd) ->
  fst (Main.analyze_content c (Transcriber.text td) target
         (after_step 6 w5)) = Ret None ->
  exists r w',
    Main.run_stages e c url summary_type target source w = (r, w')
    /\ (r = Raise BaseException
        \/ exists fr,
             r = Ret (Some fr)
             /\ Main.analysis fr = None
             /\ Main.summary fr = sd
             /\ Main.transcript fr = td
             /\ Main.video_info fr = info).
Proof.
  intros w1 w2 w3 w4 w5 H1 H2 Hne2 H3 Hne3 H4 H5 H6.
  unfold Main.run_stages.
  rewrite bind_step, (bind_fst _ _ _ _ H1). fold w1.
  rewrite bind_step, (bind_fst _ _ _ _ H2). fold w2.
  rewrite (nonempty_some _ Hne2).
  rewrite bind_step, (bind_fst _ _ _ _ H3). fold w3.
  rewrite (nonempty_some _ Hne3).
  rewrite bind_step, (bind_fst _ _ _ _ H4). fold w4.
  rewrite bind_step, (bind_fst _ _ _ _ H5). fold w5.
  rewrite bind_step, (bind_fst _ _ _ _ H6).
  rewrite bind_step.
  unfold bind at 1. unfold Main._save_results at 1. unfold try_except at 1.
  match goal with
  | |- context [match ?body ?w0 with _ => _ end] =>
      destruct (body w0) as [[[] | []] w7]
  end.
  - eexists. eexists. split; [reflexivity |]. right.
    eexists. split; [reflexivity |]. repeat split.
  - eexists. eexists. split; [reflexivity |]. right.
    eexists. split; [reflexivity |]. repeat split.
  - eexists. eexists. split; [reflexivity |]. left. reflexivity.
Qed.

Lemma analysis_failure_witness :
  let e := Cases.analysis_down in
  exists td sd r w',
    Transcriber.text td = Demo.long_text
    /\ Summarizer.summary_text sd = py "a summary"
    /\ Main.run_stages e (Main.YouTubeAnalyzer e) Demo.url (py "structured")
         None None Demo.fresh = (r, w')
    /\ (r = Raise BaseException
        \/ exists fr,
             r = Ret (Some fr)
             /\ Main.analysis fr = None
             /\ Main.summary fr = sd
             /\ Main.transcript fr = td
             /\ Main.video_info fr = Demo.info).
Proof.
  intros e.
  assert (H1 : fst (Main.get_video_info (Main.YouTubeAnalyzer e) Demo.url
                      (after_step 1 Demo.fresh)) = Ret (Some Demo.info))
    by (vm_compute; reflexivity).
  assert (H4 : exists td,
             Transcriber.text td = Demo.long_text
             /\ exists sd,
                  Summarizer.summary_text sd = py "a summary"
                  /\ exists r w',
                       Main.run_stages e (Main.YouTubeAnalyzer e) Demo.url
                         (py "structured") None None Demo.fresh = (r, w')
                       /\ (r = Raise BaseException
                           \/ exists fr,
                                r = Ret (Some fr)
                                /\ Main.analysis fr = None
                                /\ Main.summary fr = sd
                                /\ Main.transcript fr = td
                                /\ Main.video_info fr = Demo.info)).
  { eexists. split; [| eexists; split;
      [| refine (analysis_failure_is_tolerated e (Main.YouTubeAnalyzer e)
                   Demo.url (py "structured") None None Demo.fresh
                   Demo.info Demo.downloaded Demo.converted _ _
                   H1 _ _ _ _ _ _ _)]].
    3: reflexivity.
    3: discriminate.
    3: reflexivity.
    3: discriminate.
    3: reflexivity.
    3: reflexivity.
    3: vm_compute; reflexivity.
    all: reflexivity. }
  destruct H4 as [td [Htd [sd [Hsd [r [w' Hrun]]]]]].
  exists td, sd, r, w'. split; [exact Htd | split; [exact Hsd | exact Hrun]].
Defined.

(** ** main.py: saving the results *)

Lemma write_text_file_spec (e : env) (p : str) (w : world) :
  catchable (open_w e p) = true ->
  exists r,
    write_text_file e p w
    = (r, World (files_after_write e p (fs w)) (trace w ++ [EWrite p]))
    /\ r <> Raise BaseException.
Proof.
  intros Hcatch.
  unfold write_text_file, files_after_write, bind, emit, write_node.
  cbn [fs trace].
  destruct (fs w !! p) as [[[] size0] |]; cbn [option_map node_kind].
  - destruct (open_w e p) as [size | [] | size []];
      try discriminate Hcatch; cbn [left_behind];
      eexists; (split; [reflexivity | discriminate]).
  - destruct (left_behind (open_w e p));
      eexists; (split; [reflexivity | discriminate]).
  - destruct (open_w e p) as [size | [] | size []];
      try discriminate Hcatch; cbn [left_behind];
      eexists; (split; [reflexivity | discriminate]).
Qed.

Lemma write_attempt {A} (e : env) (p : str) (x y : A) (w : world) :
  catchable (open_w e p) = true ->
  exists r,
    try_except (let! _ := write_text_file e p in ret x) (ret y) w
    = (Ret r, World (files_after_write e p (fs w)) (trace w ++ [EWrite p])).
Proof.
  intros Hcatch.
  destruct (write_text_file_spec e p w Hcatch) as [r [Hrun Hr]].
  unfold try_except, bind. rewrite Hrun.
  destruct r as [[] | []]; [| | congruence]; eexists; reflexivity.
Qed.

Lemma report_attempt (e : env) (data : Main.final_result) (p : str)
    (w : world) :
  catchable (open_w e p) = true ->
  Main._create_full_report e data p w
  = (Ret tt, World (files_after_write e p (fs w)) (trace w ++ [EWrite p])).
Proof.
  intros Hcatch.
  destruct (write_text_file_spec e p w Hcatch) as [r [Hrun Hr]].
  unfold Main._create_full_report, try_except. rewrite Hrun.
  destruct r as [[] | []]; [| | congruence]; reflexivity.
Qed.

Lemma files_after_write_other (e : env) (p q : str)
    (files : gmap (list N) node) :
  q <> p -> files_after_write e p files !! q = files !! q.
Proof.
  intros Hne. unfold files_after_write.
  destruct (option_map node_kind (files !! p)) as [[] |];
    destruct (left_behind (open_w e p)); try reflexivity;
    apply lookup_insert_ne; congruence.
Qed.

Lemma files_after_write_same (e : env) (p : str)
    (files : gmap (list N) node) :
  files_after_write e p files !! p
  = match option_map node_kind (files !! p), left_behind (open_w e p) with
    | Some Directory, _ => files !! p
    | _, Some size => Some (Node Regular size)
    | _, None => files !! p
    end.
Proof.
  unfold files_after_write.
  destruct (option_map node_kind (files !! p)) as [[] |];
    destruct (left_behind (open_w e p)); try reflexivity;
    apply lookup_insert_eq.
Qed.

Lemma saved_path_not_output (name : str) :
  path_join (py "output") name <> py "output".
Proof.
  intros H. apply (f_equal (@length N)) in H.
  unfold path_join in H. rewrite length_app in H. simpl in H. lia.
Qed.

Lemma saved_names_differ (base a b : str) :
  a <> b ->
  path_join (py "output") (base ++ a) <> path_join (py "output") (base ++ b).
Proof.
  intros Hab H. unfold path_join in H.
  apply app_inv_head in H. injection H as H.
  apply app_inv_head in H. exact (Hab H).
Qed.

(** X29.  When [output] is free or a directory and no write ends with an
    exception outside [Exception], [_save_results] returns normally and
    has tried to open the three files, in the order transcript, summary,
    report, whether or not the earlier ones could be written; all three
    are entries of [output] named from the same prefix.  Afterwards
    [output] is a directory; each of the three files that was opened
    exists, with the size its write left, also when a write failed half
    way; a file that could not be opened is as it was before; and
    nothing else changes. *)
Theorem save_results_attempts_every_file
    (e : env) (data : Main.final_result) (video_title : str) (w : world) :
  (forall n, fs w !! py "output" = Some n -> node_kind n = Directory) ->
  (forall p, catchable (open_w e p) = true) ->
  let paths :=
    saved_paths
      (Main.base_filename e video_title
         (Main.target_language (Main.settings data))) in
  exists w',
    Main._save_results e (Main.YouTubeAnalyzer e) data video_title w
    = (Ret tt, w')
    /\ trace w' = trace w ++ List.map EWrite paths
    /\ (exists n, fs w' !! py "output" = Some n /\ node_kind n = Directory)
    /\ (forall p size,
          In p paths ->
          left_behind (open_w e p) = Some size ->
          (forall n, fs w !! p = Some n -> node_kind n = Regular) ->
          fs w' !! p = Some (Node Regular size))
    /\ (forall p,
          In p paths ->
          left_behind (open_w e p) = None ->
          fs w' !! p = fs w !! p)
    /\ (forall q,
          q <> py "output" -> ~ In q paths -> fs w' !! q = fs w !! q).
Proof.
  intros Hdir Hopen paths.
  destruct (mkdir_spec (py "output") w Hdir)
    as [w1 [Hmk [Hnew [_ [Hother Htrace]]]]].
  unfold Main._save_results.
  fold (saved_paths (Main.base_filename e video_title
                       (Main.target_language (Main.settings data)))).
  unfold saved_paths in paths.
  set (p1 := path_join (py "output") (_ ++ py "_transcricao_gemini.txt"))
    in *.
  set (p2 := path_join (py "output") (_ ++ py "_resumo_gemini.md")) in *.
  set (p3 := path_join (py "output")
               (_ ++ py "_relatorio_completo_gemini.md")) in *.
  assert (H12 : p1 <> p2)
    by (apply saved_names_differ; vm_compute; discriminate).
  assert (H13 : p1 <> p3)
    by (apply saved_names_differ; vm_compute; discriminate).
  assert (H23 : p2 <> p3)
    by (apply saved_names_differ; vm_compute; discriminate).
  assert (Ho1 : p1 <> py "output") by apply saved_path_not_output.
  assert (Ho2 : p2 <> py "output") by apply saved_path_not_output.
  assert (Ho3 : p3 <> py "output") by apply saved_path_not_output.
  unfold try_except at 1. unfold bind at 1. rewrite Hmk.
  unfold bind at 1. simpl Main.save_transcript.
  unfold Transcriber.save_transcript.
  destruct (write_attempt e p1 true false w1 (Hopen p1)) as [r1 Hw1].
  rewrite Hw1.
  unfold bind at 1. simpl Main.save_summary.
  unfold Summarizer.save_summary.
  destruct (write_attempt e p2 true false
              (World (files_after_write e p1 (fs w1))
                 (trace w1 ++ [EWrite p1])) (Hopen p2)) as [r2 Hw2].
  rewrite Hw2.
  rewrite (report_attempt e data p3 _ (Hopen p3)).
  eexists. split; [reflexivity |]. cbn [fs trace].
  split; [subst paths; simpl; rewrite Htrace, <- !app_assoc; reflexivity |].
  split.
  { rewrite !files_after_write_other by congruence. exact Hnew. }
  split; [| split].
  - intros p size Hin Hleft Hfile.
    assert (Hold : fs w1 !! p = fs w !! p).
    { apply Hother. subst paths. simpl in Hin.
      destruct Hin as [<- | [<- | [<- | []]]]; assumption. }
    assert (Hnodir : match option_map node_kind (fs w1 !! p),
                           left_behind (open_w e p) with
                     | Some Directory, _ => fs w1 !! p
                     | _, Some size0 => Some (Node Regular size0)
                     | _, None => fs w1 !! p
                     end = Some (Node Regular size)).
    { rewrite Hleft, Hold.
      destruct (fs w !! p) as [[k size0] |] eqn:Hp; [| reflexivity].
      specialize (Hfile _ eq_refl). simpl in Hfile. subst k. reflexivity. }
    subst paths. simpl in Hin. destruct Hin as [<- | [<- | [<- | []]]].
    + rewrite !files_after_write_other by congruence.
      rewrite files_after_write_same. exact Hnodir.
    + rewrite files_after_write_other by congruence.
      rewrite files_after_write_same.
      rewrite files_after_write_other by congruence. exact Hnodir.
    + rewrite files_after_write_same.
      rewrite !files_after_write_other by congruence. exact Hnodir.
  - intros p Hin Hleft.
    assert (Hold : fs w1 !! p = fs w !! p).
    { apply Hother. subst paths. simpl in Hin.
      destruct Hin as [<- | [<- | [<- | []]]]; assumption. }
    assert (Hsame : match option_map node_kind (fs w1 !! p),
                          left_behind (open_w e p) with
                    | Some Directory, _ => fs w1 !! p
                    | _, Some size0 => Some (Node Regular size0)
                    | _, None => fs w1 !! p
                    end = fs w !! p).
    { rewrite Hleft, Hold.
      destruct (option_map node_kind (fs w !! p)) as [[] |]; reflexivity. }
    subst paths. simpl in Hin. destruct Hin as [<- | [<- | [<- | []]]].
    + rewrite !files_after_write_other by congruence.
      rewrite files_after_write_same. exact Hsame.
    + rewrite files_after_write_other by congruence.
      rewrite files_after_write_same.
      rewrite files_after_write_other by congruence. exact Hsame.
    + rewrite files_after_write_same.
      rewrite !files_after_write_other by congruence. exact Hsame.
  - intros q Hq Hnot. subst paths.
    assert (Hq1 : q <> p1) by (intros Heq; apply Hnot; left; congruence).
    assert (Hq2 : q <> p2)
      by (intros Heq; apply Hnot; right; left; congruence).
    assert (Hq3 : q <> p3)
      by (intros Heq; apply Hnot; right; right; left; congruence).
    rewrite (files_after_write_other e p3 q _ Hq3).
    rewrite (files_after_write_other e p2 q _ Hq2).
    rewrite (files_after_write_other e p1 q _ Hq1).
    apply Hother. exact Hq.
Qed.

Lemma save_results_attempts_witness :
  let e := Demo.backend Demo.long_text (py "a summary") [] in
  let data :=
    Main.FinalResult Demo.info Demo.short_transcript
      (Summarizer.Summary (py "s") 30 1 (1 # 30) (py "m") (py "bullet_points")
         (py "es"))
      None (py "now") (py "Google Gemini")
      (Main.LanguageSettings None (Some (py "es")))
      (Main.FilesProcessed Demo.downloaded Demo.converted) in
  let report :=
    py "output/My talk_ part 1_20240101_120000_es_relatorio_completo_gemini.md"
  in
  exists w',
    Main._save_results e (Main.YouTubeAnalyzer e) data (py "My talk: part 1")
      Demo.fresh = (Ret tt, w')
    /\ trace w'
       = [EWrite (py "output/My talk_ part 1_20240101_120000_es_transcricao_gemini.txt");
          EWrite (py "output/My talk_ part 1_20240101_120000_es_resumo_gemini.md");
          EWrite report]
    /\ fs w' !! report = Some (Node Regular 2048)
    /\ fs w' !! Demo.downloaded = fs Demo.fresh !! Demo.downloaded.
Proof.
  intros e data report.
  assert (Hdir : forall n, fs Demo.fresh !! py "output" = Some n ->
                           node_kind n = Directory)
    by (intros n H; vm_compute in H; discriminate).
  assert (Hopen : forall p, catchable (open_w e p) = true)
    by (intros p; reflexivity).
  destruct (save_results_attempts_every_file e data (py "My talk: part 1")
              Demo.fresh Hdir Hopen)
    as [w' [Hrun [Htrace [_ [Hwritten [_ Hrest]]]]]].
  exists w'. split; [exact Hrun |].
  split; [rewrite Htrace; vm_compute; reflexivity |].
  split.
  - apply Hwritten.
    + vm_compute. tauto.
    + reflexivity.
    + intros n H. vm_compute in H. discriminate H.
  - apply Hrest.
    + vm_compute. discriminate.
    + vm_compute. intros [H | [H | [H | []]]]; discriminate H.
Defined.

(** X30.  When [output] names a regular file, saving writes nothing: no file
    is opened, the world is left as it was, and the caller is not told,
    since the call still returns normally.  This holds whatever the
    transcriber and the summarizer are. *)
Theorem save_results_blocked_by_file
    (e : env) (c : Main.components) (data : Main.final_result)
    (video_title : str) (w : world) (n : node) :
  fs w !! py "output" = Some n ->
  node_kind n = Regular ->
  Main._save_results e c data video_title w = (Ret tt, w).
Proof.
  intros Hout Hkind. unfold Main._save_results, try_except.
  unfold bind at 1. rewrite (mkdir_on_file _ _ _ Hout Hkind).
  reflexivity.
Qed.

Lemma save_results_blocked_witness :
  let e := Demo.backend Demo.long_text (py "a summary") [] in
  let w := Demo.with_file (py "output") 12 in
  let data :=
    Main.FinalResult Demo.info Demo.short_transcript
      (Summarizer.Summary (py "s") 30 1 (1 # 30) (py "m") (py "bullet_points")
         (py "es"))
      None (py "now") (py "Google Gemini")
      (Main.LanguageSettings None None)
      (Main.FilesProcessed Demo.downloaded Demo.converted) in
  Main._save_results e (Main.YouTubeAnalyzer e) data (py "My talk: part 1") w
  = (Ret tt, w).
Proof.
  intros e w data.
  apply (save_results_blocked_by_file e (Main.YouTubeAnalyzer e) data
           (py "My talk: part 1") w (Node Regular 12)).
  - vm_compute. reflexivity.
  - reflexivity.
Defined.
